(** * Document crawler: a shallow embedding of [src/crawler/crawler.py]

    The Python functions of the crawler are transcribed as Rocq functions.
    A Python [str] is a [string] whose characters are read as code points
    below 256.  Functions that print, raise or touch the crawler object live
    in a small state-and-exception monad [M]; external libraries (python-docx,
    openpyxl, xlrd, pdfplumber, PyPDF2, zipfile, py7zr, rarfile, os.walk) are
    black boxes whose answers are carried by the [file] nodes they would be
    applied to. *)

From Stdlib Require Import String Ascii List ZArith Lia Bool Arith DecimalString.
Import ListNotations.
Open Scope string_scope.

(** ** Python [str] helpers *)

Definition LF : string := String "010"%char "".
Definition TAB : string := String "009"%char "".
Definition NUL : string := String "000"%char "".

(** [str.isspace] on one character ([Py_UNICODE_ISSPACE]), which is also the
    class [\s] of [re] on [str] patterns: U+0009..U+000D, U+001C..U+001F,
    U+0020, U+0085, U+00A0 (the members below 256). *)
Definition isspace (c : ascii) : bool :=
  let n := nat_of_ascii c in
  ((9 <=? n)%nat && (n <=? 13)%nat) || ((28 <=? n)%nat && (n <=? 31)%nat)
  || (n =? 32)%nat || (n =? 133)%nat || (n =? 160)%nat.

(** [re.sub(r'\s+', ' ', text)]: every maximal run of whitespace becomes one
    space.  [in_run] records that the previous character belonged to the run
    that has already been replaced. *)
Fixpoint sub_whitespace (in_run : bool) (text : string) : string :=
  match text with
  | "" => ""
  | String c rest =>
      if isspace c
      then if in_run then sub_whitespace true rest
           else String " " (sub_whitespace true rest)
      else String c (sub_whitespace false rest)
  end.

Definition re_sub_whitespace (text : string) : string :=
  sub_whitespace false text.

Fixpoint lstrip (s : string) : string :=
  match s with
  | "" => ""
  | String c rest => if isspace c then lstrip rest else s
  end.

Fixpoint rstrip (s : string) : string :=
  match s with
  | "" => ""
  | String c rest =>
      match rstrip rest with
      | "" => if isspace c then "" else String c ""
      | r => String c r
      end
  end.

(** [str.strip()] *)
Definition strip (s : string) : string := rstrip (lstrip s).

(** [s.replace(c, '')] for a one-character [c]. *)
Fixpoint replace_char_empty (c : ascii) (s : string) : string :=
  match s with
  | "" => ""
  | String x rest =>
      if Ascii.eqb x c then replace_char_empty c rest
      else String x (replace_char_empty c rest)
  end.

(** Truth value of a [str]: non-empty. *)
Definition truthy (s : string) : bool :=
  match s with "" => false | _ => true end.

(** [clean_text], crawler.py lines 73-78. *)
Definition clean_text (text : string) : string :=
  if negb (truthy text) then ""
  else replace_char_empty "000"%char (strip (re_sub_whitespace text)).

(** [str.lower()] on code points below 256: A-Z and the Latin-1 capitals.  On
    such strings [str.lower] acts character by character; its one
    context-sensitive rule (final sigma, U+03A3) lies outside this range, so
    nothing here speaks about names that hold it. *)
Definition lower_char (c : ascii) : ascii :=
  let n := nat_of_ascii c in
  if ((65 <=? n)%nat && (n <=? 90)%nat)
     || ((192 <=? n)%nat && (n <=? 222)%nat && negb (n =? 215)%nat)
  then ascii_of_nat (n + 32) else c.

Fixpoint lower (s : string) : string :=
  match s with
  | "" => ""
  | String c rest => String (lower_char c) (lower rest)
  end.

(** [x in l] for a list of strings. *)
Definition str_in (x : string) (l : list string) : bool :=
  existsb (String.eqb x) l.

(** [str(n)] for a non-negative [int]. *)
Definition str_of_nat (n : nat) : string :=
  NilZero.string_of_uint (Nat.to_uint n).

(** Slices [s[n:]] and [s[:n]] for [0 <= n]. *)
Fixpoint drop (n : nat) (s : string) : string :=
  match n, s with
  | O, _ => s
  | S n', String _ rest => drop n' rest
  | S _, "" => ""
  end.

Fixpoint take (n : nat) (s : string) : string :=
  match n, s with
  | O, _ => ""
  | S n', String c rest => String c (take n' rest)
  | S _, "" => ""
  end.

(** [s.rfind(c)]: index of the last occurrence, [-1] when absent. *)
Fixpoint rfind (c : ascii) (s : string) : Z :=
  match s with
  | "" => (-1)%Z
  | String x rest =>
      let r := rfind c rest in
      if (0 <=? r)%Z then (r + 1)%Z
      else if Ascii.eqb x c then 0%Z else (-1)%Z
  end.

(** ** [os.path] (posixpath) *)

(** [os.path.basename]: [p[p.rfind('/') + 1:]]. *)
Definition basename (p : string) : string :=
  drop (Z.to_nat (rfind "/"%char p + 1)) p.

(** The [while] loop of [genericpath._splitext]: scan [filenameIndex] up to
    [dotIndex]; the first character that is not a dot makes the split valid.
    [n] bounds the number of iterations by [dotIndex - filenameIndex]. *)
Fixpoint splitext_scan (n : nat) (filenameIndex dotIndex : nat) (p : string)
  : bool :=
  match n with
  | O => false
  | S n' =>
      if (filenameIndex <? dotIndex)%nat then
        match get filenameIndex p with
        | Some c =>
            if negb (Ascii.eqb c "."%char) then true
            else splitext_scan n' (S filenameIndex) dotIndex p
        | None => true
        end
      else false
  end.

(** [os.path.splitext]. *)
Definition splitext (p : string) : string * string :=
  let sepIndex := rfind "/"%char p in
  let dotIndex := rfind "."%char p in
  if (sepIndex <? dotIndex)%Z then
    let filenameIndex := Z.to_nat (sepIndex + 1) in
    if splitext_scan (Z.to_nat dotIndex - filenameIndex)
         filenameIndex (Z.to_nat dotIndex) p
    then (take (Z.to_nat dotIndex) p, drop (Z.to_nat dotIndex) p)
    else (p, "")
  else (p, "").

(** [os.path.join(a, b)] for two components. *)
Definition path_join (a b : string) : string :=
  match b with
  | String "/"%char _ => b
  | _ =>
      match a with
      | "" => b
      | _ => if String.eqb (drop (String.length a - 1) a) "/" then a ++ b
             else a ++ "/" ++ b
      end
  end.

(** ** Module constants *)

Definition SUPPORTED_documents : list string := [".docx"; ".doc"; ".pdf"].
Definition SUPPORTED_spreadsheets : list string := [".xlsx"; ".xls"].
Definition SUPPORTED_archives : list string := [".zip"; ".7z"; ".rar"].

(** ** Results of calls that may raise *)

Inductive result (A : Type) : Type :=
| Ok (a : A)
| Raise (e : string).
Arguments Ok {A} a.
Arguments Raise {A} e.

(** ** What the external readers see in a file *)

(** python-docx: [doc.paragraphs] as their [.text]; [doc.tables] as tables of
    rows of cell texts. *)
Record docx_doc : Type := mkDocx {
  paragraphs : list string;
  tables : list (list (list string))
}.

(** openpyxl: a sheet with its rows as [iter_rows(values_only=True)] yields
    them; a cell is [None] or a value, kept as its [str()]. *)
Record xlsx_sheet : Type := mkXlsx {
  sheet_title : string;
  iter_rows : list (list (option string))
}.

(** xlrd: a sheet with [nrows], [ncols] and [cell_value]. *)
Record xls_sheet : Type := mkXls {
  sheet_name : string;
  nrows : nat;
  ncols : nat;
  cell_value : nat -> nat -> option string
}.

(** A PDF page: what [page.extract_text()] does: raise, [None] or text. *)
Definition pdf_page : Type := result (option string).

(** One record of the output, the [dict] built by [_process_file]. *)
Inductive file_type_t : Type := document_t | spreadsheet_t.

Record document : Type := mkDocument {
  id : nat;
  file_path : string;
  file_name : string;
  file_type : file_type_t;
  file_size : Z;
  content : string;
  archive_path : string;
  created_date : string;
  content_hash : string
}.

(** A regular file on disk.  [name] is its directory-entry name (or its member
    name inside the archive that holds it).  [os.stat], [open] and the MD5
    digest succeed on it.  The other fields are the answers of the libraries
    when applied to this file: the value or the exception of
    [docx.Document], [openpyxl.load_workbook], [xlrd.open_workbook],
    [pdfplumber.open], [PyPDF2.PdfReader]; and for the archive reader chosen
    by the extension, [extract_raises] is the exception of opening or
    [extractall], and [members] are the entries of [namelist()] that are
    regular files after extraction, in that order. *)
#[local] Set Warnings "-register-all".
Inductive file : Type := mkFile {
  name : string;
  st_size : Z;
  created_iso : string;
  modified_iso : string;
  md5_hexdigest : string;
  docx_Document : result docx_doc;
  openpyxl_load_workbook : result (list xlsx_sheet);
  xlrd_open_workbook : result (list xls_sheet);
  pdfplumber_open : result (list pdf_page);
  PyPDF2_PdfReader : result (list pdf_page);
  extract_raises : option string;
  members : list file
}.

(** ** State and monad *)

(** The crawler object ([self]) together with the process state the code
    touches: what has been printed and how many directories [mkdtemp] has
    handed out. *)
Record state : Type := mkState {
  storage_path : string;
  output_csv : string;
  documents : list document;
  temp_dirs : list string;
  stdout : list string;
  mkdtemp_calls : nat
}.

Definition M (A : Type) : Type := state -> result A * state.

Definition ret {A} (a : A) : M A := fun s => (Ok a, s).

Definition raise {A} (e : string) : M A := fun s => (Raise e, s).

Definition bind {A B} (m : M A) (k : A -> M B) : M B :=
  fun s =>
    match m s with
    | (Ok a, s') => k a s'
    | (Raise e, s') => (Raise e, s')
    end.

(** [try: m except Exception as e: h e] *)
Definition try_except {A} (m : M A) (h : string -> M A) : M A :=
  fun s =>
    match m s with
    | (Ok a, s') => (Ok a, s')
    | (Raise e, s') => h e s'
    end.

Definition lift {A} (r : result A) : M A := fun s => (r, s).

Declare Scope monad_scope.
Delimit Scope monad_scope with monad.
Notation "x <- m ;; k" := (bind m (fun x => k))
  (at level 61, m at next level, right associativity) : monad_scope.
Notation "m ;;; k" := (bind m (fun _ => k))
  (at level 61, right associativity) : monad_scope.
Open Scope monad_scope.

Definition print (line : string) : M unit :=
  fun s => (Ok tt,
            mkState (storage_path s) (output_csv s) (documents s)
              (temp_dirs s) (stdout s ++ [line]) (mkdtemp_calls s)).

Definition get_documents : M (list document) :=
  fun s => (Ok (documents s), s).

Definition set_documents (docs : list document) : M unit :=
  fun s => (Ok tt,
            mkState (storage_path s) (output_csv s) docs
              (temp_dirs s) (stdout s) (mkdtemp_calls s)).

Definition set_temp_dirs (dirs : list string) : M unit :=
  fun s => (Ok tt,
            mkState (storage_path s) (output_csv s) (documents s)
              dirs (stdout s) (mkdtemp_calls s)).

(** [for x in l: body x] *)
Fixpoint for_each {A} (l : list A) (body : A -> M unit) : M unit :=
  match l with
  | [] => ret tt
  | x :: rest => body x ;;; for_each rest body
  end.

(** ** File metadata *)

Definition get_file_hash (f : file) : string := md5_hexdigest f.
Definition get_file_size (f : file) : Z := st_size f.
Definition get_file_dates (f : file) : string * string :=
  (created_iso f, modified_iso f).

(** ** Format readers *)

(** The two loops of [parse_docx] over paragraphs and over table rows. *)
Definition docx_parts (doc : docx_doc) : list string :=
  let parts := filter (fun text => truthy (strip text)) (paragraphs doc) in
  parts ++
  flat_map (fun table =>
    flat_map (fun row =>
      let cells := map strip (filter (fun text => truthy (strip text)) row) in
      match cells with
      | [] => []
      | _ => [String.concat " | " cells]
      end) table) (tables doc).

(** [parse_docx], crawler.py lines 81-97. *)
Definition parse_docx (f : file) (file_path : string) : M string :=
  try_except
    (doc <- lift (docx_Document f) ;;
     ret (clean_text (String.concat LF (docx_parts doc))))
    (fun e =>
       print ("Error parsing DOCX " ++ file_path ++ ": " ++ e) ;;;
       ret ("[Error parsing DOCX: " ++ e ++ "]")).

(** [[str(cell) for cell in row if cell is not None]] *)
Definition not_none (row : list (option string)) : list string :=
  flat_map (fun cell => match cell with Some v => [v] | None => [] end) row.

Definition xlsx_parts (wb : list xlsx_sheet) : list string :=
  flat_map (fun sheet =>
    ("[Sheet: " ++ sheet_title sheet ++ "]") ::
    flat_map (fun row =>
      match not_none row with
      | [] => []
      | row_vals => [String.concat " | " row_vals]
      end) (iter_rows sheet)) wb.

(** [parse_xlsx], crawler.py lines 100-116. *)
Definition parse_xlsx (f : file) (file_path : string) : M string :=
  try_except
    (wb <- lift (openpyxl_load_workbook f) ;;
     ret (clean_text (String.concat LF (xlsx_parts wb))))
    (fun e =>
       print ("Error parsing XLSX " ++ file_path ++ ": " ++ e) ;;;
       ret ("[Error parsing XLSX: " ++ e ++ "]")).

Definition xls_parts (wb : list xls_sheet) : list string :=
  flat_map (fun sheet =>
    ("[Sheet: " ++ sheet_name sheet ++ "]") ::
    flat_map (fun row_idx =>
      match not_none (map (fun col_idx => cell_value sheet row_idx col_idx)
                        (seq 0 (ncols sheet))) with
      | [] => []
      | row_vals => [String.concat " | " row_vals]
      end) (seq 0 (nrows sheet))) wb.

(** [parse_xls], crawler.py lines 119-135. *)
Definition parse_xls (f : file) (file_path : string) : M string :=
  try_except
    (wb <- lift (xlrd_open_workbook f) ;;
     ret (clean_text (String.concat LF (xls_parts wb))))
    (fun e =>
       print ("Error parsing XLS " ++ file_path ++ ": " ++ e) ;;;
       ret ("[Error parsing XLS: " ++ e ++ "]")).

(** The page loop of [parse_pdf_pypdf2]: [enumerate(reader.pages)], marker
    [page_num + 1]; [text.strip()] on [None] raises [AttributeError]. *)
Fixpoint pypdf2_pages (pages : list pdf_page) (page_num : nat)
    (parts : list string) : result (list string) :=
  match pages with
  | [] => Ok parts
  | page :: rest =>
      match page with
      | Raise e => Raise e
      | Ok None => Raise "'NoneType' object has no attribute 'strip'"
      | Ok (Some text) =>
          pypdf2_pages rest (S page_num)
            (if truthy (strip text)
             then parts ++ ["[Page " ++ str_of_nat (page_num + 1) ++ "]"; text]
             else parts)
      end
  end.

(** [parse_pdf_pypdf2], crawler.py lines 138-152. *)
Definition parse_pdf_pypdf2 (f : file) (file_path : string) : M string :=
  try_except
    (pages <- lift (PyPDF2_PdfReader f) ;;
     parts <- lift (pypdf2_pages pages 0 []) ;;
     ret (clean_text (String.concat LF parts)))
    (fun e =>
       print ("Error parsing PDF with PyPDF2 " ++ file_path ++ ": " ++ e) ;;;
       ret "").

(** The page loop of [parse_pdf_pdfplumber]: [enumerate(pdf.pages, 1)]. *)
Fixpoint pdfplumber_pages (pages : list pdf_page) (page_num : nat)
    (parts : list string) : result (list string) :=
  match pages with
  | [] => Ok parts
  | page :: rest =>
      match page with
      | Raise e => Raise e
      | Ok text =>
          pdfplumber_pages rest (S page_num)
            (match text with
             | Some t =>
                 if truthy t && truthy (strip t)
                 then parts ++ ["[Page " ++ str_of_nat page_num ++ "]"; t]
                 else parts
             | None => parts
             end)
      end
  end.

(** [parse_pdf_pdfplumber], crawler.py lines 155-168. *)
Definition parse_pdf_pdfplumber (f : file) (file_path : string) : M string :=
  try_except
    (pages <- lift (pdfplumber_open f) ;;
     parts <- lift (pdfplumber_pages pages 1 []) ;;
     ret (clean_text (String.concat LF parts)))
    (fun e =>
       print ("Error parsing PDF with pdfplumber " ++ file_path ++ ": " ++ e) ;;;
       ret "").

Definition NO_TEXT_PDF : string := "[No text could be extracted from PDF]".

(** [parse_pdf], crawler.py lines 171-178. *)
Definition parse_pdf (f : file) (file_path : string) : M string :=
  text <- parse_pdf_pdfplumber f file_path ;;
  text <- (if (String.length text <? 50)%nat then
             backup <- parse_pdf_pypdf2 f file_path ;;
             ret (if (String.length text <? String.length backup)%nat
                  then backup else text)
           else ret text) ;;
  ret (if truthy text then text else NO_TEXT_PDF).

Definition parser : Type := file -> string -> M string.

(** [dict.get] on a dictionary with string keys. *)
Fixpoint dict_get {V} (d : list (string * V)) (key : string) : option V :=
  match d with
  | [] => None
  | (k, v) :: rest => if String.eqb k key then Some v else dict_get rest key
  end.

Definition parsers : list (string * parser) :=
  [ (".docx", parse_docx); (".doc", parse_docx); (".xlsx", parse_xlsx);
    (".xls", parse_xls); (".pdf", parse_pdf) ].

(** [parse_document], crawler.py lines 181-191. *)
Definition parse_document (f : file) (file_path file_ext : string) : M string :=
  match dict_get parsers file_ext with
  | Some parser => parser f file_path
  | None => ret ("[Unsupported file type: " ++ file_ext ++ "]")
  end.

(** ** Archive readers and the crawler *)

Section Crawler.

(** Whether [py7zr] and [rarfile] could be imported, and the name that the
    n-th call of [tempfile.mkdtemp(prefix="crawler_")] returns. *)
Variable SEVENZIP_AVAILABLE : bool.
Variable RARFILE_AVAILABLE : bool.
Variable mkdtemp_name : nat -> string.

(** The body shared by the three extractors: open the archive, [extractall],
    then collect the paths of the members that are files; any exception is
    printed and leaves the list empty. *)
Definition extract_with (label : string) (a : file)
    (archive_path extract_dir : string) : M (list string) :=
  try_except
    (match extract_raises a with
     | Some e => raise e
     | None => ret (map (fun m => path_join extract_dir (name m)) (members a))
     end)
    (fun e =>
       print ("Error extracting " ++ label ++ " " ++ archive_path ++ ": " ++ e) ;;;
       ret []).

(** [extract_zip], crawler.py lines 194-206. *)
Definition extract_zip (a : file) (archive_path extract_dir : string)
  : M (list string) :=
  extract_with "ZIP" a archive_path extract_dir.

(** [extract_7z], crawler.py lines 209-223. *)
Definition extract_7z (a : file) (archive_path extract_dir : string)
  : M (list string) :=
  if negb SEVENZIP_AVAILABLE then ret []
  else extract_with "7z" a archive_path extract_dir.

(** [extract_rar], crawler.py lines 226-240. *)
Definition extract_rar (a : file) (archive_path extract_dir : string)
  : M (list string) :=
  if negb RARFILE_AVAILABLE then ret []
  else extract_with "RAR" a archive_path extract_dir.

Definition extractor : Type := file -> string -> string -> M (list string).

Definition extractors : list (string * extractor) :=
  [ (".zip", extract_zip); (".7z", extract_7z); (".rar", extract_rar) ].

(** [extract_archive], crawler.py lines 243-251. *)
Definition extract_archive (a : file) (archive_path extract_dir : string)
  : M (list string) :=
  let ext := lower (snd (splitext archive_path)) in
  match dict_get extractors ext with
  | Some extractor => extractor a archive_path extract_dir
  | None => print ("Unsupported archive format: " ++ ext) ;;; ret []
  end.

(** [DocumentCrawler.__init__], crawler.py lines 257-261; the printed output
    and the [mkdtemp] counter belong to the process and are kept. *)
Definition __init__ (storage output : string) (s : state) : state :=
  mkState storage output [] [] (stdout s) (mkdtemp_calls s).

(** [tempfile.mkdtemp(prefix="crawler_")] *)
Definition mkdtemp : M string :=
  fun s => (Ok (mkdtemp_name (mkdtemp_calls s)),
            mkState (storage_path s) (output_csv s) (documents s)
              (temp_dirs s) (stdout s) (S (mkdtemp_calls s))).

(** [self.temp_dirs.append(temp_dir)] *)
Definition register_temp_dir (temp_dir : string) : M unit :=
  fun s => (Ok tt,
            mkState (storage_path s) (output_csv s) (documents s)
              (temp_dirs s ++ [temp_dir]) (stdout s) (mkdtemp_calls s)).

(** [_process_file], crawler.py lines 263-291; [f] is the file found at
    [file_path].  As said at [file], [os.path.getsize], [os.stat] and
    [open] succeed on [f] here; [_process_file_os] below is the same function
    when they may raise, and [process_file_os_readable] relates the two. *)
Definition _process_file (f : file) (file_path archive_path : string)
  : M (option document) :=
  let file_ext := lower (snd (splitext file_path)) in
  let file_name := basename file_path in
  let supported := (SUPPORTED_documents ++ SUPPORTED_spreadsheets)%list in
  if negb (str_in file_ext supported) then ret None
  else
    print ("  Processing: " ++ file_name) ;;;
    let file_size := get_file_size f in
    let created_date := fst (get_file_dates f) in
    let content_hash := get_file_hash f in
    content <- parse_document f file_path file_ext ;;
    let file_type := if str_in file_ext SUPPORTED_documents
                     then document_t else spreadsheet_t in
    self_documents <- get_documents ;;
    ret (Some (mkDocument (List.length self_documents + 1) file_path file_name
                 file_type file_size content archive_path created_date
                 content_hash)).

(** [_process_archive], crawler.py lines 293-312.  [a] is the file found at
    [archive_path].  The loop runs over the paths returned by
    [extract_archive], each paired with the file that extraction put there
    (none when extraction returned no path). *)
Fixpoint _process_archive (a : file) (archive_path parent_path : string)
    {struct a} : M (list document) :=
  let archive_name := basename archive_path in
  let full_path := if truthy parent_path
                   then parent_path ++ "/" ++ archive_name
                   else archive_name in
  print (LF ++ "  Extracting: " ++ full_path) ;;;
  temp_dir <- mkdtemp ;;
  register_temp_dir temp_dir ;;;
  paths <- extract_archive a archive_path temp_dir ;;
  (fix loop (nodes : list file) (paths : list string)
       (results : list document) {struct nodes} : M (list document) :=
     match nodes, paths with
     | node :: nodes', extracted :: paths' =>
         let ext := lower (snd (splitext extracted)) in
         if str_in ext SUPPORTED_archives then
           sub <- _process_archive node extracted full_path ;;
           loop nodes' paths' (results ++ sub)%list
         else
           doc <- _process_file node extracted full_path ;;
           match doc with
           | Some d => loop nodes' paths' (results ++ [d])%list
           | None => loop nodes' paths' results
           end
     | _, _ => ret results
     end) (members a) paths [].

(** The loop of [_process_archive] as a function of its own. *)
Definition process_members (full_path : string)
  : list file -> list string -> list document -> M (list document) :=
  fix loop (nodes : list file) (paths : list string)
      (results : list document) {struct nodes} : M (list document) :=
    match nodes, paths with
    | node :: nodes', extracted :: paths' =>
        let ext := lower (snd (splitext extracted)) in
        if str_in ext SUPPORTED_archives then
          sub <- _process_archive node extracted full_path ;;
          loop nodes' paths' (results ++ sub)%list
        else
          doc <- _process_file node extracted full_path ;;
          match doc with
          | Some d => loop nodes' paths' (results ++ [d])%list
          | None => loop nodes' paths' results
          end
    | _, _ => ret results
    end.

(** [_cleanup], crawler.py lines 347-354; [shutil.rmtree] acts on the disk
    only. *)
Definition _cleanup : M unit := set_temp_dirs [].

(** The body of the two loops of [crawl] for the file [f] listed in
    directory [root]. *)
Definition crawl_file (root : string) (f : file) : M unit :=
  let file_name := name f in
  let file_path := path_join root file_name in
  let ext := lower (snd (splitext file_path)) in
  print (LF ++ "Found: " ++ file_name) ;;;
  if str_in ext SUPPORTED_archives then
    found <- _process_archive f file_path "" ;;
    docs <- get_documents ;;
    set_documents (docs ++ found)%list
  else
    doc <- _process_file f file_path "" ;;
    match doc with
    | Some d => docs <- get_documents ;; set_documents (docs ++ [d])%list
    | None => ret tt
    end.

Definition repeat_string (c : ascii) (n : nat) : string :=
  string_of_list_ascii (repeat c n).

(** [crawl], crawler.py lines 314-345.  [walk] is [None] when the storage
    path does not exist, and otherwise what [os.walk] yields: each directory
    with its files. *)
Definition crawl (walk : option (list (string * list file)))
  : M (list document) :=
  print (repeat_string "="%char 60) ;;;
  print "Starting crawler..." ;;;
  (fun s => print ("Storage: " ++ storage_path s) s) ;;;
  (fun s => print ("Output: " ++ output_csv s) s) ;;;
  print "" ;;;
  match walk with
  | None =>
      print "Error: Storage path does not exist" ;;;
      ret []
  | Some dirs =>
      for_each dirs (fun '(root, files) =>
        for_each files (fun f => crawl_file root f)) ;;;
      _cleanup ;;;
      print (LF ++ repeat_string "="%char 60) ;;;
      docs <- get_documents ;;
      print ("Crawling complete! Processed "
             ++ str_of_nat (List.length docs) ++ " documents") ;;;
      docs <- get_documents ;;
      ret docs
  end.

(** ** Reference definitions used to state the properties *)

(** Extension tests on a file's own name. *)
Definition ext_of (p : string) : string := lower (snd (splitext p)).

Definition is_archive (f : file) : bool :=
  str_in (ext_of (name f)) SUPPORTED_archives.

Definition is_supported (f : file) : bool :=
  str_in (ext_of (name f)) (SUPPORTED_documents ++ SUPPORTED_spreadsheets).

(** The archive reader selected for [a] hands back its members: the reader is
    available and neither opening nor [extractall] raises. *)
Definition extracts (a : file) : bool :=
  match extract_raises a with
  | Some _ => false
  | None =>
      let ext := ext_of (name a) in
      String.eqb ext ".zip"
      || (String.eqb ext ".7z" && SEVENZIP_AVAILABLE)
      || (String.eqb ext ".rar" && RARFILE_AVAILABLE)
  end.

(** The state [s] after [out] has been printed. *)
Definition printed (s : state) (out : list string) : state :=
  mkState (storage_path s) (output_csv s) (documents s) (temp_dirs s)
    (stdout s ++ out) (mkdtemp_calls s).

Definition no_output : state := mkState "" "" [] [] [] 0.

(** A reader whose text depends neither on the path nor on the state, which
    never raises, and whose only effect is printing. *)
Definition pure_text (m : string -> M string) : Prop :=
  exists c, forall p s, exists out, m p s = (Ok c, printed s out).

(** A prefix that is empty or ends in a slash. *)
Definition dir_prefix (pre : string) : Prop :=
  rfind "/"%char pre = (Z.of_nat (String.length pre) - 1)%Z.

(** The text [parse_document] returns for [f] under extension [file_ext]; it
    depends neither on the path nor on the state (see
    [parse_document_content]). *)
Definition content_of (f : file) (file_ext : string) : string :=
  match fst (parse_document f "" file_ext no_output) with
  | Ok c => c
  | Raise _ => ""
  end.

(** A record without the two fields that depend on the run: its id and the
    path of the scratch directory. *)
Definition erase (d : document) : document :=
  mkDocument 0 "" (file_name d) (file_type d) (file_size d) (content d)
    (archive_path d) (created_date d) (content_hash d).

(** Following the spec (3, 4.1): the record expected for a leaf file found
    with provenance chain [chain] (container archive names, outer to
    inner). *)
Definition expected_record (chain : list string) (leaf : file) : document :=
  let ext := ext_of (name leaf) in
  mkDocument 0 "" (basename (name leaf))
    (if str_in ext SUPPORTED_documents then document_t else spreadsheet_t)
    (st_size leaf) (content_of leaf ext) (String.concat "/" chain)
    (created_iso leaf) (md5_hexdigest leaf).

(** Following the spec (4.1): the supported leaf files transitively contained
    in archive [a], depth-first in member order, each with its provenance
    chain; an archive that cannot be extracted contributes nothing. *)
Fixpoint provenance (chain : list string) (a : file)
  : list (list string * file) :=
  let chain' := (chain ++ [basename (name a)])%list in
  if extracts a then
    flat_map (fun m =>
      if is_archive m then provenance chain' m
      else if is_supported m then [(chain', m)] else []) (members a)
  else [].

(** Following the spec (4.4): what one file of the walk contributes. *)
Definition expected_file (f : file) : list (list string * file) :=
  if is_archive f then provenance [] f
  else if is_supported f then [([], f)] else [].

Definition expected (dirs : list (string * list file))
  : list (list string * file) :=
  flat_map (fun '(_, files) => flat_map expected_file files) dirs.

(** The view of a spec-level entry as a record. *)
Definition expected_records (l : list (list string * file)) : list document :=
  map (fun cl => expected_record (fst cl) (snd cl)) l.

(** What one member of an archive with provenance chain [chain] contributes,
    following the spec (4.1). *)
Definition expected_member (chain : list string) (m : file)
  : list (list string * file) :=
  if is_archive m then provenance chain m
  else if is_supported m then [(chain, m)] else [].

(** [_process_archive] on [a] refines [provenance]: wherever [a] was put and
    whatever the state, the call returns, leaves [self.documents] alone, and
    its records are the expected ones up to [erase], all with the id that
    [len(self.documents) + 1] has at the call. *)
Definition archive_refines (a : file) : Prop :=
  forall (d parent : string) (chain : list string) (s : state),
    parent = String.concat "/" chain ->
    (chain <> [] -> parent <> "") ->
    exists rs s',
      _process_archive a (path_join d (name a)) parent s = (Ok rs, s') /\
      documents s' = documents s /\
      map erase rs = expected_records (provenance chain a) /\
      Forall (fun r => id r = List.length (documents s) + 1) rs.

(** [c in s] for a character. *)
Fixpoint occurs (c : ascii) (s : string) : bool :=
  match s with
  | "" => false
  | String x rest => Ascii.eqb x c || occurs c rest
  end.

(** Normalised text: the only whitespace character is the space, and no two
    spaces are adjacent; [after_space] tells that a space came just
    before. *)
Fixpoint collapsed (after_space : bool) (t : string) : bool :=
  match t with
  | "" => true
  | String c rest =>
      if isspace c
      then Ascii.eqb c " " && negb after_space && collapsed true rest
      else collapsed false rest
  end.

(** The strings that report a failed extraction in-band: the three
    "[Error parsing ...]" messages and the PDF sentinel. *)
Definition is_failure_placeholder (c : string) : bool :=
  String.prefix "[Error parsing " c || String.eqb c NO_TEXT_PDF.

(** Following the spec (4.2, PDF): the text of a page preceded by its
    "[Page N]" marker, nothing for a page without text; and the pages of a
    document numbered from 1. *)
Definition marked_page (nt : nat * option string) : list string :=
  match snd nt with
  | Some t =>
      if truthy (strip t) then ["[Page " ++ str_of_nat (fst nt) ++ "]"; t]
      else []
  | None => []
  end.

Definition marked_pages (texts : list (option string)) : list string :=
  flat_map marked_page (combine (seq 1 (List.length texts)) texts).

(** The ids the code gives, for a crawler that already holds [n] records:
    every record that one file of the walk contributes is numbered with the
    count of records held when that file is reached, plus one. *)
Fixpoint expected_ids (n : nat) (files : list file) : list nat :=
  match files with
  | [] => []
  | f :: rest =>
      let k := List.length (expected_file f) in
      (repeat (n + 1) k ++ expected_ids (n + k) rest)%list
  end.

(** A copy of [a] holding other members. *)
Definition with_members (a : file) (ms : list file) : file :=
  mkFile (name a) (st_size a) (created_iso a) (modified_iso a)
    (md5_hexdigest a) (docx_Document a) (openpyxl_load_workbook a)
    (xlrd_open_workbook a) (pdfplumber_open a) (PyPDF2_PdfReader a)
    (extract_raises a) ms.

(** ** Sample files *)

Definition sample_file (n : string) : file :=
  mkFile n 0 "2024-01-01T00:00:00" "2024-01-01T00:00:00"
    "d41d8cd98f00b204e9800998ecf8427e"
    (Raise "Package not found") (Raise "File is not a zip file")
    (Raise "Unsupported format, or corrupt file") (Raise "No /Root object")
    (Raise "EOF marker not found") (Some "File is not a zip file") [].

Definition sample_docx (n : string) (paras : list string) : file :=
  mkFile n 12 "2024-01-01T00:00:00" "2024-01-01T00:00:00"
    "9e107d9d372bb6826bd81d3542a419d6"
    (Ok (mkDocx paras [])) (Raise "File is not a zip file")
    (Raise "Unsupported format, or corrupt file") (Raise "No /Root object")
    (Raise "EOF marker not found") (Some "File is not a zip file") [].

Definition sample_pdf (n : string) (plumber pypdf : result (list pdf_page))
  : file :=
  mkFile n 34 "2024-01-01T00:00:00" "2024-01-01T00:00:00"
    "e4d909c290d0fb1ca068ffaddf22cbd0"
    (Raise "Package not found") (Raise "File is not a zip file")
    (Raise "Unsupported format, or corrupt file") plumber pypdf
    (Some "File is not a zip file") [].

Definition sample_archive (n : string) (failure : option string)
    (ms : list file) : file :=
  mkFile n 56 "2024-01-01T00:00:00" "2024-01-01T00:00:00"
    "0cc175b9c0f1b6a831c399e269772661"
    (Raise "Package not found") (Raise "File is not a zip file")
    (Raise "Unsupported format, or corrupt file") (Raise "No /Root object")
    (Raise "EOF marker not found") failure ms.

Definition sample_tmp (n : nat) : string := "/tmp/crawler_" ++ str_of_nat n.

Definition fresh : state := mkState "storage" "output/extracted_data.csv" [] [] [] 0.

Definition sample_nested : file :=
  sample_archive "outer.zip" None
    [sample_archive "inner.zip" None [sample_docx "c.docx" ["C"]]].

Definition sample_bad_zip : file :=
  sample_archive "bad.zip" (Some "File is not a zip file") [].

(** A PDF that only the secondary reader can read. *)
Definition sample_scan_pdf : file :=
  sample_pdf "scan.pdf" (Raise "No /Root object") (Ok [Ok (Some "Hello")]).

Definition sample_long_pdf : file :=
  sample_pdf "long.pdf"
    (Ok [Ok (Some "The quick brown fox jumps over the lazy dog again.")])
    (Raise "EOF marker not found").

Definition sample_short_pdf : file :=
  sample_pdf "short.pdf" (Ok [Ok (Some "Hi"); Ok None]) (Ok []).

Definition sample_broken_pdf : file :=
  sample_pdf "broken.pdf" (Raise "No /Root object")
    (Raise "EOF marker not found").

(** ** Induction on nested archives *)

Fixpoint file_nested_ind (P : file -> Prop)
    (step : forall a, Forall P (members a) -> P a) (a : file) {struct a}
  : P a :=
  step a
    ((fix all (l : list file) : Forall P l :=
        match l with
        | [] => Forall_nil P
        | m :: rest => Forall_cons m (file_nested_ind P step m) (all rest)
        end) (members a)).

(** ** Definitions for the further properties *)

(** Text made of whitespace only. *)
Fixpoint all_whitespace (s : string) : bool :=
  match s with
  | "" => true
  | String c rest => isspace c && all_whitespace rest
  end.

(** Single-line text: no NUL, and no whitespace character but the space. *)
Definition single_line (c : string) : Prop :=
  occurs "000"%char c = false /\
  forall w, isspace w = true -> w <> " "%char -> occurs w c = false.



(** The number of times [_process_archive] runs for the archive [a]: once
    for [a] itself and, when [a] can be extracted, once more for every
    archive found inside, at any depth. *)
Fixpoint invocations (a : file) : nat :=
  S (if extracts a
     then list_sum (map (fun m => if is_archive m then invocations m else 0)
                      (members a))
     else 0).

(** Between [s] and [s'] exactly [n] scratch directories were created with
    [mkdtemp], and all of them are still registered in [self.temp_dirs]. *)
Definition scratch (s : state) (n : nat) (s' : state) : Prop :=
  mkdtemp_calls s' = mkdtemp_calls s + n /\
  temp_dirs s' = (temp_dirs s ++ map mkdtemp_name (seq (mkdtemp_calls s) n))%list.

(** ** [get_file_hash] on the bytes of a file *)

Section Hashing.

(** The hash object of [hashlib]: [hashlib.md5()], [update] and
    [hexdigest]. *)
Variable hash_object : Type.
Variable md5 : hash_object.
Variable update : hash_object -> list Byte.byte -> hash_object.
Variable hexdigest : hash_object -> string.

Definition READ_SIZE : nat := 4096.

(** The loop [for chunk in iter(lambda: f.read(4096), b"")] of
    [get_file_hash], crawler.py lines 51-52: [unread] is what the file
    object has not handed out yet; [f.read(4096)] takes up to 4096 bytes of
    it, and the empty chunk ends the loop.  [fuel] bounds the number of
    reads. *)
Fixpoint hash_chunks (fuel : nat) (unread : list Byte.byte)
    (hash_md5 : hash_object) : option hash_object :=
  match fuel with
  | O => None
  | S fuel' =>
      match firstn READ_SIZE unread with
      | [] => Some hash_md5
      | chunk => hash_chunks fuel' (skipn READ_SIZE unread)
                   (update hash_md5 chunk)
      end
  end.

(** [get_file_hash], crawler.py lines 47-53, for a file holding [data]; one
    read per byte and one more always suffice. *)
Definition get_file_hash_bytes (data : list Byte.byte) : option string :=
  option_map hexdigest (hash_chunks (S (List.length data)) data md5).

End Hashing.

(** ** More sample files *)

(** A file on which the docx, xlsx and xls readers raise a two-line
    message. *)
Definition sample_two_line_error : file :=
  mkFile "b.docx" 9 "2024-01-01T00:00:00" "2024-01-01T00:00:00"
    "8277e0910d750195b448797616e091ad"
    (Raise ("bad" ++ LF ++ "file")) (Raise ("bad" ++ LF ++ "file"))
    (Raise ("bad" ++ LF ++ "file")) (Raise "No /Root object")
    (Raise "EOF marker not found") (Some "File is not a zip file") [].

Definition sample_two_page_pdf : file :=
  sample_pdf "two.pdf"
    (Ok (map (fun t => Ok (Some t)) ["Hello"; "World"]))
    (Ok (map (fun t => Ok (Some t)) ["Hello"; "World"])).

Definition sample_failing_page_pdf : file :=
  sample_pdf "page.pdf" (Ok [Ok (Some "Hello"); Raise "bad page"]) (Ok []).

(** ** The crawler when the operating system refuses a file *)

(** The three metadata calls of [_process_file] (lines 274-276) stand outside
    every [try].  [os_errors] tells, for each file, the exception that
    [os.path.getsize], [os.stat] and [open] (with its reads) raise on it, if
    any. *)
Record os_errors : Type := mkOsErrors {
  getsize_raises : file -> option string;
  stat_raises : file -> option string;
  open_raises : file -> option string
}.

Definition no_os_errors : os_errors :=
  mkOsErrors (fun _ => None) (fun _ => None) (fun _ => None).

Definition os_readable (os : os_errors) (f : file) : bool :=
  match getsize_raises os f, stat_raises os f, open_raises os f with
  | None, None, None => true
  | _, _, _ => false
  end.

Definition raise_if (err : option string) : M unit :=
  match err with
  | Some e => raise e
  | None => ret tt
  end.

(** [get_file_size], lines 56-58. *)
Definition get_file_size_os (os : os_errors) (f : file) : M Z :=
  raise_if (getsize_raises os f) ;;; ret (st_size f).

(** [get_file_dates], lines 61-70. *)
Definition get_file_dates_os (os : os_errors) (f : file)
  : M (string * string) :=
  raise_if (stat_raises os f) ;;; ret (created_iso f, modified_iso f).

(** [get_file_hash], lines 47-53. *)
Definition get_file_hash_os (os : os_errors) (f : file) : M string :=
  raise_if (open_raises os f) ;;; ret (md5_hexdigest f).

(** [_process_file], crawler.py lines 263-291, with the metadata calls as
    they are: unguarded. *)
Definition _process_file_os (os : os_errors) (f : file)
    (file_path archive_path : string) : M (option document) :=
  let file_ext := lower (snd (splitext file_path)) in
  let file_name := basename file_path in
  let supported := (SUPPORTED_documents ++ SUPPORTED_spreadsheets)%list in
  if negb (str_in file_ext supported) then ret None
  else
    print ("  Processing: " ++ file_name) ;;;
    file_size <- get_file_size_os os f ;;
    dates <- get_file_dates_os os f ;;
    let created_date := fst dates in
    content_hash <- get_file_hash_os os f ;;
    content <- parse_document f file_path file_ext ;;
    let file_type := if str_in file_ext SUPPORTED_documents
                     then document_t else spreadsheet_t in
    self_documents <- get_documents ;;
    ret (Some (mkDocument (List.length self_documents + 1) file_path file_name
                 file_type file_size content archive_path created_date
                 content_hash)).

(** [_process_archive], crawler.py lines 293-312, over [_process_file_os]:
    nothing in it catches what a member raises. *)
Fixpoint _process_archive_os (os : os_errors) (a : file)
    (archive_path parent_path : string) {struct a} : M (list document) :=
  let archive_name := basename archive_path in
  let full_path := if truthy parent_path
                   then parent_path ++ "/" ++ archive_name
                   else archive_name in
  print (LF ++ "  Extracting: " ++ full_path) ;;;
  temp_dir <- mkdtemp ;;
  register_temp_dir temp_dir ;;;
  paths <- extract_archive a archive_path temp_dir ;;
  (fix loop (nodes : list file) (paths : list string)
       (results : list document) {struct nodes} : M (list document) :=
     match nodes, paths with
     | node :: nodes', extracted :: paths' =>
         let ext := lower (snd (splitext extracted)) in
         if str_in ext SUPPORTED_archives then
           sub <- _process_archive_os os node extracted full_path ;;
           loop nodes' paths' (results ++ sub)%list
         else
           doc <- _process_file_os os node extracted full_path ;;
           match doc with
           | Some d => loop nodes' paths' (results ++ [d])%list
           | None => loop nodes' paths' results
           end
     | _, _ => ret results
     end) (members a) paths [].

Definition process_members_os (os : os_errors) (full_path : string)
  : list file -> list string -> list document -> M (list document) :=
  fix loop (nodes : list file) (paths : list string)
      (results : list document) {struct nodes} : M (list document) :=
    match nodes, paths with
    | node :: nodes', extracted :: paths' =>
        let ext := lower (snd (splitext extracted)) in
        if str_in ext SUPPORTED_archives then
          sub <- _process_archive_os os node extracted full_path ;;
          loop nodes' paths' (results ++ sub)%list
        else
          doc <- _process_file_os os node extracted full_path ;;
          match doc with
          | Some d => loop nodes' paths' (results ++ [d])%list
          | None => loop nodes' paths' results
          end
    | _, _ => ret results
    end.

(** The loop body of [crawl] over [_process_file_os] and
    [_process_archive_os]. *)
Definition crawl_file_os (os : os_errors) (root : string) (f : file)
  : M unit :=
  let file_name := name f in
  let file_path := path_join root file_name in
  let ext := lower (snd (splitext file_path)) in
  print (LF ++ "Found: " ++ file_name) ;;;
  if str_in ext SUPPORTED_archives then
    found <- _process_archive_os os f file_path "" ;;
    docs <- get_documents ;;
    set_documents (docs ++ found)%list
  else
    doc <- _process_file_os os f file_path "" ;;
    match doc with
    | Some d => docs <- get_documents ;; set_documents (docs ++ [d])%list
    | None => ret tt
    end.

(** [crawl], crawler.py lines 314-345, over [crawl_file_os]. *)
Definition crawl_os (os : os_errors)
    (walk : option (list (string * list file))) : M (list document) :=
  print (repeat_string "="%char 60) ;;;
  print "Starting crawler..." ;;;
  (fun s => print ("Storage: " ++ storage_path s) s) ;;;
  (fun s => print ("Output: " ++ output_csv s) s) ;;;
  print "" ;;;
  match walk with
  | None =>
      print "Error: Storage path does not exist" ;;;
      ret []
  | Some dirs =>
      for_each dirs (fun '(root, files) =>
        for_each files (fun f => crawl_file_os os root f)) ;;;
      _cleanup ;;;
      print (LF ++ repeat_string "="%char 60) ;;;
      docs <- get_documents ;;
      print ("Crawling complete! Processed "
             ++ str_of_nat (List.length docs) ++ " documents") ;;;
      docs <- get_documents ;;
      ret docs
  end.

(** The files on which [_process_archive] runs [_process_file] past its
    extension test: the supported files found in [a] and in the extractable
    archives inside it. *)
Fixpoint reached_leaves (a : file) : list file :=
  if extracts a then
    flat_map (fun m =>
      if is_archive m then reached_leaves m
      else if is_supported m then [m] else []) (members a)
  else [].

(** A PDF reader fails on [f]: opening raises, or [extract_text] raises on a
    page (for PyPDF2 also when it returns [None], on which [strip] fails). *)
Definition pdfplumber_fails (f : file) : Prop :=
  (exists e, pdfplumber_open f = Raise e) \/
  (exists pages e, pdfplumber_open f = Ok pages /\ In (Raise e) pages).

Definition pypdf2_fails (f : file) : Prop :=
  (exists e, PyPDF2_PdfReader f = Raise e) \/
  (exists pages, PyPDF2_PdfReader f = Ok pages /\
     ((exists e, In (Raise e) pages) \/ In (Ok None) pages)).

(** An unreadable file, and an unreadable document inside an archive. *)
Definition sample_os_errors : os_errors :=
  mkOsErrors (fun _ => None) (fun _ => None)
    (fun f => if String.eqb (name f) "locked.docx"
              then Some "[Errno 13] Permission denied" else None).

Definition sample_two_failing_pdf : file :=
  sample_pdf "both.pdf" (Ok [Ok (Some "Hello"); Raise "bad page"])
    (Ok [Ok None]).

Definition sample_backup_fails_pdf : file :=
  sample_pdf "short2.pdf" (Ok [Ok (Some "Hi")]) (Ok [Raise "bad page"]).

(** The supported files that one member of an archive, or one file of the
    walk, makes [_process_file] read. *)
Definition member_leaves (m : file) : list file :=
  if is_archive m then reached_leaves m
  else if is_supported m then [m] else [].

Definition walk_leaves (dirs : list (string * list file)) : list file :=
  flat_map member_leaves (flat_map snd dirs).

(** A storage tree with a document that cannot be opened inside an archive. *)
Definition sample_locked_tree : file :=
  sample_archive "x.zip" None
    [sample_docx "a.docx" ["A"]; sample_docx "locked.docx" ["L"];
     sample_docx "b.docx" ["B"]].
(** * Properties *)

(** ** The string and path helpers on sample inputs *)

Example splitext_ex1 : splitext "a/b.tar.ZIP" = ("a/b.tar", ".ZIP").
Proof. reflexivity. Qed.
Example splitext_ex2 : splitext "a/.zip" = ("a/.zip", "").
Proof. reflexivity. Qed.
Example splitext_ex3 : splitext "a.b/c" = ("a.b/c", "").
Proof. reflexivity. Qed.
Example splitext_ex4 : splitext "..x.pdf" = ("..x", ".pdf").
Proof. reflexivity. Qed.
Example basename_ex1 : basename "/tmp/x/y.docx" = "y.docx".
Proof. reflexivity. Qed.
Example clean_ex1 :
  clean_text ("  a" ++ LF ++ TAB ++ " b  ") = "a b".
Proof. reflexivity. Qed.

(** ** Strings and paths *)

Lemma rfind_bounds (c : ascii) (s : string) :
  (-1 <= rfind c s < Z.of_nat (String.length s))%Z.
Proof.
  induction s as [|x rest IH]; simpl.
  - lia.
  - destruct (0 <=? rfind c rest)%Z eqn:E.
    + apply Z.leb_le in E. lia.
    + destruct (Ascii.eqb x c); lia.
Qed.

Lemma rfind_app (c : ascii) (a b : string) :
  rfind c (a ++ b) =
  if (0 <=? rfind c b)%Z then (Z.of_nat (String.length a) + rfind c b)%Z
  else rfind c a.
Proof.
  induction a as [|x rest IH]; simpl String.length; simpl rfind.
  - destruct (0 <=? rfind c b)%Z eqn:E; simpl.
    + destruct (rfind c b); reflexivity.
    + apply Z.leb_gt in E. pose proof (rfind_bounds c b). lia.
  - simpl append. simpl rfind. rewrite IH.
    destruct (0 <=? rfind c b)%Z eqn:E.
    + apply Z.leb_le in E.
      replace (0 <=? Z.of_nat (String.length rest) + rfind c b)%Z with true
        by (symmetry; apply Z.leb_le; lia).
      lia.
    + reflexivity.
Qed.

Lemma drop_app_length (a b : string) (k : nat) :
  drop (String.length a + k) (a ++ b) = drop k b.
Proof.
  induction a as [|x rest IH]; simpl; auto.
Qed.

Lemma get_app_length (a b : string) (i : nat) :
  get (String.length a + i) (a ++ b) = get i b.
Proof.
  induction a as [|x rest IH]; simpl; auto.
Qed.

Lemma string_length_drop (k : nat) (s : string) :
  String.length (drop k s) = String.length s - k.
Proof.
  revert s; induction k as [|k IH]; intros [|x rest]; simpl; auto.
Qed.

Lemma string_length_app (a b : string) :
  String.length (a ++ b) = String.length a + String.length b.
Proof.
  induction a as [|x rest IH]; simpl; auto.
Qed.

Lemma app_assoc_string (a b c : string) : (a ++ b) ++ c = a ++ b ++ c.
Proof.
  induction a as [|x rest IH]; simpl; congruence.
Qed.

Lemma splitext_scan_shift (pre p : string) (n i j : nat) :
  splitext_scan n (String.length pre + i) (String.length pre + j) (pre ++ p)
  = splitext_scan n i j p.
Proof.
  revert i; induction n as [|n IH]; intros i; simpl; auto.
  replace (String.length pre + i <? String.length pre + j)%nat
    with (i <? j)%nat.
  - destruct (i <? j)%nat; auto.
    rewrite get_app_length.
    destruct (get i p) as [c|]; auto.
    destruct (negb (Ascii.eqb c ".")); auto.
    replace (S (String.length pre + i)) with (String.length pre + S i) by lia.
    apply IH.
  - destruct (i <? j)%nat eqn:E; symmetry.
    + apply Nat.ltb_lt in E. apply Nat.ltb_lt. lia.
    + apply Nat.ltb_ge in E. apply Nat.ltb_ge. lia.
Qed.

Lemma rfind_sep_prefix (pre p : string) :
  dir_prefix pre ->
  rfind "/"%char (pre ++ p)
  = (Z.of_nat (String.length pre) + rfind "/"%char p)%Z.
Proof.
  intros H. rewrite rfind_app.
  pose proof (rfind_bounds "/"%char p).
  destruct (0 <=? rfind "/"%char p)%Z eqn:E; auto.
  apply Z.leb_gt in E. unfold dir_prefix in H. lia.
Qed.

Lemma basename_prefix (pre p : string) :
  dir_prefix pre -> basename (pre ++ p) = basename p.
Proof.
  intros H. unfold basename. rewrite rfind_sep_prefix by assumption.
  pose proof (rfind_bounds "/"%char p).
  replace (Z.to_nat (Z.of_nat (String.length pre) + rfind "/"%char p + 1))
    with (String.length pre + Z.to_nat (rfind "/"%char p + 1)) by lia.
  apply drop_app_length.
Qed.

Lemma splitext_prefix (pre p : string) :
  dir_prefix pre -> snd (splitext (pre ++ p)) = snd (splitext p).
Proof.
  intros H. unfold splitext. rewrite rfind_sep_prefix by assumption.
  rewrite (rfind_app "."%char).
  pose proof (rfind_bounds "/"%char p) as Bs.
  pose proof (rfind_bounds "."%char p) as Bd.
  pose proof (rfind_bounds "."%char pre) as Bp.
  set (L := String.length pre) in *.
  set (sn := rfind "/"%char p) in *.
  set (dn := rfind "."%char p) in *.
  destruct (0 <=? dn)%Z eqn:E.
  - apply Z.leb_le in E.
    replace (Z.of_nat L + sn <? Z.of_nat L + dn)%Z with (sn <? dn)%Z.
    + destruct (sn <? dn)%Z; auto.
      replace (Z.to_nat (Z.of_nat L + dn)) with (L + Z.to_nat dn) by lia.
      replace (Z.to_nat (Z.of_nat L + sn + 1))
        with (L + Z.to_nat (sn + 1)) by lia.
      replace (L + Z.to_nat dn - (L + Z.to_nat (sn + 1)))
        with (Z.to_nat dn - Z.to_nat (sn + 1)) by lia.
      unfold L. rewrite splitext_scan_shift.
      destruct (splitext_scan _ _ _ p); auto.
      simpl. apply drop_app_length.
    + destruct (sn <? dn)%Z eqn:E1; symmetry.
      * apply Z.ltb_lt in E1. apply Z.ltb_lt. lia.
      * apply Z.ltb_ge in E1. apply Z.ltb_ge. lia.
  - apply Z.leb_gt in E.
    replace (Z.of_nat L + sn <? rfind "." pre)%Z with false
      by (symmetry; apply Z.ltb_ge; lia).
    replace (sn <? dn)%Z with false by (symmetry; apply Z.ltb_ge; lia).
    reflexivity.
Qed.

Lemma dir_prefix_slash (a : string) : dir_prefix (a ++ "/").
Proof.
  unfold dir_prefix. rewrite rfind_app, string_length_app. simpl. lia.
Qed.

Lemma drop_last_char (a : string) :
  drop (String.length a - 1) a = "/" -> dir_prefix a.
Proof.
  unfold dir_prefix.
  induction a as [|x rest IH]; intros H.
  - discriminate.
  - destruct rest as [|y rest'].
    + simpl in H. injection H as ->. reflexivity.
    + assert (H' : drop (String.length (String y rest') - 1) (String y rest')
                   = "/").
      { simpl. simpl in H. now rewrite Nat.sub_0_r. }
      specialize (IH H').
      change (rfind "/" (String x (String y rest')))
        with (let r := rfind "/" (String y rest') in
              if (0 <=? r)%Z then (r + 1)%Z
              else if Ascii.eqb x "/" then 0%Z else (-1)%Z).
      cbv zeta. rewrite IH.
      change (String.length (String x (String y rest')))
        with (S (String.length (String y rest'))).
      change (String.length (String y rest')) with (S (String.length rest')).
      replace (0 <=? Z.of_nat (S (String.length rest')) - 1)%Z with true
        by (symmetry; apply Z.leb_le; lia).
      lia.
Qed.

Lemma path_join_prefix (a b : string) :
  exists pre, dir_prefix pre /\ path_join a b = pre ++ b.
Proof.
  assert (E : dir_prefix "") by reflexivity.
  assert (J : path_join a b = b \/
              path_join a b =
                match a with
                | "" => b
                | _ => if String.eqb (drop (String.length a - 1) a) "/"
                       then a ++ b else a ++ "/" ++ b
                end).
  { unfold path_join. destruct b as [|c b']; auto.
    destruct (Ascii.eqb_spec c "/"%char) as [->|N]; auto.
    right. destruct c as [[] [] [] [] [] [] [] []]; try reflexivity.
    contradiction N; reflexivity. }
  destruct J as [J|J].
  - exists "". split; auto.
  - destruct a as [|x rest].
    + exists "". split; auto.
    + destruct (String.eqb_spec (drop (String.length (String x rest) - 1)
                                   (String x rest)) "/") as [Hs|Hs].
      * exists (String x rest). split; auto. apply drop_last_char; auto.
      * exists (String x rest ++ "/"). split.
        -- apply dir_prefix_slash.
        -- rewrite J. symmetry. apply app_assoc_string.
Qed.

Lemma basename_path_join (a b : string) :
  basename (path_join a b) = basename b.
Proof.
  destruct (path_join_prefix a b) as (pre & H & ->).
  apply basename_prefix; auto.
Qed.

Lemma splitext_path_join (a b : string) :
  snd (splitext (path_join a b)) = snd (splitext b).
Proof.
  destruct (path_join_prefix a b) as (pre & H & ->).
  apply splitext_prefix; auto.
Qed.

Lemma ext_of_path_join (a b : string) : ext_of (path_join a b) = ext_of b.
Proof. unfold ext_of. now rewrite splitext_path_join. Qed.

Lemma splitext_basename (p : string) :
  snd (splitext p) <> "" -> basename p <> "".
Proof.
  unfold splitext, basename.
  pose proof (rfind_bounds "/"%char p) as Bs.
  pose proof (rfind_bounds "."%char p) as Bd.
  destruct (rfind "/"%char p <? rfind "."%char p)%Z eqn:E;
    [|simpl; congruence].
  apply Z.ltb_lt in E.
  intros _ H.
  apply (f_equal String.length) in H. rewrite string_length_drop in H.
  simpl in H. lia.
Qed.

Lemma lower_empty (s : string) : lower s = "" -> s = "".
Proof. destruct s; simpl; congruence. Qed.

Lemma archive_ext_basename (p : string) :
  str_in (ext_of p) SUPPORTED_archives = true -> basename p <> "".
Proof.
  intros H. apply splitext_basename. intros E.
  unfold ext_of in H. rewrite E in H. discriminate.
Qed.

(** ** The monad *)

Lemma printed_nil (s : state) : printed s [] = s.
Proof. destruct s; unfold printed; simpl. now rewrite app_nil_r. Qed.

Lemma printed_printed (s : state) (a b : list string) :
  printed (printed s a) b = printed s (a ++ b).
Proof. unfold printed; simpl. now rewrite app_assoc. Qed.

Lemma print_printed (line : string) (s : state) :
  print line s = (Ok tt, printed s [line]).
Proof. reflexivity. Qed.

Lemma documents_printed (s : state) (out : list string) :
  documents (printed s out) = documents s.
Proof. reflexivity. Qed.

Lemma process_archive_unfold (a : file) (archive_path parent_path : string) :
  _process_archive a archive_path parent_path =
  (let archive_name := basename archive_path in
   let full_path := if truthy parent_path
                    then parent_path ++ "/" ++ archive_name
                    else archive_name in
   print (LF ++ "  Extracting: " ++ full_path) ;;;
   temp_dir <- mkdtemp ;;
   register_temp_dir temp_dir ;;;
   paths <- extract_archive a archive_path temp_dir ;;
   process_members full_path (members a) paths []).
Proof. destruct a; reflexivity. Qed.

(** ** Text normalisation *)

Lemma sub_whitespace_collapsed (s : string) :
  forall b, collapsed b (sub_whitespace b s) = true.
Proof.
  induction s as [|c rest IH]; intros b; [reflexivity|].
  cbn [sub_whitespace]. destruct (isspace c) eqn:W.
  - destruct b; [apply IH|].
    cbn [collapsed]. change (isspace " ") with true. cbv iota.
    rewrite IH. reflexivity.
  - cbn [collapsed]. rewrite W. apply IH.
Qed.

Lemma sub_whitespace_fixed (t : string) :
  forall b, collapsed b t = true -> sub_whitespace b t = t.
Proof.
  induction t as [|c rest IH]; intros b H; [reflexivity|].
  cbn [collapsed] in H. cbn [sub_whitespace].
  destruct (isspace c) eqn:W.
  - apply andb_prop in H. destruct H as [H Hr].
    apply andb_prop in H. destruct H as [Hc Hb].
    apply Ascii.eqb_eq in Hc. subst c.
    destruct b; [discriminate|]. now rewrite IH.
  - now rewrite IH.
Qed.

Lemma collapsed_weaken (t : string) (b : bool) :
  collapsed b t = true -> collapsed false t = true.
Proof.
  destruct t as [|c rest]; [reflexivity|]. cbn [collapsed].
  destruct (isspace c); [|auto].
  intros H. apply andb_prop in H. destruct H as [H Hr].
  apply andb_prop in H. destruct H as [Hc Hb].
  now rewrite Hc, Hr.
Qed.

Lemma lstrip_collapsed (t : string) :
  forall b, collapsed b t = true -> collapsed false (lstrip t) = true.
Proof.
  induction t as [|c rest IH]; intros b H; [reflexivity|].
  cbn [lstrip]. cbn [collapsed] in H. destruct (isspace c) eqn:W.
  - apply andb_prop in H. destruct H as [_ Hr]. now apply (IH true).
  - cbn [collapsed]. now rewrite W.
Qed.

Lemma rstrip_collapsed (t : string) :
  forall b, collapsed b t = true -> collapsed b (rstrip t) = true.
Proof.
  induction t as [|c rest IH]; intros b H; [reflexivity|].
  cbn [rstrip]. cbn [collapsed] in H. destruct (isspace c) eqn:W.
  - apply andb_prop in H. destruct H as [H Hr].
    specialize (IH true Hr).
    destruct (rstrip rest) as [|x r']; [reflexivity|].
    cbn [collapsed] in IH |- *. rewrite W. now rewrite H.
  - specialize (IH false H).
    destruct (rstrip rest) as [|x r']; cbn [collapsed] in IH |- *;
      now rewrite W.
Qed.

Lemma lstrip_idempotent (s : string) : lstrip (lstrip s) = lstrip s.
Proof.
  induction s as [|c rest IH]; [reflexivity|].
  cbn [lstrip]. destruct (isspace c) eqn:W; [exact IH|].
  cbn [lstrip]. now rewrite W.
Qed.

Lemma rstrip_idempotent (s : string) : rstrip (rstrip s) = rstrip s.
Proof.
  induction s as [|c rest IH]; [reflexivity|].
  cbn [rstrip]. destruct (rstrip rest) as [|x r'] eqn:R.
  - destruct (isspace c) eqn:W; [reflexivity|].
    cbn [rstrip]. now rewrite W.
  - cbn [rstrip]. cbn [rstrip] in IH. now rewrite IH.
Qed.

Lemma lstrip_head (s : string) :
  match lstrip s with
  | "" => True
  | String c _ => isspace c = false
  end.
Proof.
  induction s as [|c rest IH]; [exact I|].
  cbn [lstrip]. destruct (isspace c) eqn:W; [exact IH|exact W].
Qed.

Lemma lstrip_rstrip (s : string) :
  lstrip (rstrip (lstrip s)) = rstrip (lstrip s).
Proof.
  pose proof (lstrip_head s) as H.
  destruct (lstrip s) as [|c rest]; [reflexivity|].
  cbn [rstrip]. destruct (rstrip rest) as [|x r'].
  - rewrite H. cbn [lstrip]. now rewrite H.
  - cbn [lstrip]. now rewrite H.
Qed.

Lemma strip_idempotent (s : string) : strip (strip s) = strip s.
Proof.
  unfold strip. now rewrite lstrip_rstrip, rstrip_idempotent.
Qed.

Lemma strip_collapsed (t : string) (b : bool) :
  collapsed b t = true -> collapsed false (strip t) = true.
Proof.
  intros H. unfold strip. apply rstrip_collapsed.
  now apply (lstrip_collapsed t b).
Qed.

Lemma occurs_sub_whitespace (c : ascii) (s : string) :
  c <> " "%char -> occurs c s = false ->
  forall b, occurs c (sub_whitespace b s) = false.
Proof.
  intros Hc. induction s as [|x rest IH]; intros H b; [reflexivity|].
  cbn [occurs] in H. apply orb_false_elim in H. destruct H as [Hx Hr].
  cbn [sub_whitespace]. destruct (isspace x).
  - destruct b; [now apply IH|].
    cbn [occurs]. rewrite (IH Hr).
    replace (Ascii.eqb " " c) with false; [reflexivity|].
    symmetry. apply Ascii.eqb_neq. congruence.
  - cbn [occurs]. now rewrite Hx, (IH Hr).
Qed.

Lemma occurs_lstrip (c : ascii) (s : string) :
  occurs c s = false -> occurs c (lstrip s) = false.
Proof.
  induction s as [|x rest IH]; intros H; [reflexivity|].
  cbn [lstrip]. destruct (isspace x); [|exact H].
  cbn [occurs] in H. apply orb_false_elim in H. now apply IH.
Qed.

Lemma occurs_rstrip (c : ascii) (s : string) :
  occurs c s = false -> occurs c (rstrip s) = false.
Proof.
  induction s as [|x rest IH]; intros H; [reflexivity|].
  cbn [occurs] in H. apply orb_false_elim in H. destruct H as [Hx Hr].
  specialize (IH Hr). cbn [rstrip].
  destruct (rstrip rest) as [|y r'].
  - destruct (isspace x); [reflexivity|]. cbn [occurs]. now rewrite Hx.
  - cbn [occurs] in IH |- *. now rewrite Hx, IH.
Qed.

Lemma occurs_replace (c x : ascii) (s : string) :
  occurs c s = false -> occurs c (replace_char_empty x s) = false.
Proof.
  induction s as [|y rest IH]; intros H; [reflexivity|].
  cbn [occurs] in H. apply orb_false_elim in H. destruct H as [Hy Hr].
  cbn [replace_char_empty]. destruct (Ascii.eqb y x); [now apply IH|].
  cbn [occurs]. now rewrite Hy, IH.
Qed.

Lemma replace_absent (c : ascii) (s : string) :
  occurs c s = false -> replace_char_empty c s = s.
Proof.
  induction s as [|y rest IH]; intros H; [reflexivity|].
  cbn [occurs] in H. apply orb_false_elim in H. destruct H as [Hy Hr].
  cbn [replace_char_empty]. now rewrite Hy, IH.
Qed.

Lemma occurs_replaced (c : ascii) (s : string) :
  occurs c (replace_char_empty c s) = false.
Proof.
  induction s as [|y rest IH]; [reflexivity|].
  cbn [replace_char_empty]. destruct (Ascii.eqb y c) eqn:E; [exact IH|].
  cbn [occurs]. now rewrite E, IH.
Qed.

Lemma collapsed_whitespace (t : string) (c : ascii) :
  isspace c = true -> c <> " "%char ->
  forall b, collapsed b t = true -> occurs c t = false.
Proof.
  intros W Hc. induction t as [|x rest IH]; intros b H; [reflexivity|].
  cbn [collapsed] in H. cbn [occurs]. destruct (isspace x) eqn:Wx.
  - apply andb_prop in H. destruct H as [H Hr].
    apply andb_prop in H. destruct H as [Hx _].
    apply Ascii.eqb_eq in Hx. subst x. rewrite (IH true Hr).
    replace (Ascii.eqb " " c) with false; [reflexivity|].
    symmetry. apply Ascii.eqb_neq. congruence.
  - rewrite (IH false H).
    replace (Ascii.eqb x c) with false; [reflexivity|].
    symmetry. apply Ascii.eqb_neq. intros ->. congruence.
Qed.

(** The part of the normalisation contract that holds for every input: the
    result holds no NUL and no whitespace character other than the space (so
    no newline and no tab). *)
Lemma clean_text_no_nul_newline_tab (text : string) :
  occurs "000"%char (clean_text text) = false /\
  forall c, isspace c = true -> c <> " "%char ->
            occurs c (clean_text text) = false.
Proof.
  unfold clean_text. destruct (truthy text); cbn [negb]; [|auto].
  split; [apply occurs_replaced|].
  intros c W Hc. apply occurs_replace.
  apply (collapsed_whitespace _ c W Hc false).
  apply (strip_collapsed _ false). apply sub_whitespace_collapsed.
Qed.

(** On text without NUL the whole contract holds: the result is single
    spaced, trimmed, and normalising it again changes nothing. *)
Lemma clean_text_without_nul (text : string) :
  occurs "000"%char text = false ->
  collapsed false (clean_text text) = true /\
  strip (clean_text text) = clean_text text /\
  clean_text (clean_text text) = clean_text text.
Proof.
  intros H.
  assert (Hn : occurs "000"%char (strip (re_sub_whitespace text)) = false).
  { unfold strip, re_sub_whitespace. apply occurs_rstrip, occurs_lstrip.
    apply occurs_sub_whitespace; [discriminate|exact H]. }
  assert (Hc : collapsed false (strip (re_sub_whitespace text)) = true).
  { apply (strip_collapsed _ false). apply sub_whitespace_collapsed. }
  assert (E : clean_text text = "" \/
              clean_text text = strip (re_sub_whitespace text)).
  { unfold clean_text. destruct (truthy text); cbn [negb]; [|now left].
    right. now apply replace_absent. }
  destruct E as [E|E]; rewrite E; [repeat split; reflexivity|].
  split; [exact Hc|]. split; [apply strip_idempotent|].
  pose proof (strip_idempotent (re_sub_whitespace text)) as Hs.
  destruct (strip (re_sub_whitespace text)) as [|c u]; [reflexivity|].
  unfold clean_text. cbn [truthy negb]. unfold re_sub_whitespace.
  rewrite (sub_whitespace_fixed _ false Hc), Hs.
  now apply replace_absent.
Qed.

(** ** Format readers never raise *)

Lemma parse_docx_pure (f : file) : pure_text (parse_docx f).
Proof.
  unfold pure_text, parse_docx, try_except, bind, lift, ret.
  destruct (docx_Document f) as [doc|e]; eexists; intros p s.
  - exists []. rewrite printed_nil. reflexivity.
  - eexists. reflexivity.
Qed.

Lemma parse_xlsx_pure (f : file) : pure_text (parse_xlsx f).
Proof.
  unfold pure_text, parse_xlsx, try_except, bind, lift, ret.
  destruct (openpyxl_load_workbook f) as [wb|e]; eexists; intros p s.
  - exists []. rewrite printed_nil. reflexivity.
  - eexists. reflexivity.
Qed.

Lemma parse_xls_pure (f : file) : pure_text (parse_xls f).
Proof.
  unfold pure_text, parse_xls, try_except, bind, lift, ret.
  destruct (xlrd_open_workbook f) as [wb|e]; eexists; intros p s.
  - exists []. rewrite printed_nil. reflexivity.
  - eexists. reflexivity.
Qed.

Lemma parse_pdf_pypdf2_pure (f : file) : pure_text (parse_pdf_pypdf2 f).
Proof.
  unfold pure_text, parse_pdf_pypdf2, try_except, bind, lift, ret.
  destruct (PyPDF2_PdfReader f) as [pages|e].
  - destruct (pypdf2_pages pages 0 []) as [parts|e]; eexists; intros p s.
    + exists []. rewrite printed_nil. reflexivity.
    + eexists. reflexivity.
  - eexists; intros p s. eexists. reflexivity.
Qed.

Lemma parse_pdf_pdfplumber_pure (f : file) : pure_text (parse_pdf_pdfplumber f).
Proof.
  unfold pure_text, parse_pdf_pdfplumber, try_except, bind, lift, ret.
  destruct (pdfplumber_open f) as [pages|e].
  - destruct (pdfplumber_pages pages 1 []) as [parts|e]; eexists; intros p s.
    + exists []. rewrite printed_nil. reflexivity.
    + eexists. reflexivity.
  - eexists; intros p s. eexists. reflexivity.
Qed.

Lemma parse_pdf_pure (f : file) : pure_text (parse_pdf f).
Proof.
  destruct (parse_pdf_pdfplumber_pure f) as [c1 H1].
  destruct (parse_pdf_pypdf2_pure f) as [c2 H2].
  unfold pure_text, parse_pdf, bind.
  destruct (String.length c1 <? 50)%nat eqn:E; eexists; intros p s;
    destruct (H1 p s) as [o1 E1]; rewrite E1, E.
  - destruct (H2 p (printed s o1)) as [o2 E2]. rewrite E2.
    unfold ret. rewrite printed_printed. eexists. reflexivity.
  - unfold ret. eexists. reflexivity.
Qed.

Lemma dict_get_parsers (file_ext : string) (q : parser) :
  dict_get parsers file_ext = Some q ->
  str_in file_ext (SUPPORTED_documents ++ SUPPORTED_spreadsheets) = true /\
  (q = parse_docx \/ q = parse_xlsx \/ q = parse_xls \/ q = parse_pdf).
Proof.
  unfold parsers, str_in, SUPPORTED_documents, SUPPORTED_spreadsheets.
  cbn -[String.eqb].
  rewrite !(String.eqb_sym file_ext).
  destruct (String.eqb ".docx" file_ext);
    [intros H; injection H as H; subst q; auto|].
  destruct (String.eqb ".doc" file_ext);
    [intros H; injection H as H; subst q; auto|].
  destruct (String.eqb ".xlsx" file_ext);
    [intros H; injection H as H; subst q; rewrite ?orb_true_r; auto|].
  destruct (String.eqb ".xls" file_ext);
    [intros H; injection H as H; subst q; rewrite ?orb_true_r; auto|].
  destruct (String.eqb ".pdf" file_ext);
    [intros H; injection H as H; subst q; rewrite ?orb_true_r; auto 6|].
  discriminate.
Qed.

Lemma supported_dict_get (file_ext : string) :
  str_in file_ext (SUPPORTED_documents ++ SUPPORTED_spreadsheets) = true ->
  exists q, dict_get parsers file_ext = Some q.
Proof.
  unfold parsers, str_in, SUPPORTED_documents, SUPPORTED_spreadsheets.
  cbn -[String.eqb].
  rewrite !(String.eqb_sym file_ext).
  destruct (String.eqb ".docx" file_ext); [eauto|].
  destruct (String.eqb ".doc" file_ext); [eauto|].
  destruct (String.eqb ".xlsx" file_ext); [eauto|].
  destruct (String.eqb ".xls" file_ext); [eauto|].
  destruct (String.eqb ".pdf" file_ext); [eauto|].
  discriminate.
Qed.

Lemma parse_document_pure (f : file) (file_ext : string) :
  pure_text (fun p => parse_document f p file_ext).
Proof.
  unfold parse_document.
  destruct (dict_get parsers file_ext) as [q|] eqn:E.
  - apply dict_get_parsers in E. destruct E as [_ [ -> | [ -> | [ -> | -> ] ] ] ].
    + apply parse_docx_pure.
    + apply parse_xlsx_pure.
    + apply parse_xls_pure.
    + apply parse_pdf_pure.
  - eexists. intros p s. exists []. rewrite printed_nil. reflexivity.
Qed.

Lemma parse_document_content (f : file) (p file_ext : string) (s : state) :
  exists out,
    parse_document f p file_ext s = (Ok (content_of f file_ext), printed s out).
Proof.
  destruct (parse_document_pure f file_ext) as [c H].
  unfold content_of.
  destruct (H "" no_output) as [o0 E0]. rewrite E0. simpl.
  apply H.
Qed.

(** ** Per-file processing *)

Lemma process_file_unsupported (f : file) (p ap : string) (s : state) :
  str_in (ext_of p) (SUPPORTED_documents ++ SUPPORTED_spreadsheets) = false ->
  _process_file f p ap s = (Ok None, s).
Proof.
  intros H. unfold _process_file. cbv zeta.
  change (lower (snd (splitext p))) with (ext_of p). rewrite H. reflexivity.
Qed.

Lemma process_file_supported (f : file) (p ap : string) (s : state) :
  str_in (ext_of p) (SUPPORTED_documents ++ SUPPORTED_spreadsheets) = true ->
  exists out,
    _process_file f p ap s =
    (Ok (Some (mkDocument (List.length (documents s) + 1) p (basename p)
                 (if str_in (ext_of p) SUPPORTED_documents
                  then document_t else spreadsheet_t)
                 (st_size f) (content_of f (ext_of p)) ap
                 (created_iso f) (md5_hexdigest f))),
     printed s out).
Proof.
  intros H. unfold _process_file. cbv zeta.
  change (lower (snd (splitext p))) with (ext_of p). rewrite H.
  cbn [negb]. unfold bind at 1. rewrite print_printed.
  unfold bind at 1.
  destruct (parse_document_content f p (ext_of p)
              (printed s ["  Processing: " ++ basename p])) as [out E].
  rewrite E. unfold bind, get_documents, ret.
  rewrite printed_printed. rewrite documents_printed.
  eexists. reflexivity.
Qed.

(** ** Archive extraction *)

Lemma extract_archive_spec (a : file) (d dir : string) (s : state) :
  exists out,
    extract_archive a (path_join d (name a)) dir s =
    (Ok (if extracts a
         then map (fun m => path_join dir (name m)) (members a) else []),
     printed s out).
Proof.
  unfold extract_archive. cbv zeta.
  change (lower (snd (splitext (path_join d (name a)))))
    with (ext_of (path_join d (name a))).
  rewrite ext_of_path_join. unfold extracts. cbv zeta.
  generalize (ext_of (name a)) as e. intros e.
  unfold extractors. cbn -[String.eqb].
  destruct (String.eqb_spec ".zip" e) as [<-|Nz].
  - unfold extract_zip, extract_with, try_except, raise, ret, bind.
    destruct (extract_raises a) as [err|].
    + eexists. reflexivity.
    + exists []. rewrite printed_nil. reflexivity.
  - destruct (String.eqb_spec ".7z" e) as [<-|N7].
    + unfold extract_7z, extract_with, try_except, raise, ret, bind.
      destruct SEVENZIP_AVAILABLE; cbn.
      * destruct (extract_raises a) as [err|].
        -- eexists. reflexivity.
        -- exists []. rewrite printed_nil. reflexivity.
      * exists []. rewrite printed_nil. destruct (extract_raises a); reflexivity.
    + destruct (String.eqb_spec ".rar" e) as [<-|Nr].
      * unfold extract_rar, extract_with, try_except, raise, ret, bind.
        destruct RARFILE_AVAILABLE; cbn.
        -- destruct (extract_raises a) as [err|].
           ++ eexists. reflexivity.
           ++ exists []. rewrite printed_nil. reflexivity.
        -- exists []. rewrite printed_nil.
           destruct (extract_raises a); reflexivity.
      * unfold bind, ret.
        replace (String.eqb e ".zip") with false
          by (symmetry; apply String.eqb_neq; congruence).
        replace (String.eqb e ".7z") with false
          by (symmetry; apply String.eqb_neq; congruence).
        replace (String.eqb e ".rar") with false
          by (symmetry; apply String.eqb_neq; congruence).
        eexists. destruct (extract_raises a); reflexivity.
Qed.

Lemma extracts_is_archive (a : file) : extracts a = true -> is_archive a = true.
Proof.
  unfold extracts, is_archive, str_in, SUPPORTED_archives.
  destruct (extract_raises a); [discriminate|].
  cbn -[String.eqb].
  destruct (String.eqb (ext_of (name a)) ".zip"); auto.
  destruct (String.eqb (ext_of (name a)) ".7z"); auto.
  destruct (String.eqb (ext_of (name a)) ".rar"); auto.
Qed.

(** ** Recursive unpacking refines the provenance model *)

Lemma process_members_cons (full : string) (node : file) (nodes : list file)
    (extracted : string) (paths : list string) (results : list document) :
  process_members full (node :: nodes) (extracted :: paths) results =
  if str_in (ext_of extracted) SUPPORTED_archives then
    sub <- _process_archive node extracted full ;;
    process_members full nodes paths (results ++ sub)%list
  else
    doc <- _process_file node extracted full ;;
    match doc with
    | Some d => process_members full nodes paths (results ++ [d])%list
    | None => process_members full nodes paths results
    end.
Proof. reflexivity. Qed.

Lemma process_members_no_paths (full : string) (nodes : list file)
    (results : list document) :
  process_members full nodes [] results = ret results.
Proof. destruct nodes; reflexivity. Qed.

Lemma concat_snoc (sep : string) (chain : list string) (n : string) :
  chain <> [] ->
  String.concat sep (chain ++ [n]) = String.concat sep chain ++ sep ++ n.
Proof.
  induction chain as [|x rest IH]; intros H; [congruence|].
  destruct rest as [|y rest'].
  - reflexivity.
  - change (String.concat sep ((x :: y :: rest') ++ [n]))
      with (x ++ sep ++ String.concat sep ((y :: rest') ++ [n])).
    rewrite IH by discriminate.
    change (String.concat sep (x :: y :: rest'))
      with (x ++ sep ++ String.concat sep (y :: rest')).
    rewrite !app_assoc_string. reflexivity.
Qed.

Lemma erase_process_file (m : file) (dir : string) (chain : list string)
    (n : nat) :
  erase (mkDocument n (path_join dir (name m))
           (basename (path_join dir (name m)))
           (if str_in (ext_of (path_join dir (name m))) SUPPORTED_documents
            then document_t else spreadsheet_t)
           (st_size m) (content_of m (ext_of (path_join dir (name m))))
           (String.concat "/" chain) (created_iso m) (md5_hexdigest m))
  = expected_record chain m.
Proof.
  unfold erase, expected_record. cbn [file_name file_type file_size content
    archive_path created_date content_hash].
  now rewrite basename_path_join, ext_of_path_join.
Qed.

Lemma process_members_refines (full dir : string) (chain : list string) :
  full = String.concat "/" chain -> full <> "" ->
  forall nodes, Forall archive_refines nodes ->
  forall results s, exists rs s',
    process_members full nodes (map (fun m => path_join dir (name m)) nodes)
      results s = (Ok (results ++ rs)%list, s') /\
    documents s' = documents s /\
    map erase rs = expected_records (flat_map (expected_member chain) nodes) /\
    Forall (fun r => id r = List.length (documents s) + 1) rs.
Proof.
  intros Hfull Hne nodes Hall.
  assert (Hchain : chain <> [] -> full <> "") by auto.
  induction Hall as [|m nodes Hm Hall IH]; intros results s.
  - exists [], s. cbn. rewrite app_nil_r. auto.
  - cbn [map]. rewrite process_members_cons, ext_of_path_join.
    cbn [flat_map]. unfold expected_member at 1. fold (is_archive m).
    destruct (is_archive m) eqn:A.
    + destruct (Hm dir full chain s Hfull Hchain)
        as (rs1 & s1 & E1 & D1 & V1 & I1).
      unfold bind. rewrite E1.
      destruct (IH (results ++ rs1)%list s1) as (rs2 & s2 & E2 & D2 & V2 & I2).
      rewrite E2. exists (rs1 ++ rs2)%list, s2.
      repeat split.
      * now rewrite app_assoc.
      * congruence.
      * unfold expected_records in *. rewrite !map_app. congruence.
      * apply Forall_app. split; auto. now rewrite <- D1.
    + unfold is_supported.
      destruct (str_in (ext_of (name m))
                  (SUPPORTED_documents ++ SUPPORTED_spreadsheets)) eqn:S.
      * destruct (process_file_supported m (path_join dir (name m)) full s)
          as [out E1].
        { now rewrite ext_of_path_join. }
        unfold bind. rewrite E1.
        destruct (IH (results ++ [mkDocument (List.length (documents s) + 1)
                        (path_join dir (name m))
                        (basename (path_join dir (name m)))
                        (if str_in (ext_of (path_join dir (name m)))
                              SUPPORTED_documents
                         then document_t else spreadsheet_t)
                        (st_size m)
                        (content_of m (ext_of (path_join dir (name m))))
                        full (created_iso m) (md5_hexdigest m)])%list
                    (printed s out)) as (rs2 & s2 & E2 & D2 & V2 & I2).
        rewrite E2. eexists (_ :: rs2), s2. repeat split.
        -- now rewrite <- app_assoc.
        -- now rewrite D2.
        -- cbn [map]. rewrite V2. rewrite Hfull at 1.
           rewrite erase_process_file. reflexivity.
        -- constructor; auto.
      * unfold bind. rewrite process_file_unsupported
          by now rewrite ext_of_path_join.
        destruct (IH results s) as (rs2 & s2 & E2 & D2 & V2 & I2).
        exists rs2, s2. auto.
Qed.

Lemma provenance_unfold (chain : list string) (a : file) :
  provenance chain a =
  if extracts a
  then flat_map (expected_member (chain ++ [basename (name a)])) (members a)
  else [].
Proof. destruct a; reflexivity. Qed.

Lemma full_path_chain (parent n : string) (chain : list string) :
  parent = String.concat "/" chain ->
  (chain <> [] -> parent <> "") ->
  (if truthy parent then parent ++ "/" ++ n else n)
  = String.concat "/" (chain ++ [n]).
Proof.
  intros Hp Hc. destruct chain as [|x rest].
  - subst parent. reflexivity.
  - rewrite concat_snoc by discriminate. rewrite <- Hp.
    destruct parent; [exfalso; apply Hc; [discriminate|reflexivity]|].
    reflexivity.
Qed.

Lemma process_archive_refines (a : file) : archive_refines a.
Proof.
  induction a as [a IH] using file_nested_ind.
  intros d parent chain s Hp Hc.
  rewrite process_archive_unfold. cbv zeta.
  rewrite basename_path_join.
  rewrite (full_path_chain parent (basename (name a)) chain Hp Hc).
  set (full := String.concat "/" (chain ++ [basename (name a)])).
  unfold bind at 1. rewrite print_printed.
  unfold bind at 1. unfold mkdtemp at 1. cbn [documents printed storage_path
    output_csv temp_dirs stdout mkdtemp_calls].
  unfold bind at 1. unfold register_temp_dir at 1.
  cbn [documents printed storage_path output_csv temp_dirs stdout
    mkdtemp_calls].
  unfold bind at 1.
  match goal with
  | |- context [extract_archive a _ ?dir ?st] =>
      destruct (extract_archive_spec a d dir st) as [out E]; rewrite E
  end.
  rewrite (provenance_unfold chain a).
  destruct (extracts a) eqn:X.
  - assert (Hne : full <> "").
    { unfold full. intros Hempty.
      apply extracts_is_archive in X.
      apply (archive_ext_basename (name a) X).
      destruct chain as [|x rest]; [exact Hempty|].
      rewrite concat_snoc in Hempty by discriminate.
      rewrite <- Hp in Hempty.
      destruct parent; [exfalso; apply Hc; [discriminate|reflexivity]|].
      discriminate. }
    match goal with
    | |- context [process_members full (members a) (map _ (members a)) [] ?st]
      => destruct (process_members_refines full
                     (mkdtemp_name (mkdtemp_calls s))
                     (chain ++ [basename (name a)]) eq_refl Hne (members a) IH
                     [] st) as (rs & s' & E' & D' & V' & I')
    end.
    rewrite E'. exists rs, s'. repeat split; auto.
  - rewrite process_members_no_paths. exists [], (printed
      (mkState (storage_path s) (output_csv s) (documents s)
         (temp_dirs s ++ [mkdtemp_name (mkdtemp_calls s)])
         (stdout s ++ [LF ++ "  Extracting: " ++ full])
         (S (mkdtemp_calls s))) out).
    repeat split; auto.
Qed.

(** ** The walk refines the expected catalogue *)

Lemma bind_ok {A B} (m : M A) (k : A -> M B) (s s' : state) (a : A) :
  m s = (Ok a, s') -> bind m k s = k a s'.
Proof. intros H. unfold bind. now rewrite H. Qed.

Lemma crawl_file_refines (root : string) (f : file) (s : state) :
  exists rs s',
    crawl_file root f s = (Ok tt, s') /\
    documents s' = (documents s ++ rs)%list /\
    map erase rs = expected_records (expected_file f) /\
    Forall (fun r => id r = List.length (documents s) + 1) rs.
Proof.
  unfold crawl_file. cbv zeta.
  change (lower (snd (splitext (path_join root (name f)))))
    with (ext_of (path_join root (name f))).
  rewrite ext_of_path_join. fold (is_archive f).
  unfold expected_file.
  erewrite bind_ok by apply print_printed.
  destruct (is_archive f) eqn:A.
  - destruct (process_archive_refines f root "" []
                (printed s [LF ++ "Found: " ++ name f]) eq_refl)
      as (rs & s1 & E1 & D1 & V1 & I1); [congruence|].
    erewrite bind_ok by exact E1.
    exists rs. eexists. split; [reflexivity|].
    cbn. rewrite D1. auto.
  - unfold is_supported.
    destruct (str_in (ext_of (name f))
                (SUPPORTED_documents ++ SUPPORTED_spreadsheets)) eqn:S.
    + destruct (process_file_supported f (path_join root (name f)) ""
                  (printed s [LF ++ "Found: " ++ name f])) as [out E1].
      { now rewrite ext_of_path_join. }
      erewrite bind_ok by exact E1.
      eexists [_]. eexists. split; [reflexivity|].
      cbn [documents printed set_documents get_documents bind fst snd].
      split; [reflexivity|]. split; [|repeat constructor].
      cbn [map]. change "" with (String.concat "/" []) at 1.
      rewrite erase_process_file. reflexivity.
    + erewrite bind_ok
        by (apply process_file_unsupported; now rewrite ext_of_path_join).
      exists []. eexists. split; [reflexivity|].
      cbn. rewrite app_nil_r. auto.
Qed.

Lemma crawl_files_refine (root : string) (files : list file) (s : state) :
  exists rs s',
    for_each files (fun f => crawl_file root f) s = (Ok tt, s') /\
    documents s' = (documents s ++ rs)%list /\
    map erase rs = expected_records (flat_map expected_file files).
Proof.
  revert s. induction files as [|f files IH]; intros s.
  - exists [], s. cbn. now rewrite app_nil_r.
  - destruct (crawl_file_refines root f s) as (rs1 & s1 & E1 & D1 & V1 & _).
    destruct (IH s1) as (rs2 & s2 & E2 & D2 & V2).
    exists (rs1 ++ rs2)%list, s2. cbn [for_each flat_map].
    erewrite bind_ok by exact E1. split; [exact E2|]. split.
    + now rewrite D2, D1, app_assoc.
    + unfold expected_records in *. rewrite !map_app. congruence.
Qed.

Lemma crawl_walk_refines (dirs : list (string * list file)) (s : state) :
  exists rs s',
    for_each dirs (fun '(root, files) =>
      for_each files (fun f => crawl_file root f)) s = (Ok tt, s') /\
    documents s' = (documents s ++ rs)%list /\
    map erase rs = expected_records (expected dirs).
Proof.
  revert s. induction dirs as [|[root files] dirs IH]; intros s.
  - exists [], s. cbn. now rewrite app_nil_r.
  - destruct (crawl_files_refine root files s) as (rs1 & s1 & E1 & D1 & V1).
    destruct (IH s1) as (rs2 & s2 & E2 & D2 & V2).
    exists (rs1 ++ rs2)%list, s2. unfold expected. cbn [for_each flat_map].
    erewrite bind_ok by exact E1. split; [exact E2|]. split.
    + now rewrite D2, D1, app_assoc.
    + unfold expected_records, expected in *. rewrite !map_app. congruence.
Qed.

Lemma crawl_refines (dirs : list (string * list file)) (s : state) :
  exists rs s',
    crawl (Some dirs) s = (Ok (documents s ++ rs)%list, s') /\
    documents s' = (documents s ++ rs)%list /\
    map erase rs = expected_records (expected dirs).
Proof.
  unfold crawl.
  do 5 (erewrite bind_ok by reflexivity).
  match goal with
  | |- context [bind (for_each dirs ?body) _ ?st] =>
      destruct (crawl_walk_refines dirs st) as (rs & s1 & E1 & D1 & V1)
  end.
  erewrite bind_ok by exact E1.
  do 2 (erewrite bind_ok by reflexivity).
  exists rs. eexists.
  unfold bind, get_documents, print, ret. cbn in D1 |- *.
  rewrite D1. auto.
Qed.

(** ** Record ids *)

Lemma Forall_eq_repeat (rs : list document) (n : nat) :
  Forall (fun r => id r = n) rs -> map id rs = repeat n (List.length rs).
Proof.
  induction 1 as [|r rs Hr _ IH]; [reflexivity|].
  cbn. now rewrite Hr, IH.
Qed.

Lemma crawl_files_ids (root : string) (files : list file) (s : state) :
  exists rs s',
    for_each files (fun f => crawl_file root f) s = (Ok tt, s') /\
    documents s' = (documents s ++ rs)%list /\
    map id rs = expected_ids (List.length (documents s)) files.
Proof.
  revert s. induction files as [|f files IH]; intros s.
  - exists [], s. cbn. now rewrite app_nil_r.
  - destruct (crawl_file_refines root f s) as (rs1 & s1 & E1 & D1 & V1 & I1).
    destruct (IH s1) as (rs2 & s2 & E2 & D2 & V2).
    exists (rs1 ++ rs2)%list, s2. cbn [for_each expected_ids].
    erewrite bind_ok by exact E1. split; [exact E2|]. split.
    + now rewrite D2, D1, app_assoc.
    + rewrite map_app, V2, D1, List.length_app.
      rewrite (Forall_eq_repeat _ _ I1).
      apply (f_equal (@List.length document)) in V1.
      unfold expected_records in V1. rewrite !List.length_map in V1.
      now rewrite V1.
Qed.

Lemma expected_ids_sequential (files : list file) :
  Forall (fun f => List.length (expected_file f) <= 1) files ->
  forall n,
    expected_ids n files
    = seq (n + 1) (List.length (flat_map expected_file files)).
Proof.
  induction 1 as [|f files Hf _ IH]; intros n; [reflexivity|].
  cbn [expected_ids flat_map]. rewrite IH.
  destruct (expected_file f) as [|x [|y l]].
  - cbn [List.length repeat app]. now rewrite Nat.add_0_r.
  - cbn [List.length repeat app seq].
    now replace (n + 1 + 1) with (S (n + 1)) by lia.
  - cbn [List.length] in Hf. lia.
Qed.

(** The numbering of C1 holds on every directory whose files contribute at
    most one record each (in particular when it holds no archive): a new
    crawler numbers the records 1, 2, 3, ... *)
Lemma crawl_files_ids_sequential (root : string) (files : list file)
    (s : state) :
  documents s = [] ->
  Forall (fun f => List.length (expected_file f) <= 1) files ->
  exists rs s',
    for_each files (fun f => crawl_file root f) s = (Ok tt, s') /\
    documents s' = rs /\
    map id rs = seq 1 (List.length rs).
Proof.
  intros Hs Hf.
  destruct (crawl_files_refine root files s) as (rs & s' & E & D & V).
  destruct (crawl_files_ids root files s) as (rs' & s'' & E' & D' & I').
  rewrite E in E'. injection E' as <-. rewrite D in D'.
  apply app_inv_head in D'. subst rs'.
  exists rs, s'. rewrite Hs in D, I'. split; [exact E|]. split; [exact D|].
  rewrite I', (expected_ids_sequential files Hf).
  apply (f_equal (@List.length document)) in V.
  unfold expected_records in V. rewrite !List.length_map in V. now rewrite V.
Qed.

(** ** Provenance chains *)

Lemma provenance_chain_nonempty (a : file) :
  forall chain,
    (chain <> [] -> String.concat "/" chain <> "") ->
    Forall (fun cl => String.concat "/" (fst cl) <> "") (provenance chain a).
Proof.
  induction a as [a IH] using file_nested_ind.
  intros chain Hc. rewrite provenance_unfold.
  destruct (extracts a) eqn:X; [|constructor].
  assert (Hne : String.concat "/" (chain ++ [basename (name a)]) <> "").
  { apply extracts_is_archive in X.
    pose proof (archive_ext_basename (name a) X) as Hb.
    destruct chain as [|x rest]; [exact Hb|].
    rewrite concat_snoc by discriminate.
    specialize (Hc ltac:(discriminate)).
    destruct (String.concat "/" (x :: rest)); [congruence|discriminate]. }
  induction IH as [|m ms Hm _ IHms]; cbn [flat_map]; [constructor|].
  apply Forall_app. split; [|exact IHms].
  unfold expected_member.
  destruct (is_archive m).
  - apply Hm. auto.
  - destruct (is_supported m); repeat constructor. exact Hne.
Qed.

Lemma expected_records_in (rs : list document)
    (l : list (list string * file)) (chain : list string) (leaf : file) :
  map erase rs = expected_records l ->
  In (chain, leaf) l ->
  exists r, In r rs /\ erase r = expected_record chain leaf.
Proof.
  intros V H.
  apply (in_map (fun cl => expected_record (fst cl) (snd cl))) in H.
  fold (expected_records l) in H. rewrite <- V in H.
  apply in_map_iff in H. destruct H as (r & E & Hin). eauto.
Qed.

Lemma archive_path_erase (rs : list document)
    (l : list (list string * file)) :
  map erase rs = expected_records l ->
  map archive_path rs = map (fun cl => String.concat "/" (fst cl)) l.
Proof.
  intros V. apply (f_equal (map archive_path)) in V.
  unfold expected_records in V. rewrite !map_map in V. exact V.
Qed.

Lemma provenance_two_levels (outer inner leaf : file) :
  extracts outer = true -> In inner (members outer) ->
  extracts inner = true -> In leaf (members inner) ->
  is_archive leaf = false -> is_supported leaf = true ->
  In ([basename (name outer); basename (name inner)], leaf)
     (provenance [] outer).
Proof.
  intros Xo Hi Xi Hl Al Sl.
  rewrite provenance_unfold, Xo. apply in_flat_map. exists inner.
  split; [exact Hi|]. unfold expected_member at 1.
  rewrite (extracts_is_archive inner Xi).
  rewrite provenance_unfold, Xi. apply in_flat_map. exists leaf.
  split; [exact Hl|]. unfold expected_member. rewrite Al, Sl. now left.
Qed.

(** C2. A record's [archive_path] is empty exactly when its file was listed
    by the walk itself (it is not inside an archive); the archive paths of a
    crawl are the slash-joined chains of container names, outer to inner; and
    a supported file inside archive [inner], itself inside the top-level
    archive [outer], gets [basename outer ++ "/" ++ basename inner], so
    "outer.zip/inner.zip" for archives of these names. *)
Theorem archive_path_is_provenance_chain :
  (forall root f s, exists rs s',
      crawl_file root f s = (Ok tt, s') /\
      documents s' = (documents s ++ rs)%list /\
      Forall (fun r => archive_path r = "" <-> is_archive f = false) rs) /\
  (forall dirs s, exists rs s',
      crawl (Some dirs) s = (Ok (documents s ++ rs)%list, s') /\
      map archive_path rs
      = map (fun cl => String.concat "/" (fst cl)) (expected dirs)) /\
  (forall root outer inner leaf s,
      extracts outer = true -> In inner (members outer) ->
      extracts inner = true -> In leaf (members inner) ->
      is_archive leaf = false -> is_supported leaf = true ->
      exists rs s',
        crawl_file root outer s = (Ok tt, s') /\
        documents s' = (documents s ++ rs)%list /\
        exists r, In r rs /\
          file_name r = basename (name leaf) /\
          content_hash r = md5_hexdigest leaf /\
          archive_path r
          = basename (name outer) ++ "/" ++ basename (name inner)).
Proof.
  split; [|split].
  - intros root f s.
    destruct (crawl_file_refines root f s) as (rs & s' & E & D & V & _).
    exists rs, s'. split; [exact E|]. split; [exact D|].
    apply archive_path_erase in V. unfold expected_file in V.
    destruct (is_archive f) eqn:A.
    + pose proof (provenance_chain_nonempty f []
                    ltac:(intros H; now contradiction H)) as P.
      rewrite <- (map_id rs). rewrite <- Forall_map with (f := archive_path)
        (P := fun ap => (ap = "" <-> true = false)).
      rewrite map_id, V. rewrite Forall_map.
      eapply Forall_impl; [|exact P]. cbn. intros cl H. split; [tauto|discriminate].
    + rewrite <- Forall_map with (f := archive_path)
        (P := fun ap => (ap = "" <-> false = false)).
      rewrite V. destruct (is_supported f); repeat constructor; auto.
  - intros dirs s.
    destruct (crawl_refines dirs s) as (rs & s' & E & D & V).
    exists rs, s'. split; [exact E|]. now apply archive_path_erase.
  - intros root outer inner leaf s Xo Hi Xi Hl Al Sl.
    destruct (crawl_file_refines root outer s) as (rs & s' & E & D & V & _).
    exists rs, s'. split; [exact E|]. split; [exact D|].
    unfold expected_file in V. rewrite (extracts_is_archive outer Xo) in V.
    destruct (expected_records_in rs _ _ leaf V
                (provenance_two_levels outer inner leaf Xo Hi Xi Hl Al Sl))
      as (r & Hin & Er).
    exists r. split; [exact Hin|].
    apply (f_equal file_name) in Er as Hn.
    apply (f_equal content_hash) in Er as Hh.
    apply (f_equal archive_path) in Er as Hp.
    auto.
Qed.

(** ** Skipped files and failing archives *)

Lemma expected_flat_early (dirs : list (string * list file)) :
  expected dirs = flat_map expected_file (flat_map snd dirs).
Proof.
  unfold expected. induction dirs as [|[root files] dirs IH]; [reflexivity|].
  cbn [flat_map snd]. now rewrite flat_map_app, IH.
Qed.

Lemma process_members_skip (full dir : string) (m : file) :
  is_archive m = false -> is_supported m = false ->
  forall pre post results s,
    process_members full (pre ++ m :: post)
      (map (fun x => path_join dir (name x)) (pre ++ m :: post)) results s
    = process_members full (pre ++ post)
        (map (fun x => path_join dir (name x)) (pre ++ post)) results s.
Proof.
  intros A S pre post.
  induction pre as [|x pre IH]; intros results s.
  - cbn [app map]. rewrite process_members_cons, ext_of_path_join.
    fold (is_archive m). rewrite A. unfold bind.
    rewrite process_file_unsupported; [reflexivity|].
    now rewrite ext_of_path_join.
  - cbn [app map]. rewrite !process_members_cons.
    destruct (str_in (ext_of (path_join dir (name x))) SUPPORTED_archives).
    + unfold bind.
      destruct (_process_archive x (path_join dir (name x)) full s)
        as [[sub|e] s1]; auto.
    + unfold bind.
      destruct (_process_file x (path_join dir (name x)) full s)
        as [[[d|]|e] s1]; auto.
Qed.

(** C7. A file whose extension is outside the document, spreadsheet and
    archive sets produces no record and no error, wherever it is found:
    [_process_file] returns [None] without printing or raising; at the top
    level the walk prints only its "Found" line and leaves the records
    alone; inside an archive the member loop behaves as if the file were not
    there. *)
Theorem unsupported_extension_yields_nothing :
  (forall f p ap s,
      str_in (ext_of p) (SUPPORTED_documents ++ SUPPORTED_spreadsheets) = false ->
      _process_file f p ap s = (Ok None, s)) /\
  (forall root f s,
      is_archive f = false -> is_supported f = false ->
      crawl_file root f s = (Ok tt, printed s [LF ++ "Found: " ++ name f])) /\
  (forall full dir m pre post results s,
      is_archive m = false -> is_supported m = false ->
      process_members full (pre ++ m :: post)
        (map (fun x => path_join dir (name x)) (pre ++ m :: post)) results s
      = process_members full (pre ++ post)
          (map (fun x => path_join dir (name x)) (pre ++ post)) results s).
Proof.
  split; [|split].
  - intros f p ap s H. now apply process_file_unsupported.
  - intros root f s A S. unfold crawl_file. cbv zeta.
    change (lower (snd (splitext (path_join root (name f)))))
      with (ext_of (path_join root (name f))).
    rewrite ext_of_path_join. fold (is_archive f). rewrite A.
    erewrite bind_ok by apply print_printed.
    erewrite bind_ok
      by (apply process_file_unsupported; now rewrite ext_of_path_join).
    reflexivity.
  - intros full dir m pre post results s A S.
    now apply process_members_skip.
Qed.

Lemma parent_chain (parent : string) :
  exists chain : list string,
    parent = String.concat "/" chain /\ (chain <> [] -> parent <> "").
Proof.
  destruct parent as [|c rest].
  - exists []. split; [reflexivity|congruence].
  - exists [String c rest]. split; [reflexivity|discriminate].
Qed.

Lemma extracts_with_members (a : file) (ms : list file) :
  extracts (with_members a ms) = extracts a.
Proof. reflexivity. Qed.

Lemma failed_archive_expected (chain : list string) (bad : file) :
  is_archive bad = true -> extracts bad = false ->
  expected_member chain bad = [].
Proof.
  intros A X. unfold expected_member. rewrite A, provenance_unfold, X.
  reflexivity.
Qed.

Lemma expected_top_level (dirs : list (string * list file)) (f : file) :
  In f (flat_map snd dirs) ->
  is_archive f = false -> is_supported f = true ->
  In ([], f) (expected dirs).
Proof.
  intros Hin A S. rewrite expected_flat_early. apply in_flat_map.
  exists f. split; [exact Hin|]. unfold expected_file. rewrite A, S.
  now left.
Qed.

(** C8. An archive whose extraction fails (the reader raises, or the optional
    reader is missing) yields zero records and no exception, and the rest is
    still processed: a crawl over a storage tree that lists the failing
    archive returns the same records as a crawl over the tree without it, and
    an archive holding the failing one among its members yields the same
    records as if it did not hold it.  Records are compared by [erase], that
    is without their id and without the path of the scratch directory.  The
    records of the other files are there: the crawl with the failing archive
    returns exactly the records expected of the tree without it, among them
    one record for every supported file the walk lists; and an extractable
    archive that holds the failing one returns exactly the records expected
    of its other members, among them one for every supported file that is a
    member. *)
Theorem failed_extraction_only_empties_its_subtree :
  (forall bad d parent s,
      extracts bad = false ->
      exists s',
        _process_archive bad (path_join d (name bad)) parent s = (Ok [], s') /\
        documents s' = documents s) /\
  (forall before root pre bad post after s,
      is_archive bad = true -> extracts bad = false ->
      exists rs rs' s1 s2,
        crawl (Some (before ++ (root, pre ++ bad :: post) :: after)%list) s
          = (Ok (documents s ++ rs)%list, s1) /\
        crawl (Some (before ++ (root, pre ++ post) :: after)%list) s
          = (Ok (documents s ++ rs')%list, s2) /\
        map erase rs = map erase rs') /\
  (forall a pre bad post d parent s,
      members a = (pre ++ bad :: post)%list ->
      is_archive bad = true -> extracts bad = false ->
      exists rs rs' s1 s2,
        _process_archive a (path_join d (name a)) parent s = (Ok rs, s1) /\
        _process_archive (with_members a (pre ++ post)%list)
          (path_join d (name a)) parent s = (Ok rs', s2) /\
        map erase rs = map erase rs') /\
  (forall before root pre bad post after s,
      is_archive bad = true -> extracts bad = false ->
      exists rs s1,
        crawl (Some (before ++ (root, pre ++ bad :: post) :: after)%list) s
          = (Ok (documents s ++ rs)%list, s1) /\
        map erase rs
        = expected_records
            (expected (before ++ (root, pre ++ post) :: after)%list) /\
        forall f,
          In f (flat_map snd (before ++ (root, pre ++ post) :: after)%list) ->
          is_archive f = false -> is_supported f = true ->
          exists r, In r rs /\
            file_name r = basename (name f) /\
            file_size r = st_size f /\
            content_hash r = md5_hexdigest f /\
            archive_path r = "") /\
  (forall a pre bad post d parent chain s,
      members a = (pre ++ bad :: post)%list ->
      extracts a = true ->
      is_archive bad = true -> extracts bad = false ->
      parent = String.concat "/" chain ->
      (chain <> [] -> parent <> "") ->
      exists rs s1,
        _process_archive a (path_join d (name a)) parent s = (Ok rs, s1) /\
        map erase rs
        = expected_records
            (flat_map (expected_member (chain ++ [basename (name a)]))
               (pre ++ post)) /\
        forall m,
          In m (pre ++ post)%list ->
          is_archive m = false -> is_supported m = true ->
          exists r, In r rs /\
            file_name r = basename (name m) /\
            file_size r = st_size m /\
            content_hash r = md5_hexdigest m /\
            archive_path r
            = String.concat "/" (chain ++ [basename (name a)])).
Proof.
  split; [|split; [|split; [|split]]].
  - intros bad d parent s X.
    rewrite process_archive_unfold. cbv zeta.
    erewrite bind_ok by apply print_printed.
    erewrite bind_ok by reflexivity.
    erewrite bind_ok by reflexivity.
    match goal with
    | |- context [extract_archive bad _ ?dir] =>
        match goal with
        | |- context [bind _ _ ?st] =>
            destruct (extract_archive_spec bad d dir st) as [out E]
        end
    end.
    erewrite bind_ok by exact E. rewrite X, process_members_no_paths.
    eexists. split; reflexivity.
  - intros before root pre bad post after s A X.
    destruct (crawl_refines
                (before ++ (root, pre ++ bad :: post) :: after)%list s)
      as (rs & s1 & E1 & _ & V1).
    destruct (crawl_refines (before ++ (root, pre ++ post) :: after)%list s)
      as (rs' & s2 & E2 & _ & V2).
    exists rs, rs', s1, s2. split; [exact E1|]. split; [exact E2|].
    rewrite V1, V2. f_equal. unfold expected.
    assert (Hbad : expected_file bad = []).
    { unfold expected_file. now rewrite A, provenance_unfold, X. }
    rewrite !flat_map_app. cbn [flat_map]. rewrite !flat_map_app.
    cbn [flat_map]. now rewrite Hbad.
  - intros a pre bad post d parent s Hm A X.
    destruct (parent_chain parent) as (chain & Hp & Hc).
    destruct (process_archive_refines a d parent chain s Hp Hc)
      as (rs & s1 & E1 & _ & V1 & _).
    destruct (process_archive_refines (with_members a (pre ++ post)%list) d parent
                chain s Hp Hc) as (rs' & s2 & E2 & _ & V2 & _).
    cbn [name with_members] in E2.
    exists rs, rs', s1, s2. split; [exact E1|]. split; [exact E2|].
    rewrite V1, V2. f_equal. rewrite !provenance_unfold.
    rewrite extracts_with_members. cbn [name members with_members].
    rewrite Hm. destruct (extracts a); [|reflexivity].
    rewrite !flat_map_app. cbn [flat_map].
    now rewrite failed_archive_expected.
  - intros before root pre bad post after s A X.
    destruct (crawl_refines
                (before ++ (root, pre ++ bad :: post) :: after)%list s)
      as (rs & s1 & E1 & _ & V1).
    assert (Hbad : expected_file bad = []).
    { unfold expected_file. now rewrite A, provenance_unfold, X. }
    assert (Hexp : expected (before ++ (root, pre ++ bad :: post) :: after)%list
                   = expected (before ++ (root, pre ++ post) :: after)%list).
    { unfold expected. rewrite !flat_map_app. cbn [flat_map].
      rewrite !flat_map_app. cbn [flat_map]. now rewrite Hbad. }
    rewrite Hexp in V1.
    exists rs, s1. split; [exact E1|]. split; [exact V1|].
    intros f Hin Af Sf.
    destruct (expected_records_in rs _ [] f V1
                (expected_top_level _ f Hin Af Sf)) as (r & Hr & Er).
    exists r. split; [exact Hr|].
    apply (f_equal file_name) in Er as Hn.
    apply (f_equal file_size) in Er as Hz.
    apply (f_equal content_hash) in Er as Hh.
    apply (f_equal archive_path) in Er as Hp.
    auto.
  - intros a pre bad post d parent chain s Hm Xa A X Hp Hc.
    destruct (process_archive_refines a d parent chain s Hp Hc)
      as (rs & s1 & E1 & _ & V1 & _).
    rewrite provenance_unfold, Xa, Hm in V1.
    rewrite flat_map_app in V1. cbn [flat_map] in V1.
    rewrite (failed_archive_expected _ bad A X) in V1. cbn [app] in V1.
    rewrite <- flat_map_app in V1.
    exists rs, s1. split; [exact E1|]. split; [exact V1|].
    intros m Hin Am Sm.
    assert (Hex : In (chain ++ [basename (name a)], m)%list
                    (flat_map (expected_member (chain ++ [basename (name a)]))
                       (pre ++ post))).
    { apply in_flat_map. exists m. split; [exact Hin|].
      unfold expected_member. rewrite Am, Sm. now left. }
    destruct (expected_records_in rs _ _ m V1 Hex) as (r & Hr & Er).
    exists r. split; [exact Hr|].
    apply (f_equal file_name) in Er as Hn.
    apply (f_equal file_size) in Er as Hz.
    apply (f_equal content_hash) in Er as Hh.
    apply (f_equal archive_path) in Er as Hpa.
    auto.
Qed.

(** ** Dispatch *)

(** C10. The "[Unsupported file type: ...]" branch of [parse_document] is
    not reachable from [_process_file]: whenever a record is produced, the
    extension has an entry in the dispatch table, [parse_document] is that
    entry's parser applied to the file, and the record's content is what
    that parser returned. *)
Theorem unsupported_branch_unreachable (f : file) (p ap : string)
    (s s' : state) (d : document) :
  _process_file f p ap s = (Ok (Some d), s') ->
  exists q,
    dict_get parsers (ext_of p) = Some q /\
    (q = parse_docx \/ q = parse_xlsx \/ q = parse_xls \/ q = parse_pdf) /\
    parse_document f p (ext_of p) = q f p /\
    fst (q f p (printed s ["  Processing: " ++ basename p])) = Ok (content d).
Proof.
  intros H.
  destruct (str_in (ext_of p) (SUPPORTED_documents ++ SUPPORTED_spreadsheets))
    eqn:S.
  - destruct (supported_dict_get _ S) as [q Hq].
    exists q. split; [exact Hq|].
    split; [apply (dict_get_parsers _ _ Hq)|].
    assert (Hpd : parse_document f p (ext_of p) = q f p).
    { unfold parse_document. now rewrite Hq. }
    split; [exact Hpd|].
    destruct (process_file_supported f p ap s S) as [out E].
    rewrite E in H. injection H as Hd _. subst d. cbn [content].
    destruct (parse_document_content f p (ext_of p)
                (printed s ["  Processing: " ++ basename p])) as [out' E'].
    rewrite Hpd in E'. now rewrite E'.
  - rewrite (process_file_unsupported f p ap s S) in H. discriminate.
Qed.

(** ** PDF *)

Lemma pdfplumber_pages_marked (texts : list (option string)) :
  forall page_num parts,
    pdfplumber_pages (map Ok texts) page_num parts =
    Ok (parts ++
        flat_map marked_page
          (combine (seq page_num (List.length texts)) texts))%list.
Proof.
  induction texts as [|t texts IH]; intros page_num parts.
  - cbn. now rewrite app_nil_r.
  - cbn [map pdfplumber_pages List.length seq combine flat_map fst snd].
    rewrite IH. unfold marked_page at 2. cbn [fst snd].
    destruct t as [t|]; [|reflexivity].
    destruct t as [|c t'].
    + reflexivity.
    + cbn [truthy andb].
      destruct (truthy (strip (String c t'))); [|reflexivity].
      now rewrite <- app_assoc.
Qed.

(** C5. For a PDF whose pages the primary reader can read, its result is the
    normalised text of the pages, each non-blank page preceded by its 1-based
    "[Page N]" marker.  Whatever the file, neither reader raises.  If the
    primary result has at least 50 characters it is returned and nothing more
    happens; if it has fewer, the secondary reader runs and its text is
    returned exactly when it is strictly longer; and when both results are
    empty the content is the sentinel. *)
Theorem parse_pdf_fallback (f : file) (p : string) (s : state) :
  (forall texts,
      pdfplumber_open f = Ok (map Ok texts) ->
      parse_pdf_pdfplumber f p s
      = (Ok (clean_text (String.concat LF (marked_pages texts))), s)) /\
  (exists text out, parse_pdf_pdfplumber f p s = (Ok text, printed s out)) /\
  (forall s1, exists backup out,
      parse_pdf_pypdf2 f p s1 = (Ok backup, printed s1 out)) /\
  (forall text s1,
      parse_pdf_pdfplumber f p s = (Ok text, s1) ->
      50 <= String.length text ->
      parse_pdf f p s = (Ok text, s1)) /\
  (forall text s1 backup s2,
      parse_pdf_pdfplumber f p s = (Ok text, s1) ->
      String.length text < 50 ->
      parse_pdf_pypdf2 f p s1 = (Ok backup, s2) ->
      (String.length text < String.length backup ->
       parse_pdf f p s = (Ok backup, s2)) /\
      (String.length backup <= String.length text -> text <> "" ->
       parse_pdf f p s = (Ok text, s2)) /\
      (text = "" -> backup = "" ->
       parse_pdf f p s = (Ok NO_TEXT_PDF, s2))).
Proof.
  split; [|split; [|split; [|split]]].
  - intros texts H. unfold parse_pdf_pdfplumber, try_except, bind, lift, ret.
    rewrite H. cbn iota beta. rewrite pdfplumber_pages_marked. reflexivity.
  - destruct (parse_pdf_pdfplumber_pure f) as [text H1].
    exists text. apply H1.
  - destruct (parse_pdf_pypdf2_pure f) as [backup H2].
    intros s1. exists backup. apply H2.
  - intros text s1 E1 L. unfold parse_pdf.
    erewrite bind_ok by exact E1.
    apply Nat.ltb_ge in L. rewrite L.
    unfold bind, ret. destruct text; [cbn in L; discriminate|reflexivity].
  - intros text s1 backup s2 E1 L E2. unfold parse_pdf.
    erewrite bind_ok by exact E1.
    apply Nat.ltb_lt in L. rewrite L.
    erewrite (bind_ok (bind _ _));
      [|erewrite bind_ok by exact E2; reflexivity].
    unfold ret. split; [|split].
    + intros Hlt. apply Nat.ltb_lt in Hlt. rewrite Hlt.
      destruct backup; [apply Nat.ltb_lt in Hlt; cbn in Hlt; lia|reflexivity].
    + intros Hle Hne. apply Nat.ltb_ge in Hle. rewrite Hle.
      destruct text; [congruence|reflexivity].
    + intros -> ->. reflexivity.
Qed.

(** ** Failing PDF readers and unguarded metadata calls *)

Lemma pdfplumber_pages_raise (pages : list pdf_page) (e : string) :
  In (Raise e) pages ->
  forall page_num parts,
    exists e', pdfplumber_pages pages page_num parts = Raise e'.
Proof.
  induction pages as [|page pages IH]; intros Hin page_num parts;
    [contradiction|].
  cbn [pdfplumber_pages]. destruct page as [text|e0]; [|eauto].
  destruct Hin as [Hin|Hin]; [discriminate|]. now apply IH.
Qed.

Lemma pypdf2_pages_raise (pages : list pdf_page) :
  (exists e, In (Raise e) pages) \/ In (Ok None) pages ->
  forall page_num parts,
    exists e', pypdf2_pages pages page_num parts = Raise e'.
Proof.
  induction pages as [|page pages IH]; intros Hin page_num parts.
  - destruct Hin as [[e []]|[]].
  - cbn [pypdf2_pages]. destruct page as [[text|]|e0]; [|eauto|eauto].
    apply IH. destruct Hin as [[e [Hin|Hin]]|[Hin|Hin]];
      try discriminate; eauto.
Qed.

Lemma pdfplumber_fails_empty (f : file) (p : string) (s : state) :
  pdfplumber_fails f ->
  exists e',
    parse_pdf_pdfplumber f p s
    = (Ok "", printed s ["Error parsing PDF with pdfplumber " ++ p ++ ": "
                           ++ e']).
Proof.
  unfold parse_pdf_pdfplumber, try_except, bind, lift.
  intros [[e H]|(pages & e & H & Hin)]; rewrite H.
  - exists e. reflexivity.
  - destruct (pdfplumber_pages_raise pages e Hin 1 []) as [e' E].
    rewrite E. exists e'. reflexivity.
Qed.

Lemma pypdf2_fails_empty (f : file) (p : string) (s : state) :
  pypdf2_fails f ->
  exists e',
    parse_pdf_pypdf2 f p s
    = (Ok "", printed s ["Error parsing PDF with PyPDF2 " ++ p ++ ": "
                           ++ e']).
Proof.
  unfold parse_pdf_pypdf2, try_except, bind, lift.
  intros [[e H]|(pages & H & Hin)]; rewrite H.
  - exists e. reflexivity.
  - destruct (pypdf2_pages_raise pages Hin 0 []) as [e' E].
    rewrite E. exists e'. reflexivity.
Qed.

Lemma parse_pdf_primary_empty (f : file) (p : string) (s s1 s2 : state)
    (backup : string) :
  parse_pdf_pdfplumber f p s = (Ok "", s1) ->
  parse_pdf_pypdf2 f p s1 = (Ok backup, s2) ->
  parse_pdf f p s = (Ok (if truthy backup then backup else NO_TEXT_PDF), s2).
Proof.
  intros E1 E2. unfold parse_pdf.
  erewrite bind_ok by exact E1.
  change (String.length "" <? 50)%nat with true. cbv iota.
  erewrite (bind_ok (bind _ _));
    [|erewrite bind_ok by exact E2; reflexivity].
  unfold ret. destruct backup; reflexivity.
Qed.

Lemma parse_pdf_backup_empty (f : file) (p : string) (s s1 : state)
    (text : string) :
  parse_pdf_pdfplumber f p s = (Ok text, s1) ->
  (forall s', fst (parse_pdf_pypdf2 f p s') = Ok "") ->
  fst (parse_pdf f p s) = Ok (if truthy text then text else NO_TEXT_PDF).
Proof.
  intros E1 E2. unfold parse_pdf.
  erewrite bind_ok by exact E1.
  destruct (String.length text <? 50)%nat.
  - specialize (E2 s1).
    destruct (parse_pdf_pypdf2 f p s1) as [r s2] eqn:E.
    cbn [fst] in E2. subst r.
    erewrite (bind_ok (bind _ _));
      [|erewrite bind_ok by exact E; reflexivity].
    change (String.length text <? String.length "")%nat with false.
    reflexivity.
  - reflexivity.
Qed.

Lemma process_file_os_unsupported (os : os_errors) (f : file) (p ap : string)
    (s : state) :
  str_in (ext_of p) (SUPPORTED_documents ++ SUPPORTED_spreadsheets) = false ->
  _process_file_os os f p ap s = (Ok None, s).
Proof.
  intros H. unfold _process_file_os. cbv zeta.
  change (lower (snd (splitext p))) with (ext_of p). rewrite H. reflexivity.
Qed.

Lemma process_file_os_readable (os : os_errors) (f : file) (p ap : string)
    (s : state) :
  os_readable os f = true ->
  _process_file_os os f p ap s = _process_file f p ap s.
Proof.
  unfold os_readable, _process_file_os, _process_file, get_file_size_os,
    get_file_dates_os, get_file_hash_os, raise_if.
  destruct (getsize_raises os f); [discriminate|].
  destruct (stat_raises os f); [discriminate|].
  destruct (open_raises os f); [discriminate|].
  intros _. reflexivity.
Qed.

Lemma process_file_os_raises (os : os_errors) (f : file) (p ap : string)
    (s : state) :
  str_in (ext_of p) (SUPPORTED_documents ++ SUPPORTED_spreadsheets) = true ->
  os_readable os f = false ->
  exists e,
    _process_file_os os f p ap s
    = (Raise e, printed s ["  Processing: " ++ basename p]).
Proof.
  intros S. unfold os_readable, _process_file_os. cbv zeta.
  change (lower (snd (splitext p))) with (ext_of p). rewrite S.
  unfold get_file_size_os, get_file_dates_os, get_file_hash_os, raise_if.
  destruct (getsize_raises os f) as [e|]; [intros _; exists e; reflexivity|].
  destruct (stat_raises os f) as [e|]; [intros _; exists e; reflexivity|].
  destruct (open_raises os f) as [e|]; [intros _; exists e; reflexivity|].
  discriminate.
Qed.

(** ** Reader failures *)

(** C6 (amended). No reader exception leaves [parse_document], and a
    supported file whose size, dates and hash can be read (the three
    metadata calls are outside every [try]) always gets its record, whose
    content is what [parse_document] returned.  When the docx, xlsx or xls
    reader raises [e], that content is "[Error parsing DOCX|XLSX|XLS: e]".
    For a PDF a failing reader, whether it fails on opening or on a page,
    counts as an empty result: if the primary reader fails, the content is
    the secondary reader's text when there is some and the sentinel when
    there is none; if the secondary reader fails, the content is the primary
    reader's text when there is some and the sentinel when there is none;
    if both fail it is the sentinel. *)
Theorem reader_exceptions_are_contained (f : file) (p ap : string) (s : state) :
  (forall file_ext, exists c out,
      parse_document f p file_ext s = (Ok c, printed s out)) /\
  (str_in (ext_of p) (SUPPORTED_documents ++ SUPPORTED_spreadsheets) = true ->
   exists d c out out',
     parse_document f p (ext_of p)
       (printed s ["  Processing: " ++ basename p]) = (Ok c, printed s out) /\
     _process_file f p ap s = (Ok (Some d), printed s out') /\
     content d = c) /\
  (forall e, docx_Document f = Raise e ->
     fst (parse_document f p ".docx" s) = Ok ("[Error parsing DOCX: " ++ e ++ "]") /\
     fst (parse_document f p ".doc" s) = Ok ("[Error parsing DOCX: " ++ e ++ "]")) /\
  (forall e, openpyxl_load_workbook f = Raise e ->
     fst (parse_document f p ".xlsx" s) = Ok ("[Error parsing XLSX: " ++ e ++ "]")) /\
  (forall e, xlrd_open_workbook f = Raise e ->
     fst (parse_document f p ".xls" s) = Ok ("[Error parsing XLS: " ++ e ++ "]")) /\
  (forall e backup s1,
     pdfplumber_open f = Raise e ->
     parse_pdf_pypdf2 f p
       (printed s ["Error parsing PDF with pdfplumber " ++ p ++ ": " ++ e])
     = (Ok backup, s1) ->
     fst (parse_document f p ".pdf" s)
     = Ok (if truthy backup then backup else NO_TEXT_PDF)) /\
  (forall e e', pdfplumber_open f = Raise e -> PyPDF2_PdfReader f = Raise e' ->
     fst (parse_document f p ".pdf" s) = Ok NO_TEXT_PDF) /\
  (forall os,
     os_readable os f = true ->
     str_in (ext_of p) (SUPPORTED_documents ++ SUPPORTED_spreadsheets) = true ->
     exists d c out out',
       parse_document f p (ext_of p)
         (printed s ["  Processing: " ++ basename p]) = (Ok c, printed s out) /\
       _process_file_os os f p ap s = (Ok (Some d), printed s out') /\
       content d = c) /\
  (pdfplumber_fails f -> fst (parse_pdf_pdfplumber f p s) = Ok "") /\
  (forall s1, pypdf2_fails f -> fst (parse_pdf_pypdf2 f p s1) = Ok "") /\
  (forall backup s2,
     pdfplumber_fails f ->
     parse_pdf_pypdf2 f p (snd (parse_pdf_pdfplumber f p s)) = (Ok backup, s2) ->
     fst (parse_document f p ".pdf" s)
     = Ok (if truthy backup then backup else NO_TEXT_PDF)) /\
  (forall text s1,
     pypdf2_fails f ->
     parse_pdf_pdfplumber f p s = (Ok text, s1) ->
     fst (parse_document f p ".pdf" s)
     = Ok (if truthy text then text else NO_TEXT_PDF)) /\
  (pdfplumber_fails f -> pypdf2_fails f ->
   fst (parse_document f p ".pdf" s) = Ok NO_TEXT_PDF).
Proof.
  assert (Hrec :
    str_in (ext_of p) (SUPPORTED_documents ++ SUPPORTED_spreadsheets) = true ->
    exists d c out out',
      parse_document f p (ext_of p)
        (printed s ["  Processing: " ++ basename p]) = (Ok c, printed s out) /\
      _process_file f p ap s = (Ok (Some d), printed s out') /\
      content d = c).
  { intros S.
    destruct (process_file_supported f p ap s S) as [out' E].
    destruct (parse_document_content f p (ext_of p)
                (printed s ["  Processing: " ++ basename p])) as [out E'].
    rewrite printed_printed in E'.
    eexists _, _, _, out'. split; [exact E'|]. split; [exact E|]. reflexivity. }
  assert (Hp1 : pdfplumber_fails f ->
                forall backup s2,
                  parse_pdf_pypdf2 f p (snd (parse_pdf_pdfplumber f p s))
                  = (Ok backup, s2) ->
                  fst (parse_document f p ".pdf" s)
                  = Ok (if truthy backup then backup else NO_TEXT_PDF)).
  { intros F backup s2 E2.
    destruct (pdfplumber_fails_empty f p s F) as [e' E1].
    rewrite E1 in E2. cbn [snd] in E2.
    change (parse_document f p ".pdf") with (parse_pdf f p).
    now rewrite (parse_pdf_primary_empty f p s _ s2 backup E1 E2). }
  assert (Hp2 : pypdf2_fails f ->
                forall s', fst (parse_pdf_pypdf2 f p s') = Ok "").
  { intros F s'. destruct (pypdf2_fails_empty f p s' F) as [e' E].
    now rewrite E. }
  repeat apply conj.
  - intros file_ext.
    destruct (parse_document_pure f file_ext) as [c H].
    exists c. apply H.
  - exact Hrec.
  - intros e H.
    unfold parse_document, parsers. cbn [dict_get].
    change (String.eqb ".docx" ".docx") with true.
    change (String.eqb ".docx" ".doc") with false.
    change (String.eqb ".doc" ".doc") with true. cbv iota.
    unfold parse_docx, try_except, bind, lift. rewrite H. auto.
  - intros e H.
    change (parse_document f p ".xlsx") with (parse_xlsx f p).
    unfold parse_xlsx, try_except, bind, lift. now rewrite H.
  - intros e H.
    change (parse_document f p ".xls") with (parse_xls f p).
    unfold parse_xls, try_except, bind, lift. now rewrite H.
  - intros e backup s1 H E.
    change (parse_document f p ".pdf") with (parse_pdf f p).
    assert (E1 : parse_pdf_pdfplumber f p s
                 = (Ok "", printed s ["Error parsing PDF with pdfplumber "
                                       ++ p ++ ": " ++ e])).
    { unfold parse_pdf_pdfplumber, try_except, bind, lift. now rewrite H. }
    now rewrite (parse_pdf_primary_empty f p s _ s1 backup E1 E).
  - intros e e' H H'.
    change (parse_document f p ".pdf") with (parse_pdf f p).
    unfold parse_pdf, parse_pdf_pdfplumber, parse_pdf_pypdf2, try_except,
      bind, lift.
    rewrite H, H'. reflexivity.
  - intros os R S. destruct (Hrec S) as (d & c & out & out' & E1 & E2 & E3).
    exists d, c, out, out'. split; [exact E1|]. split; [|exact E3].
    now rewrite (process_file_os_readable os f p ap s R).
  - intros F. destruct (pdfplumber_fails_empty f p s F) as [e' E].
    now rewrite E.
  - intros s1 F. now apply Hp2.
  - intros backup s2 F E2. exact (Hp1 F backup s2 E2).
  - intros text s1 F E1.
    change (parse_document f p ".pdf") with (parse_pdf f p).
    apply (parse_pdf_backup_empty f p s s1 text E1). now apply Hp2.
  - intros F1 F2.
    pose proof (Hp2 F2 (snd (parse_pdf_pdfplumber f p s))) as Hr.
    apply (Hp1 F1 "" (snd (parse_pdf_pypdf2 f p
                              (snd (parse_pdf_pdfplumber f p s))))).
    rewrite <- Hr. apply surjective_pairing.
Qed.

(** ** Repeated crawls *)

(** C9 (amended). A newly constructed crawler has no records.  A crawl over
    an existing storage root returns the crawler's whole sequence: what it
    held before, followed by the records found by this crawl.  Hence of two
    crawls on one new crawler, the second returns the records of the first
    followed by those the second one found. *)
Theorem crawl_appends_to_earlier_records :
  (forall storage output s, documents (__init__ storage output s) = []) /\
  (forall dirs s, exists found s',
      crawl (Some dirs) s = (Ok (documents s ++ found)%list, s') /\
      documents s' = (documents s ++ found)%list /\
      map erase found = expected_records (expected dirs)) /\
  (forall dirs1 dirs2 s,
      documents s = [] ->
      exists found1 found2 s1 s2,
        crawl (Some dirs1) s = (Ok found1, s1) /\
        crawl (Some dirs2) s1 = (Ok (found1 ++ found2)%list, s2) /\
        map erase found1 = expected_records (expected dirs1) /\
        map erase found2 = expected_records (expected dirs2)).
Proof.
  split; [|split].
  - reflexivity.
  - intros dirs s. apply crawl_refines.
  - intros dirs1 dirs2 s Hs.
    destruct (crawl_refines dirs1 s) as (found1 & s1 & E1 & D1 & V1).
    destruct (crawl_refines dirs2 s1) as (found2 & s2 & E2 & D2 & V2).
    rewrite Hs in E1, D1. cbn [app] in E1, D1. rewrite D1 in E2.
    exists found1, found2, s1, s2. auto.
Qed.

(** * Further properties of the crawler *)

(** ** Text normalisation *)

Lemma sub_whitespace_blank (s : string) :
  all_whitespace s = true -> sub_whitespace true s = "".
Proof.
  induction s as [|c rest IH]; [reflexivity|].
  cbn [all_whitespace sub_whitespace]. intros H.
  apply andb_prop in H. destruct H as [-> Hr]. auto.
Qed.

(** X1. Whatever the input, the text returned by [clean_text] holds no NUL
    and no whitespace character other than the space; in particular no
    newline, carriage return or tab. *)
Theorem clean_text_is_single_line (text : string) :
  single_line (clean_text text).
Proof. apply clean_text_no_nul_newline_tab. Qed.

(** X2. On text without NUL, [clean_text] returns text in which no two
    spaces are adjacent, which [strip] leaves unchanged, and which
    [clean_text] itself leaves unchanged. *)
Theorem clean_text_normalises_text_without_nul (text : string) :
  occurs "000"%char text = false ->
  collapsed false (clean_text text) = true /\
  strip (clean_text text) = clean_text text /\
  clean_text (clean_text text) = clean_text text.
Proof. apply clean_text_without_nul. Qed.

(** X3. Text made of whitespace only (or empty) is cleaned to the empty
    string. *)
Theorem clean_text_of_blank_text (text : string) :
  all_whitespace text = true -> clean_text text = "".
Proof.
  destruct text as [|c rest]; [reflexivity|].
  cbn [all_whitespace]. intros H.
  apply andb_prop in H. destruct H as [Hc Hr].
  unfold clean_text, re_sub_whitespace. cbn [truthy negb sub_whitespace].
  rewrite Hc, (sub_whitespace_blank rest Hr). reflexivity.
Qed.

(** ** The extension tables *)

Lemma extension_tables_agree_aux (file_ext : string) :
  match dict_get parsers file_ext with Some _ => true | None => false end
  = str_in file_ext (SUPPORTED_documents ++ SUPPORTED_spreadsheets) /\
  match dict_get extractors file_ext with Some _ => true | None => false end
  = str_in file_ext SUPPORTED_archives /\
  str_in file_ext SUPPORTED_archives
  && str_in file_ext (SUPPORTED_documents ++ SUPPORTED_spreadsheets) = false.
Proof.
  unfold parsers, extractors, str_in, SUPPORTED_documents,
    SUPPORTED_spreadsheets, SUPPORTED_archives.
  cbn -[String.eqb].
  rewrite !(String.eqb_sym file_ext).
  destruct (String.eqb_spec ".docx" file_ext) as [<-|_]; [auto|].
  destruct (String.eqb_spec ".doc" file_ext) as [<-|_]; [auto|].
  destruct (String.eqb_spec ".pdf" file_ext) as [<-|_]; [auto|].
  destruct (String.eqb_spec ".xlsx" file_ext) as [<-|_]; [auto|].
  destruct (String.eqb_spec ".xls" file_ext) as [<-|_]; [auto|].
  destruct (String.eqb ".zip" file_ext); [auto|].
  destruct (String.eqb ".7z" file_ext); [auto|].
  destruct (String.eqb ".rar" file_ext); auto.
Qed.

(** X4. The dispatch table of [parse_document] has a parser exactly for the
    extensions that [_process_file] lets through, the table of
    [extract_archive] has an extractor exactly for the archive extensions,
    and no extension is both an archive and a document or spreadsheet. *)
Theorem extension_tables_agree (file_ext : string) :
  match dict_get parsers file_ext with Some _ => true | None => false end
  = str_in file_ext (SUPPORTED_documents ++ SUPPORTED_spreadsheets) /\
  match dict_get extractors file_ext with Some _ => true | None => false end
  = str_in file_ext SUPPORTED_archives /\
  str_in file_ext SUPPORTED_archives
  && str_in file_ext (SUPPORTED_documents ++ SUPPORTED_spreadsheets) = false.
Proof. apply extension_tables_agree_aux. Qed.

(** ** Records *)

(** X5. When [_process_file] produces a record, the record carries the path
    it was given, that path's basename, the archive path it was given, the
    size, creation date and hash of the file, and the id
    [len(self.documents) + 1]; its type is "document" exactly for .docx,
    .doc and .pdf and "spreadsheet" exactly for .xlsx and .xls; and
    [self.documents] itself is left as it was. *)
Theorem process_file_record (f : file) (p ap : string) (s s' : state)
    (d : document) :
  _process_file f p ap s = (Ok (Some d), s') ->
  id d = List.length (documents s) + 1 /\
  file_path d = p /\ file_name d = basename p /\ archive_path d = ap /\
  file_size d = st_size f /\ created_date d = created_iso f /\
  content_hash d = md5_hexdigest f /\
  content d = content_of f (ext_of p) /\
  (file_type d = document_t <-> str_in (ext_of p) SUPPORTED_documents = true) /\
  (file_type d = spreadsheet_t <->
   str_in (ext_of p) SUPPORTED_spreadsheets = true) /\
  documents s' = documents s.
Proof.
  intros H.
  assert (Happ : str_in (ext_of p) (SUPPORTED_documents ++ SUPPORTED_spreadsheets)
                 = str_in (ext_of p) SUPPORTED_documents
                   || str_in (ext_of p) SUPPORTED_spreadsheets).
  { unfold str_in. apply existsb_app. }
  assert (Hx : str_in (ext_of p) SUPPORTED_documents
               && str_in (ext_of p) SUPPORTED_spreadsheets = false).
  { unfold str_in, SUPPORTED_documents, SUPPORTED_spreadsheets.
    cbn -[String.eqb]. rewrite !(String.eqb_sym (ext_of p)).
    destruct (String.eqb_spec ".docx" (ext_of p)) as [<-|_]; [auto|].
    destruct (String.eqb_spec ".doc" (ext_of p)) as [<-|_]; [auto|].
    destruct (String.eqb_spec ".pdf" (ext_of p)) as [<-|_]; auto. }
  destruct (str_in (ext_of p) (SUPPORTED_documents ++ SUPPORTED_spreadsheets))
    eqn:S.
  - destruct (process_file_supported f p ap s S) as [out E].
    rewrite E in H. clear E. rewrite Happ in S.
    destruct (str_in (ext_of p) SUPPORTED_documents) eqn:D;
      destruct (str_in (ext_of p) SUPPORTED_spreadsheets) eqn:Sh;
      try discriminate; injection H as Hd Hs; subst d s';
      repeat split; intros; try reflexivity; discriminate.
  - rewrite (process_file_unsupported f p ap s S) in H. discriminate.
Qed.

(** ** Extracted content *)

Lemma occurs_app (c : ascii) (a b : string) :
  occurs c (a ++ b) = occurs c a || occurs c b.
Proof.
  induction a as [|x rest IH]; [reflexivity|].
  cbn [append occurs]. now rewrite IH, orb_assoc.
Qed.

Lemma parse_pdf_pdfplumber_value (f : file) (p : string) (s : state) :
  exists t s1, parse_pdf_pdfplumber f p s = (Ok (clean_text t), s1).
Proof.
  unfold parse_pdf_pdfplumber, try_except, bind, lift, ret.
  destruct (pdfplumber_open f) as [pages|e].
  - destruct (pdfplumber_pages pages 1 []) as [parts|e].
    + eexists _, _. reflexivity.
    + exists "". eexists. reflexivity.
  - exists "". eexists. reflexivity.
Qed.

Lemma parse_pdf_pypdf2_value (f : file) (p : string) (s : state) :
  exists t s1, parse_pdf_pypdf2 f p s = (Ok (clean_text t), s1).
Proof.
  unfold parse_pdf_pypdf2, try_except, bind, lift, ret.
  destruct (PyPDF2_PdfReader f) as [pages|e].
  - destruct (pypdf2_pages pages 0 []) as [parts|e].
    + eexists _, _. reflexivity.
    + exists "". eexists. reflexivity.
  - exists "". eexists. reflexivity.
Qed.

Lemma single_line_sentinel : single_line NO_TEXT_PDF.
Proof.
  split; [reflexivity|].
  intros w W Hw. now apply (collapsed_whitespace NO_TEXT_PDF w W Hw false).
Qed.

Lemma parse_pdf_text_never_empty_aux (f : file) (p : string) (s : state) :
  exists c s',
    parse_pdf f p s = (Ok c, s') /\ c <> "" /\ single_line c /\
    documents s' = documents s.
Proof.
  destruct (parse_pdf_pdfplumber_value f p s) as (t1 & s1 & E1).
  destruct (parse_pdf_pdfplumber_pure f) as [c1 H1].
  destruct (H1 p s) as [o1 E1']. rewrite E1 in E1'.
  injection E1' as Hc1 Hs1. subst s1. clear H1 Hc1 c1.
  destruct (parse_pdf_pypdf2_value f p (printed s o1)) as (t2 & s2 & E2).
  destruct (parse_pdf_pypdf2_pure f) as [c2 H2].
  destruct (H2 p (printed s o1)) as [o2 E2']. rewrite E2 in E2'.
  injection E2' as Hc2 Hs2. subst s2. clear H2 Hc2 c2.
  pose proof (clean_text_no_nul_newline_tab t1) as L1.
  pose proof (clean_text_no_nul_newline_tab t2) as L2.
  fold (single_line (clean_text t1)) in L1.
  fold (single_line (clean_text t2)) in L2.
  unfold parse_pdf. erewrite bind_ok by exact E1.
  destruct (String.length (clean_text t1) <? 50)%nat.
  - erewrite (bind_ok (bind _ _));
      [|erewrite bind_ok by exact E2; reflexivity].
    unfold ret.
    destruct (String.length (clean_text t1) <? String.length (clean_text t2))%nat.
    + destruct (clean_text t2) as [|x r]; eexists _, _;
        (split; [reflexivity|]); cbn [truthy];
        (split; [discriminate|]);
        (split; [first [exact L2|apply single_line_sentinel]|reflexivity]).
    + destruct (clean_text t1) as [|x r]; eexists _, _;
        (split; [reflexivity|]); cbn [truthy];
        (split; [discriminate|]);
        (split; [first [exact L1|apply single_line_sentinel]|reflexivity]).
  - unfold bind at 1, ret.
    destruct (clean_text t1) as [|x r]; eexists _, _;
      (split; [reflexivity|]); cbn [truthy];
      (split; [discriminate|]);
      (split; [first [exact L1|apply single_line_sentinel]|reflexivity]).
Qed.

(** X6. [parse_pdf] returns for every file, whatever the two readers do, and
    its text is never empty: it is the normalised text of one of the readers
    or the sentinel, hence free of NUL, newlines and tabs. *)
Theorem parse_pdf_text_never_empty (f : file) (p : string) (s : state) :
  exists c s',
    parse_pdf f p s = (Ok c, s') /\ c <> "" /\ single_line c /\
    documents s' = documents s.
Proof. apply parse_pdf_text_never_empty_aux. Qed.


(** X8. The placeholder written when a docx, xlsx or xls reader raises is
    not normalised: every character of the exception message, a newline
    included, appears in the content. *)
Theorem error_placeholder_keeps_message (f : file) (p : string) (s : state)
    (e : string) (w : ascii) :
  occurs w e = true ->
  (docx_Document f = Raise e ->
   exists c s', parse_document f p ".docx" s = (Ok c, s') /\
                occurs w c = true) /\
  (openpyxl_load_workbook f = Raise e ->
   exists c s', parse_document f p ".xlsx" s = (Ok c, s') /\
                occurs w c = true) /\
  (xlrd_open_workbook f = Raise e ->
   exists c s', parse_document f p ".xls" s = (Ok c, s') /\
                occurs w c = true).
Proof.
  intros Hw. split; [|split]; intros H.
  - change (parse_document f p ".docx") with (parse_docx f p).
    unfold parse_docx, try_except, bind, lift. rewrite H.
    eexists _, _. split; [reflexivity|].
    rewrite !occurs_app, Hw. now rewrite orb_true_r.
  - change (parse_document f p ".xlsx") with (parse_xlsx f p).
    unfold parse_xlsx, try_except, bind, lift. rewrite H.
    eexists _, _. split; [reflexivity|].
    rewrite !occurs_app, Hw. now rewrite orb_true_r.
  - change (parse_document f p ".xls") with (parse_xls f p).
    unfold parse_xls, try_except, bind, lift. rewrite H.
    eexists _, _. split; [reflexivity|].
    rewrite !occurs_app, Hw. now rewrite orb_true_r.
Qed.

(** ** Ids over a whole crawl *)

Lemma expected_flat (dirs : list (string * list file)) :
  expected dirs = flat_map expected_file (flat_map snd dirs).
Proof.
  unfold expected. induction dirs as [|[root files] dirs IH]; [reflexivity|].
  cbn [flat_map snd]. now rewrite flat_map_app, IH.
Qed.

Lemma expected_ids_app (l1 l2 : list file) :
  forall n,
    expected_ids n (l1 ++ l2)
    = (expected_ids n l1
       ++ expected_ids (n + List.length (flat_map expected_file l1)) l2)%list.
Proof.
  induction l1 as [|f l1 IH]; intros n.
  - cbn. now rewrite Nat.add_0_r.
  - cbn [app expected_ids flat_map]. rewrite IH, List.length_app.
    now rewrite <- app_assoc, Nat.add_assoc.
Qed.

Lemma crawl_files_ids_length (root : string) (files : list file) (s : state) :
  exists rs s',
    for_each files (fun f => crawl_file root f) s = (Ok tt, s') /\
    documents s' = (documents s ++ rs)%list /\
    map id rs = expected_ids (List.length (documents s)) files /\
    List.length rs = List.length (flat_map expected_file files).
Proof.
  destruct (crawl_files_refine root files s) as (rs & s' & E & D & V).
  destruct (crawl_files_ids root files s) as (rs' & s'' & E' & D' & I').
  rewrite E in E'. injection E' as <-. rewrite D in D'.
  apply app_inv_head in D'. subst rs'.
  exists rs, s'. repeat split; auto.
  apply (f_equal (@List.length document)) in V.
  unfold expected_records in V. now rewrite !List.length_map in V.
Qed.

Lemma crawl_walk_ids (dirs : list (string * list file)) (s : state) :
  exists rs s',
    for_each dirs (fun '(root, files) =>
      for_each files (fun f => crawl_file root f)) s = (Ok tt, s') /\
    documents s' = (documents s ++ rs)%list /\
    map id rs = expected_ids (List.length (documents s)) (flat_map snd dirs) /\
    List.length rs
    = List.length (flat_map expected_file (flat_map snd dirs)).
Proof.
  revert s. induction dirs as [|[root files] dirs IH]; intros s.
  - exists [], s. cbn. now rewrite app_nil_r.
  - destruct (crawl_files_ids_length root files s)
      as (rs1 & s1 & E1 & D1 & I1 & L1).
    destruct (IH s1) as (rs2 & s2 & E2 & D2 & I2 & L2).
    exists (rs1 ++ rs2)%list, s2. cbn [for_each flat_map snd].
    erewrite bind_ok by exact E1. split; [exact E2|]. split; [|split].
    + now rewrite D2, D1, app_assoc.
    + rewrite map_app, expected_ids_app, I1, I2, D1, List.length_app, L1.
      reflexivity.
    + rewrite flat_map_app, !List.length_app. congruence.
Qed.

Lemma crawl_ids_aux (dirs : list (string * list file)) (s : state) :
  exists rs s',
    crawl (Some dirs) s = (Ok (documents s ++ rs)%list, s') /\
    map id rs = expected_ids (List.length (documents s)) (flat_map snd dirs) /\
    List.length rs
    = List.length (flat_map expected_file (flat_map snd dirs)).
Proof.
  unfold crawl.
  do 5 (erewrite bind_ok by reflexivity).
  match goal with
  | |- context [bind (for_each dirs ?body) _ ?st] =>
      destruct (crawl_walk_ids dirs st) as (rs & s1 & E1 & D1 & I1 & L1)
  end.
  erewrite bind_ok by exact E1.
  do 2 (erewrite bind_ok by reflexivity).
  exists rs. eexists.
  unfold bind, get_documents, print, ret. cbn in D1, I1 |- *.
  rewrite D1. auto.
Qed.

(** X10. How [crawl] numbers records: a record's id is one more than the
    number of records the crawler held when the walk reached the top-level
    file the record comes from, so all records found inside one top-level
    archive share one id and the next top-level file continues after the
    whole group. *)
Theorem crawl_numbers_records_per_top_level_file
    (dirs : list (string * list file)) (s : state) :
  exists rs s',
    crawl (Some dirs) s = (Ok (documents s ++ rs)%list, s') /\
    map id rs = expected_ids (List.length (documents s)) (flat_map snd dirs).
Proof.
  destruct (crawl_ids_aux dirs s) as (rs & s' & E & I & _).
  exists rs, s'. auto.
Qed.

(** X11. On a new crawler, when every file of the walk contributes at most
    one record (no archive holds two supported files), the ids of the
    returned records are 1, 2, 3, ... in order. *)
Theorem crawl_ids_sequential_without_multi_record_archives
    (dirs : list (string * list file)) (s : state) :
  documents s = [] ->
  Forall (fun f => List.length (expected_file f) <= 1) (flat_map snd dirs) ->
  exists rs s',
    crawl (Some dirs) s = (Ok rs, s') /\
    map id rs = seq 1 (List.length rs).
Proof.
  intros Hs Hf.
  destruct (crawl_ids_aux dirs s) as (rs & s' & E & I & L).
  rewrite Hs in E, I. exists rs, s'. split; [exact E|].
  now rewrite I, (expected_ids_sequential _ Hf), L.
Qed.

(** ** Archive readers *)

(** X12. When the archive reader selected by the extension is available and
    does not raise, [extract_archive] returns the members' paths inside the
    extraction directory, in member order, prints nothing and changes
    nothing. *)
Theorem extract_archive_lists_member_paths (a : file) (d dir : string)
    (s : state) :
  extracts a = true ->
  extract_archive a (path_join d (name a)) dir s
  = (Ok (map (fun m => path_join dir (name m)) (members a)), s).
Proof.
  unfold extracts, extract_archive. cbv zeta.
  change (lower (snd (splitext (path_join d (name a)))))
    with (ext_of (path_join d (name a))).
  rewrite ext_of_path_join.
  destruct (extract_raises a) as [e|] eqn:R; [discriminate|].
  generalize (ext_of (name a)) as ext. intros ext.
  unfold extractors. cbn -[String.eqb].
  rewrite !(String.eqb_sym ext).
  destruct (String.eqb_spec ".zip" ext) as [<-|_].
  - intros _. unfold extract_zip, extract_with, try_except. now rewrite R.
  - destruct (String.eqb_spec ".7z" ext) as [<-|_].
    + cbn [orb andb]. unfold extract_7z, extract_with, try_except.
      destruct SEVENZIP_AVAILABLE; [|discriminate].
      intros _. cbn [negb]. now rewrite R.
    + destruct (String.eqb_spec ".rar" ext) as [<-|_]; [|discriminate].
      cbn [orb andb]. unfold extract_rar, extract_with, try_except.
      destruct RARFILE_AVAILABLE; [|discriminate].
      intros _. cbn [negb]. now rewrite R.
Qed.

(** X13. The ways [extract_archive] fails, none of which raises: a reader
    that raises [e] prints one "Error extracting ..." line naming the format,
    the path and [e]; a 7z or rar archive whose reader could not be imported
    yields the empty list without printing anything; a path whose extension
    is not an archive extension prints "Unsupported archive format".  In
    every case the list is empty. *)
Theorem extract_archive_failures (a : file) (d dir : string) (s : state) :
  (forall e,
      ext_of (name a) = ".zip" -> extract_raises a = Some e ->
      extract_archive a (path_join d (name a)) dir s
      = (Ok [], printed s ["Error extracting ZIP " ++ path_join d (name a)
                             ++ ": " ++ e])) /\
  (forall e,
      ext_of (name a) = ".7z" -> SEVENZIP_AVAILABLE = true ->
      extract_raises a = Some e ->
      extract_archive a (path_join d (name a)) dir s
      = (Ok [], printed s ["Error extracting 7z " ++ path_join d (name a)
                             ++ ": " ++ e])) /\
  (forall e,
      ext_of (name a) = ".rar" -> RARFILE_AVAILABLE = true ->
      extract_raises a = Some e ->
      extract_archive a (path_join d (name a)) dir s
      = (Ok [], printed s ["Error extracting RAR " ++ path_join d (name a)
                             ++ ": " ++ e])) /\
  (ext_of (name a) = ".7z" -> SEVENZIP_AVAILABLE = false ->
   extract_archive a (path_join d (name a)) dir s = (Ok [], s)) /\
  (ext_of (name a) = ".rar" -> RARFILE_AVAILABLE = false ->
   extract_archive a (path_join d (name a)) dir s = (Ok [], s)) /\
  (is_archive a = false ->
   extract_archive a (path_join d (name a)) dir s
   = (Ok [], printed s ["Unsupported archive format: " ++ ext_of (name a)])).
Proof.
  unfold extract_archive. cbv zeta.
  change (lower (snd (splitext (path_join d (name a)))))
    with (ext_of (path_join d (name a))).
  rewrite ext_of_path_join.
  repeat split.
  - intros e -> R. cbn. unfold extract_zip, extract_with, try_except.
    rewrite R. reflexivity.
  - intros e -> A R. cbn. unfold extract_7z, extract_with, try_except.
    rewrite A, R. reflexivity.
  - intros e -> A R. cbn. unfold extract_rar, extract_with, try_except.
    rewrite A, R. reflexivity.
  - intros -> A. cbn. unfold extract_7z. now rewrite A.
  - intros -> A. cbn. unfold extract_rar. now rewrite A.
  - unfold is_archive. intros H.
    pose proof (proj1 (proj2 (extension_tables_agree_aux (ext_of (name a)))))
      as T.
    rewrite H in T. destruct (dict_get extractors (ext_of (name a)));
      [discriminate|reflexivity].
Qed.

(** ** Scratch directories *)

Lemma scratch_printed (s : state) (out : list string) :
  scratch s 0 (printed s out).
Proof.
  unfold scratch. cbn. now rewrite Nat.add_0_r, app_nil_r.
Qed.

Lemma scratch_trans (s s1 s2 : state) (n m : nat) :
  scratch s n s1 -> scratch s1 m s2 -> scratch s (n + m) s2.
Proof.
  unfold scratch. intros [C1 T1] [C2 T2]. split; [lia|].
  rewrite T2, T1, C1, seq_app, map_app, <- app_assoc. reflexivity.
Qed.

Lemma process_file_state (f : file) (p ap : string) (s : state) :
  exists r out, _process_file f p ap s = (Ok r, printed s out).
Proof.
  destruct (str_in (ext_of p) (SUPPORTED_documents ++ SUPPORTED_spreadsheets))
    eqn:S.
  - destruct (process_file_supported f p ap s S) as [out E]. eauto.
  - rewrite (process_file_unsupported f p ap s S).
    exists None, []. now rewrite printed_nil.
Qed.

Lemma invocations_unfold (a : file) :
  invocations a
  = S (if extracts a
       then list_sum (map (fun m => if is_archive m then invocations m else 0)
                        (members a))
       else 0).
Proof. destruct a; reflexivity. Qed.

Lemma process_members_scratch (full dir : string) (nodes : list file) :
  Forall (fun a => forall d parent s, exists rs s',
            _process_archive a (path_join d (name a)) parent s = (Ok rs, s') /\
            scratch s (invocations a) s') nodes ->
  forall results s, exists rs s',
    process_members full nodes (map (fun m => path_join dir (name m)) nodes)
      results s = (Ok rs, s') /\
    scratch s (list_sum (map (fun m => if is_archive m then invocations m
                                       else 0) nodes)) s'.
Proof.
  induction 1 as [|m nodes Hm _ IH]; intros results s.
  - exists results, s. split; [reflexivity|].
    rewrite <- (printed_nil s) at 2. apply scratch_printed.
  - cbn [map list_sum]. rewrite process_members_cons, ext_of_path_join.
    fold (is_archive m). destruct (is_archive m).
    + destruct (Hm dir full s) as (rs1 & s1 & E1 & S1).
      erewrite bind_ok by exact E1.
      destruct (IH (results ++ rs1)%list s1) as (rs2 & s2 & E2 & S2).
      exists rs2, s2. split; [exact E2|]. now apply (scratch_trans s s1 s2).
    + destruct (process_file_state m (path_join dir (name m)) full s)
        as (r & out & E1).
      erewrite bind_ok by exact E1.
      destruct r as [r|].
      * destruct (IH (results ++ [r])%list (printed s out))
          as (rs2 & s2 & E2 & S2).
        exists rs2, s2. split; [exact E2|].
        apply (scratch_trans s (printed s out) s2 0); auto.
        apply scratch_printed.
      * destruct (IH results (printed s out)) as (rs2 & s2 & E2 & S2).
        exists rs2, s2. split; [exact E2|].
        apply (scratch_trans s (printed s out) s2 0); auto.
        apply scratch_printed.
Qed.

Lemma process_archive_scratch (a : file) :
  forall d parent s, exists rs s',
    _process_archive a (path_join d (name a)) parent s = (Ok rs, s') /\
    scratch s (invocations a) s'.
Proof.
  induction a as [a IH] using file_nested_ind.
  intros d parent s.
  rewrite process_archive_unfold. cbv zeta.
  erewrite bind_ok by apply print_printed.
  erewrite bind_ok by reflexivity.
  erewrite bind_ok by reflexivity.
  match goal with
  | |- context [bind (extract_archive a _ ?dir) _ ?st] =>
      destruct (extract_archive_spec a d dir st) as [out E];
      erewrite bind_ok by exact E;
      assert (S0 : scratch s 1 (printed st out))
  end.
  { unfold scratch. cbn. split; [lia|reflexivity]. }
  rewrite invocations_unfold. destruct (extracts a).
  - match goal with
    | |- context [process_members ?full (members a) (map _ (members a)) []
                    ?st] =>
        destruct (process_members_scratch full
                    (mkdtemp_name (mkdtemp_calls s)) (members a) IH [] st)
          as (rs & s' & E' & S')
    end.
    exists rs, s'. split; [exact E'|].
    apply (scratch_trans _ _ _ 1 _ S0 S').
  - rewrite process_members_no_paths. eexists _, _. split; [reflexivity|].
    exact S0.
Qed.

(** X14. Every run of [_process_archive], for the archive itself and for
    each archive extracted from it at any depth, creates exactly one scratch
    directory with [mkdtemp] and registers it in [self.temp_dirs]; none is
    released before [_process_archive] returns, so after the call the
    registry holds the earlier directories followed by the new ones in
    creation order. *)
Theorem process_archive_registers_scratch_dirs (a : file) (d parent : string)
    (s : state) :
  exists rs s',
    _process_archive a (path_join d (name a)) parent s = (Ok rs, s') /\
    mkdtemp_calls s' = mkdtemp_calls s + invocations a /\
    temp_dirs s'
    = (temp_dirs s
       ++ map mkdtemp_name (seq (mkdtemp_calls s) (invocations a)))%list.
Proof. apply process_archive_scratch. Qed.

Lemma crawl_file_scratch (root : string) (f : file) (s : state) :
  exists s',
    crawl_file root f s = (Ok tt, s') /\
    scratch s (if is_archive f then invocations f else 0) s'.
Proof.
  unfold crawl_file. cbv zeta.
  change (lower (snd (splitext (path_join root (name f)))))
    with (ext_of (path_join root (name f))).
  rewrite ext_of_path_join. fold (is_archive f).
  erewrite bind_ok by apply print_printed.
  destruct (is_archive f).
  - destruct (process_archive_scratch f root ""
                (printed s [LF ++ "Found: " ++ name f]))
      as (rs & s1 & E1 & [C1 T1]).
    erewrite bind_ok by exact E1. eexists. split; [reflexivity|].
    split; cbn; assumption.
  - destruct (process_file_state f (path_join root (name f)) ""
                (printed s [LF ++ "Found: " ++ name f])) as (r & out & E1).
    erewrite bind_ok by exact E1.
    destruct r as [r|]; eexists; (split; [reflexivity|]);
      unfold scratch; cbn; now rewrite Nat.add_0_r, app_nil_r.
Qed.

Lemma crawl_files_scratch (root : string) (files : list file) (s : state) :
  exists s',
    for_each files (fun f => crawl_file root f) s = (Ok tt, s') /\
    scratch s (list_sum (map (fun f => if is_archive f then invocations f
                                       else 0) files)) s'.
Proof.
  revert s. induction files as [|f files IH]; intros s.
  - exists s. split; [reflexivity|].
    rewrite <- (printed_nil s) at 2. apply scratch_printed.
  - destruct (crawl_file_scratch root f s) as (s1 & E1 & S1).
    destruct (IH s1) as (s2 & E2 & S2).
    exists s2. cbn [for_each map list_sum].
    erewrite bind_ok by exact E1. split; [exact E2|].
    now apply (scratch_trans s s1 s2).
Qed.

Lemma crawl_walk_scratch (dirs : list (string * list file)) (s : state) :
  exists s',
    for_each dirs (fun '(root, files) =>
      for_each files (fun f => crawl_file root f)) s = (Ok tt, s') /\
    scratch s (list_sum (map (fun f => if is_archive f then invocations f
                                       else 0) (flat_map snd dirs))) s'.
Proof.
  revert s. induction dirs as [|[root files] dirs IH]; intros s.
  - exists s. split; [reflexivity|].
    rewrite <- (printed_nil s) at 2. apply scratch_printed.
  - destruct (crawl_files_scratch root files s) as (s1 & E1 & S1).
    destruct (IH s1) as (s2 & E2 & S2).
    exists s2. cbn [for_each flat_map snd].
    erewrite bind_ok by exact E1. split; [exact E2|].
    rewrite map_app, list_sum_app.
    now apply (scratch_trans s s1 s2).
Qed.

(** X15. A crawl over an existing storage root creates one scratch directory
    per run of [_process_archive] and keeps them all registered until the
    walk is over; when [crawl] returns the registry is empty again, whatever
    it held before. *)
Theorem crawl_releases_scratch_dirs_at_the_end
    (dirs : list (string * list file)) (s : state) :
  exists rs s',
    crawl (Some dirs) s = (Ok rs, s') /\
    temp_dirs s' = [] /\
    mkdtemp_calls s'
    = mkdtemp_calls s
      + list_sum (map (fun f => if is_archive f then invocations f else 0)
                    (flat_map snd dirs)).
Proof.
  unfold crawl.
  do 5 (erewrite bind_ok by reflexivity).
  match goal with
  | |- context [bind (for_each dirs ?body) _ ?st] =>
      destruct (crawl_walk_scratch dirs st) as (s1 & E1 & [C1 T1])
  end.
  erewrite bind_ok by exact E1.
  do 2 (erewrite bind_ok by reflexivity).
  eexists _, _. split; [reflexivity|]. cbn in C1 |- *. auto.
Qed.

(** ** Hashing in chunks *)

Lemma hash_chunks_whole (hash_object : Type)
    (update : hash_object -> list Byte.byte -> hash_object) :
  (forall h, update h [] = h) ->
  (forall h a b, update (update h a) b = update h (a ++ b)%list) ->
  forall fuel unread h,
    List.length unread < fuel ->
    hash_chunks hash_object update fuel unread h = Some (update h unread).
Proof.
  intros Hnil Happ.
  induction fuel as [|fuel IH]; intros unread h Hlen; [lia|].
  cbn [hash_chunks].
  destruct (firstn READ_SIZE unread) as [|b chunk] eqn:F.
  - destruct unread as [|x rest]; [now rewrite Hnil|].
    unfold READ_SIZE in F. discriminate.
  - rewrite IH.
    + rewrite Happ, <- F, firstn_skipn. reflexivity.
    + rewrite length_skipn.
      destruct unread as [|x rest]; [discriminate|].
      cbn [List.length] in *. unfold READ_SIZE. lia.
Qed.

(** X16. [get_file_hash] reads the file in chunks of 4096 bytes and always
    finishes; for a hash object on which an empty update changes nothing and
    successive updates equal one update with the concatenation (as hashlib
    documents), the result is the digest of the whole content fed at once,
    so it depends on the bytes only. *)
Theorem get_file_hash_is_digest_of_content (hash_object : Type)
    (md5 : hash_object)
    (update : hash_object -> list Byte.byte -> hash_object)
    (hexdigest : hash_object -> string) (data : list Byte.byte) :
  (forall h, update h [] = h) ->
  (forall h a b, update (update h a) b = update h (a ++ b)%list) ->
  get_file_hash_bytes hash_object md5 update hexdigest data
  = Some (hexdigest (update md5 data)).
Proof.
  intros Hnil Happ. unfold get_file_hash_bytes.
  rewrite (hash_chunks_whole hash_object update Hnil Happ); [reflexivity|lia].
Qed.

(** ** Letter case of extensions *)

Lemma lower_char_keeps (c : ascii) :
  c = "/"%char \/ c = "."%char ->
  forall x, Ascii.eqb (lower_char x) c = Ascii.eqb x c.
Proof.
  intros [->| ->] x;
    destruct x as [[] [] [] [] [] [] [] []]; reflexivity.
Qed.

Lemma lower_char_idempotent (x : ascii) :
  lower_char (lower_char x) = lower_char x.
Proof. destruct x as [[] [] [] [] [] [] [] []]; reflexivity. Qed.

Lemma lower_idempotent (s : string) : lower (lower s) = lower s.
Proof.
  induction s as [|x rest IH]; [reflexivity|].
  cbn [lower]. now rewrite lower_char_idempotent, IH.
Qed.

Lemma rfind_lower (c : ascii) (s : string) :
  c = "/"%char \/ c = "."%char -> rfind c (lower s) = rfind c s.
Proof.
  intros Hc. induction s as [|x rest IH]; [reflexivity|].
  cbn [lower rfind]. now rewrite IH, (lower_char_keeps c Hc).
Qed.

Lemma drop_lower (n : nat) (s : string) : drop n (lower s) = lower (drop n s).
Proof.
  revert s. induction n as [|n IH]; intros [|x rest]; cbn; auto.
Qed.

Lemma get_lower (i : nat) (s : string) :
  get i (lower s) = option_map lower_char (get i s).
Proof.
  revert i. induction s as [|x rest IH]; intros [|i]; cbn; auto.
Qed.

Lemma splitext_scan_lower (n i j : nat) (p : string) :
  splitext_scan n i j (lower p) = splitext_scan n i j p.
Proof.
  revert i. induction n as [|n IH]; intros i; [reflexivity|].
  cbn [splitext_scan]. rewrite get_lower, IH.
  destruct (get i p) as [c|]; [|reflexivity].
  cbn [option_map]. now rewrite (lower_char_keeps "."%char (or_intror eq_refl)).
Qed.

Lemma splitext_lower (p : string) :
  snd (splitext (lower p)) = lower (snd (splitext p)).
Proof.
  unfold splitext.
  rewrite !rfind_lower by auto. rewrite splitext_scan_lower.
  destruct (rfind "/" p <? rfind "." p)%Z; [|reflexivity].
  destruct (splitext_scan _ _ _ p); [|reflexivity].
  cbn [snd]. apply drop_lower.
Qed.

(** X17. For a path whose characters all lie below U+0100, where
    [str.lower] acts character by character, files are classified without
    regard to letter case: the extension the crawler compares with its
    tables is the same for the path and for the path in lower case, so
    "A.DOCX" is a document and "B.Zip" an archive.  (Beyond that range the
    final-sigma rule of [str.lower] breaks this, and nothing is claimed.) *)
Theorem extension_ignores_letter_case (p : string) :
  lower (snd (splitext (lower p))) = lower (snd (splitext p)) /\
  forall exts, str_in (ext_of (lower p)) exts = str_in (ext_of p) exts.
Proof.
  assert (H : ext_of (lower p) = ext_of p).
  { unfold ext_of. now rewrite splitext_lower, lower_idempotent. }
  split; [exact H|]. intros exts. now rewrite H.
Qed.

(** ** Page numbering of the two PDF readers *)

Lemma pypdf2_pages_marked (texts : list string) :
  forall page_num parts,
    pypdf2_pages (map (fun t => Ok (Some t)) texts) page_num parts =
    Ok (parts ++
        flat_map marked_page
          (combine (seq (page_num + 1) (List.length texts))
             (map Some texts)))%list.
Proof.
  induction texts as [|t texts IH]; intros page_num parts.
  - cbn. now rewrite app_nil_r.
  - cbn [map pypdf2_pages List.length seq combine flat_map].
    rewrite IH. unfold marked_page at 2. cbn [fst snd].
    replace (S page_num + 1) with (S (page_num + 1)) by lia.
    destruct (truthy (strip t)); [|reflexivity].
    now rewrite <- app_assoc.
Qed.

(** X18. The two PDF readers number pages alike: when pdfplumber and PyPDF2
    extract the same text from every page, [parse_pdf_pdfplumber] (counting
    from 1) and [parse_pdf_pypdf2] (counting from 0 and adding 1) return the
    same text, with the same "[Page N]" markers. *)
Theorem pdf_readers_number_pages_alike (f : file) (p : string)
    (s1 s2 : state) (texts : list string) :
  pdfplumber_open f = Ok (map (fun t => Ok (Some t)) texts) ->
  PyPDF2_PdfReader f = Ok (map (fun t => Ok (Some t)) texts) ->
  parse_pdf_pdfplumber f p s1
  = (Ok (clean_text (String.concat LF (marked_pages (map Some texts)))), s1) /\
  parse_pdf_pypdf2 f p s2
  = (Ok (clean_text (String.concat LF (marked_pages (map Some texts)))), s2).
Proof.
  intros H1 H2. split.
  - unfold parse_pdf_pdfplumber, try_except, bind, lift, ret. rewrite H1.
    cbv iota beta.
    replace (map (fun t => Ok (Some t)) texts)
      with (map (@Ok (option string)) (map Some texts))
      by (rewrite map_map; reflexivity).
    rewrite pdfplumber_pages_marked. reflexivity.
  - unfold parse_pdf_pypdf2, try_except, bind, lift, ret. rewrite H2.
    cbv iota beta. rewrite pypdf2_pages_marked.
    unfold marked_pages. rewrite List.length_map. reflexivity.
Qed.

(** X19. When pdfplumber opens a PDF but [extract_text] raises on one of its
    pages, the text already collected from the earlier pages is discarded:
    [parse_pdf_pdfplumber] prints one error line and returns the empty
    string. *)
Theorem pdf_page_failure_discards_reader_text (f : file) (p : string)
    (s : state) (pages : list pdf_page) (e : string) :
  pdfplumber_open f = Ok pages ->
  In (Raise e) pages ->
  exists e',
    parse_pdf_pdfplumber f p s
    = (Ok "", printed s ["Error parsing PDF with pdfplumber " ++ p ++ ": "
                           ++ e']).
Proof.
  intros H Hin. unfold parse_pdf_pdfplumber, try_except, bind, lift. rewrite H.
  destruct (pdfplumber_pages_raise pages e Hin 1 []) as [e' E].
  rewrite E. exists e'. reflexivity.
Qed.

(** ** The crawler when the operating system refuses a file *)


Lemma process_archive_os_unfold (os : os_errors) (a : file)
    (archive_path parent_path : string) :
  _process_archive_os os a archive_path parent_path =
  (let archive_name := basename archive_path in
   let full_path := if truthy parent_path
                    then parent_path ++ "/" ++ archive_name
                    else archive_name in
   print (LF ++ "  Extracting: " ++ full_path) ;;;
   temp_dir <- mkdtemp ;;
   register_temp_dir temp_dir ;;;
   paths <- extract_archive a archive_path temp_dir ;;
   process_members_os os full_path (members a) paths []).
Proof. destruct a; reflexivity. Qed.

Lemma process_members_os_cons (os : os_errors) (full : string) (node : file)
    (nodes : list file) (extracted : string) (paths : list string)
    (results : list document) :
  process_members_os os full (node :: nodes) (extracted :: paths) results =
  if str_in (ext_of extracted) SUPPORTED_archives then
    sub <- _process_archive_os os node extracted full ;;
    process_members_os os full nodes paths (results ++ sub)%list
  else
    doc <- _process_file_os os node extracted full ;;
    match doc with
    | Some d => process_members_os os full nodes paths (results ++ [d])%list
    | None => process_members_os os full nodes paths results
    end.
Proof. reflexivity. Qed.


Lemma reached_leaves_unfold (a : file) :
  reached_leaves a
  = if extracts a then flat_map member_leaves (members a) else [].
Proof. destruct a; reflexivity. Qed.





Lemma process_members_os_raises (os : os_errors) (full dir : string)
    (nodes : list file) :
  Forall (fun a =>
            Exists (fun f => os_readable os f = false) (reached_leaves a) ->
            forall d parent s, exists e s',
              _process_archive_os os a (path_join d (name a)) parent s
              = (Raise e, s')) nodes ->
  Exists (fun f => os_readable os f = false) (flat_map member_leaves nodes) ->
  forall results s, exists e s',
    process_members_os os full nodes
      (map (fun m => path_join dir (name m)) nodes) results s = (Raise e, s').
Proof.
  induction 1 as [|m nodes Hm _ IH]; intros X results s.
  - cbn in X. inversion X.
  - cbn [flat_map] in X. apply Exists_app in X.
    cbn [map]. rewrite process_members_os_cons, ext_of_path_join.
    fold (is_archive m). unfold member_leaves in X.
    destruct (is_archive m).
    + unfold bind.
      destruct (_process_archive_os os m (path_join dir (name m)) full s)
        as [[sub|e] s1] eqn:E; [|eauto].
      destruct X as [X|X]; [|now apply IH].
      destruct (Hm X dir full s) as (e & s' & E'). congruence.
    + unfold is_supported in X.
      destruct (str_in (ext_of (name m))
                  (SUPPORTED_documents ++ SUPPORTED_spreadsheets)) eqn:S.
      * unfold bind.
        destruct (_process_file_os os m (path_join dir (name m)) full s)
          as [[[d|]|e] s1] eqn:E; [| |eauto].
        -- destruct X as [X|X]; [|now apply IH].
           inversion X as [? ? Hu|? ? Hu]; subst; [|inversion Hu].
           destruct (process_file_os_raises os m (path_join dir (name m))
                       full s) as [e E']; [now rewrite ext_of_path_join|
                                           exact Hu|congruence].
        -- destruct X as [X|X]; [|now apply IH].
           inversion X as [? ? Hu|? ? Hu]; subst; [|inversion Hu].
           destruct (process_file_os_raises os m (path_join dir (name m))
                       full s) as [e E']; [now rewrite ext_of_path_join|
                                           exact Hu|congruence].
      * unfold bind. rewrite process_file_os_unsupported
          by (now rewrite ext_of_path_join).
        destruct X as [X|X]; [inversion X|now apply IH].
Qed.

Lemma process_archive_os_raises (os : os_errors) (a : file) :
  Exists (fun f => os_readable os f = false) (reached_leaves a) ->
  forall d parent s, exists e s',
    _process_archive_os os a (path_join d (name a)) parent s = (Raise e, s').
Proof.
  induction a as [a IH] using file_nested_ind.
  intros X d parent s.
  rewrite process_archive_os_unfold. cbv zeta.
  erewrite bind_ok by apply print_printed.
  erewrite bind_ok by reflexivity.
  erewrite bind_ok by reflexivity.
  match goal with
  | |- context [bind (extract_archive a _ ?dir) _ ?st] =>
      destruct (extract_archive_spec a d dir st) as [out E];
      erewrite bind_ok by exact E
  end.
  rewrite reached_leaves_unfold in X.
  destruct (extracts a); [|inversion X].
  now apply process_members_os_raises.
Qed.

(** X20. None of the calls that read a file's size, dates and hash is
    guarded: when one of them raises on a supported file reached inside an
    archive, at any depth, the exception leaves [_process_archive]; the
    records collected so far are not returned. *)
Theorem unreadable_member_aborts_process_archive (os : os_errors) (a : file)
    (d parent : string) (s : state) :
  Exists (fun f => os_readable os f = false) (reached_leaves a) ->
  exists e s',
    _process_archive_os os a (path_join d (name a)) parent s = (Raise e, s').
Proof. intros X. now apply process_archive_os_raises. Qed.






Lemma crawl_file_os_raises (os : os_errors) (root : string) (f : file)
    (s : state) :
  Exists (fun x => os_readable os x = false) (member_leaves f) ->
  exists e s', crawl_file_os os root f s = (Raise e, s').
Proof.
  intros X. unfold crawl_file_os. cbv zeta.
  change (lower (snd (splitext (path_join root (name f)))))
    with (ext_of (path_join root (name f))).
  rewrite ext_of_path_join. fold (is_archive f).
  erewrite bind_ok by apply print_printed.
  unfold member_leaves in X. destruct (is_archive f).
  - destruct (process_archive_os_raises os f X root ""
                (printed s [LF ++ "Found: " ++ name f])) as (e & s' & E).
    unfold bind. rewrite E. eauto.
  - unfold is_supported in X.
    destruct (str_in (ext_of (name f))
                (SUPPORTED_documents ++ SUPPORTED_spreadsheets)) eqn:S;
      [|inversion X].
    inversion X as [? ? Hu|? ? Hu]; subst; [|inversion Hu].
    destruct (process_file_os_raises os f (path_join root (name f)) ""
                (printed s [LF ++ "Found: " ++ name f])) as [e E];
      [now rewrite ext_of_path_join|exact Hu|].
    unfold bind. rewrite E. eauto.
Qed.

Lemma crawl_files_os_raise (os : os_errors) (root : string)
    (files : list file) :
  Exists (fun x => os_readable os x = false) (flat_map member_leaves files) ->
  forall s, exists e s',
    for_each files (fun f => crawl_file_os os root f) s = (Raise e, s').
Proof.
  induction files as [|f files IH]; intros X s; [inversion X|].
  cbn [flat_map] in X. apply Exists_app in X.
  cbn [for_each]. unfold bind.
  destruct (crawl_file_os os root f s) as [[u|e] s1] eqn:E; [|eauto].
  destruct X as [X|X]; [|now apply IH].
  destruct (crawl_file_os_raises os root f s X) as (e & s' & E').
  congruence.
Qed.

Lemma crawl_walk_os_raises (os : os_errors)
    (dirs : list (string * list file)) :
  Exists (fun x => os_readable os x = false) (walk_leaves dirs) ->
  forall s, exists e s',
    for_each dirs (fun '(root, files) =>
      for_each files (fun f => crawl_file_os os root f)) s = (Raise e, s').
Proof.
  unfold walk_leaves.
  induction dirs as [|[root files] dirs IH]; intros X s; [inversion X|].
  cbn [flat_map snd] in X. rewrite flat_map_app in X.
  apply Exists_app in X. cbn [for_each]. unfold bind.
  destruct (for_each files (fun f => crawl_file_os os root f) s)
    as [[u|e] s1] eqn:E; [|eauto].
  destruct X as [X|X]; [|now apply IH].
  destruct (crawl_files_os_raise os root files X s) as (e & s' & E').
  congruence.
Qed.

(** X22. One supported file on which [os.path.getsize], [os.stat] or [open]
    raises, anywhere in the storage tree or inside its archives, aborts the
    whole crawl: the exception leaves [crawl], which returns no record list
    at all. *)
Theorem unreadable_file_aborts_crawl (os : os_errors)
    (dirs : list (string * list file)) (s : state) :
  Exists (fun x => os_readable os x = false) (walk_leaves dirs) ->
  exists e s', crawl_os os (Some dirs) s = (Raise e, s').
Proof.
  intros X. unfold crawl_os.
  do 5 (erewrite bind_ok by reflexivity).
  match goal with
  | |- context [bind (for_each dirs ?body) _ ?st] =>
      destruct (crawl_walk_os_raises os dirs X st) as (e & s' & E)
  end.
  unfold bind at 1. rewrite E. eauto.
Qed.

End Crawler.

(** * The crawler on sample storage trees *)

(** C1. An archive holding two documents, followed by a plain document: the
    two records of the archive both get id 1 and the next record gets id 3,
    because [_process_file] numbers a record with [len(self.documents) + 1]
    while the records of an archive are only added to [self.documents] once
    the whole archive has been processed. *)
Theorem archive_records_share_one_id :
  option_map (map id)
    (match fst (crawl true true sample_tmp
                  (Some [("storage",
                          [sample_archive "x.zip" None
                             [sample_docx "a.docx" ["A"];
                              sample_docx "b.docx" ["B"]];
                           sample_docx "c.docx" ["C"]])]) fresh) with
     | Ok docs => Some docs
     | Raise _ => None
     end)
  = Some [1; 1; 3].
Proof. vm_compute. reflexivity. Qed.

(** C3. A NUL between two spaces: the spaces are separate runs for the
    regular expression, and removing the NUL afterwards leaves them side by
    side; a NUL before a leading space likewise leaves that space in
    front. *)
Theorem clean_text_leaves_double_space :
  clean_text ("a " ++ NUL ++ " b") = "a  b" /\
  clean_text (NUL ++ " a") = " a".
Proof. split; reflexivity. Qed.

(** C4. On the same input a second normalisation changes the text again. *)
Theorem clean_text_twice_differs :
  clean_text ("a " ++ NUL ++ " b") = "a  b" /\
  clean_text (clean_text ("a " ++ NUL ++ " b")) = "a b".
Proof. split; reflexivity. Qed.

(** ** Instances of the general theorems *)

Lemma archive_path_is_provenance_chain_witness :
  exists rs s',
    crawl_file true true sample_tmp "storage" sample_nested fresh = (Ok tt, s') /\
    documents s' = (documents fresh ++ rs)%list /\
    exists r, In r rs /\
      file_name r = "c.docx" /\
      content_hash r = "9e107d9d372bb6826bd81d3542a419d6" /\
      archive_path r = "outer.zip/inner.zip".
Proof.
  apply (proj2 (proj2 (archive_path_is_provenance_chain true true sample_tmp))
           "storage" sample_nested
           (sample_archive "inner.zip" None [sample_docx "c.docx" ["C"]])
           (sample_docx "c.docx" ["C"]) fresh).
  - reflexivity.
  - simpl. auto.
  - reflexivity.
  - simpl. auto.
  - reflexivity.
  - reflexivity.
Defined.

Lemma parse_pdf_fallback_witness :
  parse_pdf_pdfplumber sample_short_pdf "storage/short.pdf" fresh
  = (Ok (clean_text (String.concat LF (marked_pages [Some "Hi"; None]))), fresh)
  /\ parse_pdf sample_long_pdf "storage/long.pdf" fresh
     = (Ok "[Page 1] The quick brown fox jumps over the lazy dog again.", fresh)
  /\ parse_pdf sample_scan_pdf "storage/scan.pdf" fresh
     = (Ok "[Page 1] Hello",
        printed fresh
          ["Error parsing PDF with pdfplumber storage/scan.pdf: No /Root object"])
  /\ parse_pdf sample_short_pdf "storage/short.pdf" fresh
     = (Ok "[Page 1] Hi", fresh)
  /\ parse_pdf sample_broken_pdf "storage/broken.pdf" fresh
     = (Ok NO_TEXT_PDF,
        printed fresh
          ["Error parsing PDF with pdfplumber storage/broken.pdf: No /Root object";
           "Error parsing PDF with PyPDF2 storage/broken.pdf: EOF marker not found"]).
Proof.
  split; [|split; [|split; [|split]]].
  - apply (proj1 (parse_pdf_fallback sample_short_pdf "storage/short.pdf" fresh)
             [Some "Hi"; None]).
    reflexivity.
  - apply (proj1 (proj2 (proj2 (proj2
             (parse_pdf_fallback sample_long_pdf "storage/long.pdf" fresh))))).
    + reflexivity.
    + simpl. lia.
  - refine (proj1 (proj2 (proj2 (proj2 (proj2
             (parse_pdf_fallback sample_scan_pdf "storage/scan.pdf" fresh))))
             "" _ "[Page 1] Hello" _ _ _ _) _).
    + reflexivity.
    + simpl. lia.
    + reflexivity.
    + simpl. lia.
  - refine (proj1 (proj2 (proj2 (proj2 (proj2 (proj2
             (parse_pdf_fallback sample_short_pdf "storage/short.pdf" fresh))))
             "[Page 1] Hi" _ "" _ _ _ _)) _ _).
    + reflexivity.
    + simpl. lia.
    + reflexivity.
    + simpl. lia.
    + discriminate.
  - refine (proj2 (proj2 (proj2 (proj2 (proj2 (proj2
             (parse_pdf_fallback sample_broken_pdf "storage/broken.pdf" fresh))))
             "" _ "" _ _ _ _)) _ _).
    + reflexivity.
    + simpl. lia.
    + reflexivity.
    + reflexivity.
    + reflexivity.
Defined.

(** C6, as stated, fails on a PDF whose primary reader raises while the
    secondary one reads it: the record's content is the secondary reader's
    text, not a placeholder. *)
Lemma pdf_reader_exception_without_placeholder :
  pdfplumber_open sample_scan_pdf = Raise "No /Root object" /\
  exists d s',
    _process_file sample_scan_pdf "storage/scan.pdf" "" fresh
    = (Ok (Some d), s') /\
    content d = "[Page 1] Hello" /\
    is_failure_placeholder (content d) = false.
Proof.
  split; [reflexivity|].
  eexists. eexists. split; [lazy; reflexivity|]. split; reflexivity.
Qed.

Lemma reader_exceptions_are_contained_witness :
  (exists d c out out',
     parse_document (sample_file "a.docx") "storage/a.docx"
       (ext_of "storage/a.docx")
       (printed fresh ["  Processing: " ++ basename "storage/a.docx"])
     = (Ok c, printed fresh out) /\
     _process_file (sample_file "a.docx") "storage/a.docx" "" fresh
     = (Ok (Some d), printed fresh out') /\
     content d = c) /\
  (fst (parse_document (sample_file "a.docx") "storage/a.docx" ".docx" fresh)
   = Ok "[Error parsing DOCX: Package not found]" /\
   fst (parse_document (sample_file "a.docx") "storage/a.docx" ".doc" fresh)
   = Ok "[Error parsing DOCX: Package not found]") /\
  fst (parse_document (sample_file "a.xlsx") "storage/a.xlsx" ".xlsx" fresh)
  = Ok "[Error parsing XLSX: File is not a zip file]" /\
  fst (parse_document (sample_file "a.xls") "storage/a.xls" ".xls" fresh)
  = Ok "[Error parsing XLS: Unsupported format, or corrupt file]" /\
  fst (parse_document sample_scan_pdf "storage/scan.pdf" ".pdf" fresh)
  = Ok "[Page 1] Hello" /\
  fst (parse_document sample_broken_pdf "storage/broken.pdf" ".pdf" fresh)
  = Ok NO_TEXT_PDF /\
  (exists d c out out',
     parse_document (sample_file "a.docx") "storage/a.docx"
       (ext_of "storage/a.docx")
       (printed fresh ["  Processing: " ++ basename "storage/a.docx"])
     = (Ok c, printed fresh out) /\
     _process_file_os sample_os_errors (sample_file "a.docx")
       "storage/a.docx" "" fresh
     = (Ok (Some d), printed fresh out') /\
     content d = c) /\
  fst (parse_pdf_pdfplumber sample_failing_page_pdf "storage/page.pdf" fresh)
  = Ok "" /\
  fst (parse_pdf_pypdf2 sample_two_failing_pdf "storage/both.pdf" fresh)
  = Ok "" /\
  fst (parse_document sample_failing_page_pdf "storage/page.pdf" ".pdf" fresh)
  = Ok NO_TEXT_PDF /\
  fst (parse_document sample_backup_fails_pdf "storage/short2.pdf" ".pdf"
         fresh)
  = Ok "[Page 1] Hi" /\
  fst (parse_document sample_two_failing_pdf "storage/both.pdf" ".pdf" fresh)
  = Ok NO_TEXT_PDF.
Proof.
  assert (F1 : pdfplumber_fails sample_failing_page_pdf).
  { right. exists [Ok (Some "Hello"); Raise "bad page"], "bad page".
    split; [reflexivity|]. simpl. auto. }
  assert (F2 : pypdf2_fails sample_two_failing_pdf).
  { right. exists [Ok None]. split; [reflexivity|]. right. simpl. auto. }
  assert (F3 : pypdf2_fails sample_backup_fails_pdf).
  { right. exists [Raise "bad page"]. split; [reflexivity|].
    left. exists "bad page". simpl. auto. }
  assert (F4 : pdfplumber_fails sample_two_failing_pdf).
  { right. exists [Ok (Some "Hello"); Raise "bad page"], "bad page".
    split; [reflexivity|]. simpl. auto. }
  repeat apply conj.
  - apply (proj1 (proj2 (reader_exceptions_are_contained
             (sample_file "a.docx") "storage/a.docx" "" fresh))).
    reflexivity.
  - apply (proj1 (proj2 (proj2 (reader_exceptions_are_contained
             (sample_file "a.docx") "storage/a.docx" "" fresh)))
             "Package not found").
    reflexivity.
  - apply (proj1 (proj2 (proj2 (reader_exceptions_are_contained
             (sample_file "a.docx") "storage/a.docx" "" fresh)))
             "Package not found").
    reflexivity.
  - apply (proj1 (proj2 (proj2 (proj2 (reader_exceptions_are_contained
             (sample_file "a.xlsx") "storage/a.xlsx" "" fresh))))
             "File is not a zip file").
    reflexivity.
  - apply (proj1 (proj2 (proj2 (proj2 (proj2 (reader_exceptions_are_contained
             (sample_file "a.xls") "storage/a.xls" "" fresh)))))
             "Unsupported format, or corrupt file").
    reflexivity.
  - refine (proj1 (proj2 (proj2 (proj2 (proj2 (proj2
             (reader_exceptions_are_contained
                sample_scan_pdf "storage/scan.pdf" "" fresh))))))
             "No /Root object" "[Page 1] Hello" _ _ _).
    + reflexivity.
    + reflexivity.
  - apply (proj1 (proj2 (proj2 (proj2 (proj2 (proj2 (proj2
             (reader_exceptions_are_contained
                sample_broken_pdf "storage/broken.pdf" "" fresh)))))))
             "No /Root object" "EOF marker not found").
    + reflexivity.
    + reflexivity.
  - destruct (reader_exceptions_are_contained (sample_file "a.docx")
                "storage/a.docx" "" fresh)
      as (_ & _ & _ & _ & _ & _ & _ & H & _).
    apply (H sample_os_errors); reflexivity.
  - destruct (reader_exceptions_are_contained sample_failing_page_pdf
                "storage/page.pdf" "" fresh)
      as (_ & _ & _ & _ & _ & _ & _ & _ & H & _).
    exact (H F1).
  - destruct (reader_exceptions_are_contained sample_two_failing_pdf
                "storage/both.pdf" "" fresh)
      as (_ & _ & _ & _ & _ & _ & _ & _ & _ & H & _).
    exact (H fresh F2).
  - destruct (reader_exceptions_are_contained sample_failing_page_pdf
                "storage/page.pdf" "" fresh)
      as (_ & _ & _ & _ & _ & _ & _ & _ & _ & _ & H & _).
    refine (H "" _ F1 _). reflexivity.
  - destruct (reader_exceptions_are_contained sample_backup_fails_pdf
                "storage/short2.pdf" "" fresh)
      as (_ & _ & _ & _ & _ & _ & _ & _ & _ & _ & _ & H & _).
    refine (H "[Page 1] Hi" _ F3 _). reflexivity.
  - destruct (reader_exceptions_are_contained sample_two_failing_pdf
                "storage/both.pdf" "" fresh)
      as (_ & _ & _ & _ & _ & _ & _ & _ & _ & _ & _ & _ & H).
    exact (H F4 F2).
Defined.

Lemma unsupported_extension_yields_nothing_witness :
  _process_file (sample_file "notes.txt") "storage/notes.txt" "" fresh
  = (Ok None, fresh) /\
  crawl_file true true sample_tmp "storage" (sample_file "notes.txt") fresh
  = (Ok tt, printed fresh [LF ++ "Found: notes.txt"]) /\
  process_members true true sample_tmp "x.zip"
    ([sample_docx "a.docx" ["A"]] ++ sample_file "notes.txt"
       :: [sample_docx "b.docx" ["B"]])
    (map (fun x => path_join "/tmp/crawler_0" (name x))
       ([sample_docx "a.docx" ["A"]] ++ sample_file "notes.txt"
          :: [sample_docx "b.docx" ["B"]])) [] fresh
  = process_members true true sample_tmp "x.zip"
      ([sample_docx "a.docx" ["A"]] ++ [sample_docx "b.docx" ["B"]])
      (map (fun x => path_join "/tmp/crawler_0" (name x))
         ([sample_docx "a.docx" ["A"]] ++ [sample_docx "b.docx" ["B"]]))
      [] fresh.
Proof.
  split; [|split].
  - apply (proj1 (unsupported_extension_yields_nothing true true sample_tmp)).
    reflexivity.
  - apply (proj1 (proj2
             (unsupported_extension_yields_nothing true true sample_tmp)));
      reflexivity.
  - apply (proj2 (proj2
             (unsupported_extension_yields_nothing true true sample_tmp)));
      reflexivity.
Defined.

Lemma failed_extraction_only_empties_its_subtree_witness :
  (exists s',
     _process_archive true true sample_tmp sample_bad_zip
       (path_join "storage" (name sample_bad_zip)) "" fresh = (Ok [], s') /\
     documents s' = documents fresh) /\
  (exists rs rs' s1 s2,
     crawl true true sample_tmp
       (Some ([] ++ ("storage",
                     [sample_docx "a.docx" ["A"]] ++ sample_bad_zip
                       :: [sample_docx "b.docx" ["B"]]) :: [])%list) fresh
     = (Ok (documents fresh ++ rs)%list, s1) /\
     crawl true true sample_tmp
       (Some ([] ++ ("storage",
                     [sample_docx "a.docx" ["A"]]
                       ++ [sample_docx "b.docx" ["B"]]) :: [])%list) fresh
     = (Ok (documents fresh ++ rs')%list, s2) /\
     map erase rs = map erase rs') /\
  (exists rs rs' s1 s2,
     _process_archive true true sample_tmp
       (sample_archive "x.zip" None
          [sample_docx "a.docx" ["A"]; sample_bad_zip;
           sample_docx "b.docx" ["B"]])
       (path_join "storage" "x.zip") "" fresh = (Ok rs, s1) /\
     _process_archive true true sample_tmp
       (with_members
          (sample_archive "x.zip" None
             [sample_docx "a.docx" ["A"]; sample_bad_zip;
              sample_docx "b.docx" ["B"]])
          ([sample_docx "a.docx" ["A"]] ++ [sample_docx "b.docx" ["B"]])%list)
       (path_join "storage" "x.zip") "" fresh = (Ok rs', s2) /\
     map erase rs = map erase rs') /\
  (exists rs s1,
     crawl true true sample_tmp
       (Some ([] ++ ("storage",
                     [sample_docx "a.docx" ["A"]] ++ sample_bad_zip
                       :: [sample_docx "b.docx" ["B"]]) :: [])%list) fresh
     = (Ok (documents fresh ++ rs)%list, s1) /\
     map erase rs
     = expected_records
         (expected true true
            ([] ++ ("storage",
                    [sample_docx "a.docx" ["A"]]
                      ++ [sample_docx "b.docx" ["B"]]) :: [])%list) /\
     exists r, In r rs /\
       file_name r = "b.docx" /\
       file_size r = 12%Z /\
       content_hash r = "9e107d9d372bb6826bd81d3542a419d6" /\
       archive_path r = "") /\
  (exists rs s1,
     _process_archive true true sample_tmp
       (sample_archive "x.zip" None
          [sample_docx "a.docx" ["A"]; sample_bad_zip;
           sample_docx "b.docx" ["B"]])
       (path_join "storage" "x.zip") "" fresh = (Ok rs, s1) /\
     map erase rs
     = expected_records
         (flat_map (expected_member true true ([] ++ ["x.zip"])%list)
            ([sample_docx "a.docx" ["A"]] ++ [sample_docx "b.docx" ["B"]])) /\
     exists r, In r rs /\
       file_name r = "b.docx" /\
       file_size r = 12%Z /\
       content_hash r = "9e107d9d372bb6826bd81d3542a419d6" /\
       archive_path r = "x.zip").
Proof.
  repeat apply conj.
  - apply (proj1 (failed_extraction_only_empties_its_subtree
                    true true sample_tmp)).
    reflexivity.
  - apply (proj1 (proj2 (failed_extraction_only_empties_its_subtree
                           true true sample_tmp))); reflexivity.
  - apply (proj1 (proj2 (proj2 (failed_extraction_only_empties_its_subtree
                           true true sample_tmp)))
             (sample_archive "x.zip" None
                [sample_docx "a.docx" ["A"]; sample_bad_zip;
                 sample_docx "b.docx" ["B"]])
             [sample_docx "a.docx" ["A"]] sample_bad_zip
             [sample_docx "b.docx" ["B"]]); reflexivity.
  - destruct (proj1 (proj2 (proj2 (proj2
                (failed_extraction_only_empties_its_subtree
                   true true sample_tmp))))
                [] "storage" [sample_docx "a.docx" ["A"]] sample_bad_zip
                [sample_docx "b.docx" ["B"]] [] fresh eq_refl eq_refl)
      as (rs & s1 & E & V & H).
    exists rs, s1. split; [exact E|]. split; [exact V|].
    apply (H (sample_docx "b.docx" ["B"])).
    + simpl. auto.
    + reflexivity.
    + reflexivity.
  - destruct (proj2 (proj2 (proj2 (proj2
                (failed_extraction_only_empties_its_subtree
                   true true sample_tmp))))
                (sample_archive "x.zip" None
                   [sample_docx "a.docx" ["A"]; sample_bad_zip;
                    sample_docx "b.docx" ["B"]])
                [sample_docx "a.docx" ["A"]] sample_bad_zip
                [sample_docx "b.docx" ["B"]] "storage" "" [] fresh
                eq_refl eq_refl eq_refl eq_refl eq_refl
                (fun H => False_ind _ (H eq_refl)))
      as (rs & s1 & E & V & H).
    exists rs, s1. split; [exact E|]. split; [exact V|].
    apply (H (sample_docx "b.docx" ["B"])).
    + simpl. auto.
    + reflexivity.
    + reflexivity.
Defined.

(** C9, as stated, fails: the second crawl of one crawler, over a storage
    that holds only b.docx, also returns the record of a.docx that the first
    crawl found. *)
Lemma second_crawl_returns_first_records :
  exists first s1 second s2,
    crawl true true sample_tmp
      (Some [("storage", [sample_docx "a.docx" ["A"]])])
      (__init__ "storage" "output/extracted_data.csv" fresh) = (Ok first, s1) /\
    crawl true true sample_tmp
      (Some [("storage", [sample_docx "b.docx" ["B"]])]) s1 = (Ok second, s2) /\
    map file_name second = ["a.docx"; "b.docx"] /\
    map id second = [1; 2] /\
    map erase second
    <> expected_records
         (expected true true [("storage", [sample_docx "b.docx" ["B"]])]).
Proof.
  do 4 eexists. split; [lazy; reflexivity|]. split; [lazy; reflexivity|].
  split; [reflexivity|]. split; [reflexivity|].
  intros H. apply (f_equal (@List.length document)) in H.
  vm_compute in H. discriminate.
Qed.

Lemma crawl_appends_to_earlier_records_witness :
  exists found1 found2 s1 s2,
    crawl true true sample_tmp
      (Some [("storage", [sample_docx "a.docx" ["A"]])]) fresh
    = (Ok found1, s1) /\
    crawl true true sample_tmp
      (Some [("storage", [sample_docx "b.docx" ["B"]])]) s1
    = (Ok (found1 ++ found2)%list, s2) /\
    map erase found1
    = expected_records
        (expected true true [("storage", [sample_docx "a.docx" ["A"]])]) /\
    map erase found2
    = expected_records
        (expected true true [("storage", [sample_docx "b.docx" ["B"]])]).
Proof.
  apply (proj2 (proj2 (crawl_appends_to_earlier_records true true sample_tmp))).
  reflexivity.
Defined.

Lemma unsupported_branch_unreachable_witness :
  exists q,
    dict_get parsers (ext_of "storage/a.docx") = Some q /\
    (q = parse_docx \/ q = parse_xlsx \/ q = parse_xls \/ q = parse_pdf) /\
    parse_document (sample_docx "a.docx" ["A"]) "storage/a.docx"
      (ext_of "storage/a.docx")
    = q (sample_docx "a.docx" ["A"]) "storage/a.docx" /\
    fst (q (sample_docx "a.docx" ["A"]) "storage/a.docx"
           (printed fresh ["  Processing: " ++ basename "storage/a.docx"]))
    = Ok "A".
Proof.
  apply (unsupported_branch_unreachable (sample_docx "a.docx" ["A"])
           "storage/a.docx" "" fresh
           (printed fresh ["  Processing: a.docx"])
           (mkDocument 1 "storage/a.docx" "a.docx" document_t 12 "A" ""
              "2024-01-01T00:00:00" "9e107d9d372bb6826bd81d3542a419d6")).
  reflexivity.
Defined.

(** The scenario of the spec (8): a.docx with one paragraph, then x.zip
    holding b.xlsx with sheet "Data" and one row. *)
Example spec_scenario :
  option_map (map (fun d => (id d, file_type d, content d, archive_path d)))
    (match fst (crawl true true sample_tmp
                  (Some [("storage/documents",
                          [sample_docx "a.docx" ["Hello world"]]);
                         ("storage/archives",
                          [sample_archive "x.zip" None
                             [mkFile "b.xlsx" 78 "2024-01-01T00:00:00"
                                "2024-01-01T00:00:00"
                                "45c48cce2e2d7fbdea1afc51c7c6ad26"
                                (Raise "Package not found")
                                (Ok [mkXlsx "Data" [[Some "A"; Some "B"]]])
                                (Raise "Unsupported format, or corrupt file")
                                (Raise "No /Root object")
                                (Raise "EOF marker not found")
                                (Some "File is not a zip file") []]])])
                  fresh) with
     | Ok docs => Some docs
     | Raise _ => None
     end)
  = Some [(1, document_t, "Hello world", "");
          (2, spreadsheet_t, "[Sheet: Data] A | B", "x.zip")].
Proof. vm_compute. reflexivity. Qed.

(** ** Instances of the further properties *)

Lemma clean_text_normalises_text_without_nul_witness :
  collapsed false (clean_text ("  a " ++ LF ++ " b ")) = true /\
  strip (clean_text ("  a " ++ LF ++ " b "))
  = clean_text ("  a " ++ LF ++ " b ") /\
  clean_text (clean_text ("  a " ++ LF ++ " b "))
  = clean_text ("  a " ++ LF ++ " b ").
Proof.
  apply (clean_text_normalises_text_without_nul ("  a " ++ LF ++ " b ")).
  reflexivity.
Defined.

Lemma clean_text_of_blank_text_witness :
  clean_text ("  " ++ LF ++ TAB) = "".
Proof.
  apply (clean_text_of_blank_text ("  " ++ LF ++ TAB)). reflexivity.
Defined.

Lemma process_file_record_witness :
  id (mkDocument 1 "storage/a.docx" "a.docx" document_t 12 "A" "x.zip"
        "2024-01-01T00:00:00" "9e107d9d372bb6826bd81d3542a419d6")
  = List.length (documents fresh) + 1 /\
  "storage/a.docx" = "storage/a.docx" /\
  "a.docx" = basename "storage/a.docx" /\
  "x.zip" = "x.zip" /\
  12%Z = st_size (sample_docx "a.docx" ["A"]) /\
  "2024-01-01T00:00:00" = created_iso (sample_docx "a.docx" ["A"]) /\
  "9e107d9d372bb6826bd81d3542a419d6"
  = md5_hexdigest (sample_docx "a.docx" ["A"]) /\
  "A" = content_of (sample_docx "a.docx" ["A"]) (ext_of "storage/a.docx") /\
  (document_t = document_t <->
   str_in (ext_of "storage/a.docx") SUPPORTED_documents = true) /\
  (document_t = spreadsheet_t <->
   str_in (ext_of "storage/a.docx") SUPPORTED_spreadsheets = true) /\
  documents (printed fresh ["  Processing: a.docx"]) = documents fresh.
Proof.
  apply (process_file_record (sample_docx "a.docx" ["A"]) "storage/a.docx"
           "x.zip" fresh (printed fresh ["  Processing: a.docx"])
           (mkDocument 1 "storage/a.docx" "a.docx" document_t 12 "A" "x.zip"
              "2024-01-01T00:00:00" "9e107d9d372bb6826bd81d3542a419d6")).
  reflexivity.
Defined.


Lemma error_placeholder_keeps_message_witness :
  (exists c s',
     parse_document sample_two_line_error "storage/b.docx" ".docx" fresh
     = (Ok c, s') /\ occurs "010"%char c = true) /\
  (exists c s',
     parse_document sample_two_line_error "storage/b.docx" ".xlsx" fresh
     = (Ok c, s') /\ occurs "010"%char c = true) /\
  (exists c s',
     parse_document sample_two_line_error "storage/b.docx" ".xls" fresh
     = (Ok c, s') /\ occurs "010"%char c = true).
Proof.
  destruct (error_placeholder_keeps_message sample_two_line_error
              "storage/b.docx" fresh ("bad" ++ LF ++ "file") "010"%char
              eq_refl) as (H1 & H2 & H3).
  split; [|split].
  - apply H1. reflexivity.
  - apply H2. reflexivity.
  - apply H3. reflexivity.
Defined.


Lemma unreadable_member_aborts_process_archive_witness :
  exists e s',
    _process_archive_os true true sample_tmp sample_os_errors
      sample_locked_tree (path_join "storage" (name sample_locked_tree)) ""
      fresh = (Raise e, s').
Proof.
  apply (unreadable_member_aborts_process_archive true true sample_tmp
           sample_os_errors sample_locked_tree "storage" "" fresh).
  apply Exists_cons_tl. apply Exists_cons_hd. reflexivity.
Defined.

Lemma crawl_ids_sequential_without_multi_record_archives_witness :
  exists rs s',
    crawl true true sample_tmp
      (Some [("storage", [sample_docx "a.docx" ["A"]; sample_nested;
                          sample_file "notes.txt"]);
             ("storage/more", [sample_docx "b.docx" ["B"]])]) fresh
    = (Ok rs, s') /\
    map id rs = seq 1 (List.length rs).
Proof.
  apply (crawl_ids_sequential_without_multi_record_archives true true
           sample_tmp).
  - reflexivity.
  - repeat constructor.
Defined.

Lemma extract_archive_lists_member_paths_witness :
  extract_archive true true sample_nested
    (path_join "storage" (name sample_nested)) "/tmp/crawler_0" fresh
  = (Ok (map (fun m => path_join "/tmp/crawler_0" (name m))
           (members sample_nested)), fresh).
Proof.
  apply (extract_archive_lists_member_paths true true). reflexivity.
Defined.

Lemma extract_archive_failures_witness :
  extract_archive true true sample_bad_zip
    (path_join "storage" (name sample_bad_zip)) "/tmp/crawler_0" fresh
  = (Ok [], printed fresh
              ["Error extracting ZIP "
               ++ path_join "storage" (name sample_bad_zip)
               ++ ": " ++ "File is not a zip file"]) /\
  extract_archive true true (sample_archive "b.7z" (Some "Bad7zFile") [])
    (path_join "storage" "b.7z") "/tmp/crawler_0" fresh
  = (Ok [], printed fresh
              ["Error extracting 7z " ++ path_join "storage" "b.7z"
               ++ ": " ++ "Bad7zFile"]) /\
  extract_archive true true (sample_archive "c.rar" (Some "NotRarFile") [])
    (path_join "storage" "c.rar") "/tmp/crawler_0" fresh
  = (Ok [], printed fresh
              ["Error extracting RAR " ++ path_join "storage" "c.rar"
               ++ ": " ++ "NotRarFile"]) /\
  extract_archive false true
    (sample_archive "b.7z" None [sample_docx "a.docx" ["A"]])
    (path_join "storage" "b.7z") "/tmp/crawler_0" fresh = (Ok [], fresh) /\
  extract_archive true false
    (sample_archive "c.rar" None [sample_docx "a.docx" ["A"]])
    (path_join "storage" "c.rar") "/tmp/crawler_0" fresh = (Ok [], fresh) /\
  extract_archive true true (sample_file "notes.txt")
    (path_join "storage" "notes.txt") "/tmp/crawler_0" fresh
  = (Ok [], printed fresh ["Unsupported archive format: "
                           ++ ext_of "notes.txt"]).
Proof.
  split; [|split; [|split; [|split; [|split]]]].
  - apply (proj1 (extract_archive_failures true true sample_bad_zip
                    "storage" "/tmp/crawler_0" fresh)); reflexivity.
  - apply (proj1 (proj2 (extract_archive_failures true true
                    (sample_archive "b.7z" (Some "Bad7zFile") [])
                    "storage" "/tmp/crawler_0" fresh))); reflexivity.
  - apply (proj1 (proj2 (proj2 (extract_archive_failures true true
                    (sample_archive "c.rar" (Some "NotRarFile") [])
                    "storage" "/tmp/crawler_0" fresh)))); reflexivity.
  - apply (proj1 (proj2 (proj2 (proj2 (extract_archive_failures false true
                    (sample_archive "b.7z" None [sample_docx "a.docx" ["A"]])
                    "storage" "/tmp/crawler_0" fresh))))); reflexivity.
  - apply (proj1 (proj2 (proj2 (proj2 (proj2 (extract_archive_failures
                    true false
                    (sample_archive "c.rar" None [sample_docx "a.docx" ["A"]])
                    "storage" "/tmp/crawler_0" fresh)))))); reflexivity.
  - apply (proj2 (proj2 (proj2 (proj2 (proj2 (extract_archive_failures
                    true true (sample_file "notes.txt")
                    "storage" "/tmp/crawler_0" fresh)))))); reflexivity.
Defined.

Lemma get_file_hash_is_digest_of_content_witness :
  get_file_hash_bytes (list Byte.byte) [] (@app Byte.byte)
    string_of_list_byte [Byte.x61; Byte.x62; Byte.x63]
  = Some (string_of_list_byte ([] ++ [Byte.x61; Byte.x62; Byte.x63])%list).
Proof.
  apply (get_file_hash_is_digest_of_content (list Byte.byte) []
           (@app Byte.byte) string_of_list_byte).
  - intros h. apply app_nil_r.
  - intros h a b. symmetry. apply app_assoc.
Defined.

Lemma pdf_readers_number_pages_alike_witness :
  parse_pdf_pdfplumber sample_two_page_pdf "storage/two.pdf" fresh
  = (Ok (clean_text
           (String.concat LF (marked_pages (map Some ["Hello"; "World"])))),
     fresh) /\
  parse_pdf_pypdf2 sample_two_page_pdf "storage/two.pdf" fresh
  = (Ok (clean_text
           (String.concat LF (marked_pages (map Some ["Hello"; "World"])))),
     fresh).
Proof.
  apply (pdf_readers_number_pages_alike sample_two_page_pdf "storage/two.pdf"
           fresh fresh ["Hello"; "World"]); reflexivity.
Defined.

Lemma pdf_page_failure_discards_reader_text_witness :
  exists e',
    parse_pdf_pdfplumber sample_failing_page_pdf "storage/page.pdf" fresh
    = (Ok "", printed fresh ["Error parsing PDF with pdfplumber "
                             ++ "storage/page.pdf" ++ ": " ++ e']).
Proof.
  apply (pdf_page_failure_discards_reader_text sample_failing_page_pdf
           "storage/page.pdf" fresh
           [Ok (Some "Hello"); Raise "bad page"] "bad page").
  - reflexivity.
  - simpl. auto.
Defined.


Lemma unreadable_file_aborts_crawl_witness :
  exists e s',
    crawl_os true true sample_tmp sample_os_errors
      (Some [("storage", [sample_docx "a.docx" ["A"]; sample_locked_tree;
                          sample_docx "z.docx" ["Z"]])]) fresh
    = (Raise e, s').
Proof.
  apply (unreadable_file_aborts_crawl true true sample_tmp sample_os_errors).
  apply Exists_cons_tl. apply Exists_cons_tl. apply Exists_cons_hd.
  reflexivity.
Defined.

(** The same tree evaluated: the crawl stops at locked.docx with the error
    of [open], after a.docx of the storage and a.docx of the archive. *)
Example unreadable_file_trace :
  fst (crawl_os true true sample_tmp sample_os_errors
         (Some [("storage", [sample_docx "a.docx" ["A"]; sample_locked_tree;
                             sample_docx "z.docx" ["Z"]])]) fresh)
  = Raise "[Errno 13] Permission denied".
Proof. vm_compute. reflexivity. Qed.
